(** * fortiosapi: a shallow embedding of [fortiosapi/fortiosapi.py]

    The class [FortiOSAPI] keeps one [requests] session and a handful of
    attributes; every method reads and writes them and talks to the appliance
    through that session.  The embedding keeps that shape:

    - Python values that travel through the module (JSON documents, payload
      dictionaries, identity keys) are terms of [pyval]; dictionaries are
      association lists in insertion order, as iteration order matters;
    - a method is a state transformer over [world] that either returns or
      raises; what was written before a raise stays written;
    - what the module does not contain (the HTTP transport, [json], [urllib],
      [repr]) is a variable of the section. *)

From Stdlib Require Import String Ascii List ZArith Bool Lia DecimalString.
Import ListNotations.
Open Scope string_scope.
Open Scope Z_scope.

Set Implicit Arguments.
Set Warnings "-register-all".

(** ** Python values *)

(** Floating point numbers and tuples are left out. *)
Inductive pyval : Type :=
| VNone
| VBool (b : bool)
| VInt (z : Z)
| VStr (s : string)
| VList (l : list pyval)
| VDict (d : list (pyval * pyval)).

Definition dict := list (pyval * pyval).

(** Exceptions that the module raises itself or lets escape. *)
Inductive exn : Type :=
| NotLogged
| InvalidLicense
| PyException (msg : string)      (* raise Exception(msg) *)
| KeyError
| TypeError
| IndexError
| AttributeError
| ValueError                      (* json.JSONDecodeError, UnicodeDecodeError *)
| RequestException.               (* anything the transport raises *)

Inductive result (A : Type) : Type :=
| Ok (a : A)
| Raise (e : exn).
Arguments Ok {A} a.
Arguments Raise {A} e.

Definition rbind {A B} (r : result A) (k : A -> result B) : result B :=
  match r with
  | Ok a => k a
  | Raise e => Raise e
  end.

Declare Scope result_scope.
Delimit Scope result_scope with result.
Notation "x <-? r ;; k" := (rbind r (fun x => k))
  (at level 100, r at next level, right associativity) : result_scope.

(** [bool(v)] *)
Definition truthy (v : pyval) : bool :=
  match v with
  | VNone => false
  | VBool b => b
  | VInt z => negb (z =? 0)
  | VStr s => negb (String.eqb s "")
  | VList l => match l with [] => false | _ => true end
  | VDict d => match d with [] => false | _ => true end
  end.

(** [isinstance(v, dict)] *)
Definition is_dict (v : pyval) : bool :=
  match v with VDict _ => true | _ => false end.

(** Lists and dictionaries cannot be hashed, so they cannot be keys. *)
Definition hashable (v : pyval) : bool :=
  match v with
  | VList _ | VDict _ => false
  | _ => true
  end.

(** Equality of keys: [True == 1] and [False == 0], with equal hashes. *)
Definition key_eqb (a b : pyval) : bool :=
  match a, b with
  | VNone, VNone => true
  | VBool x, VBool y => Bool.eqb x y
  | VBool x, VInt y | VInt y, VBool x => (if x then 1 else 0) =? y
  | VInt x, VInt y => x =? y
  | VStr x, VStr y => String.eqb x y
  | _, _ => false
  end.

(** [v == "..."] for a string literal and [v == n] for an integer literal. *)
Definition eq_str (v : pyval) (s : string) : bool :=
  match v with VStr t => String.eqb t s | _ => false end.

Definition eq_int (v : pyval) (n : Z) : bool :=
  match v with
  | VInt z => z =? n
  | VBool b => (if b then 1 else 0) =? n
  | _ => false
  end.

(** *** Dictionaries *)

Fixpoint dict_get (d : dict) (k : pyval) : option pyval :=
  match d with
  | [] => None
  | (k', v) :: d' => if key_eqb k' k then Some v else dict_get d' k
  end.

(** [d[k] = v]: an existing key keeps its place, a new one goes last. *)
Fixpoint dict_set (d : dict) (k v : pyval) : dict :=
  match d with
  | [] => [(k, v)]
  | (k', v') :: d' =>
      if key_eqb k' k then (k', v) :: d' else (k', v') :: dict_set d' k v
  end.

(** [del d[k]] *)
Fixpoint dict_del (d : dict) (k : pyval) : result dict :=
  match d with
  | [] => Raise KeyError
  | (k', v') :: d' =>
      if key_eqb k' k then Ok d'
      else match dict_del d' k with
           | Ok d'' => Ok ((k', v') :: d'')
           | Raise e => Raise e
           end
  end.

Definition dict_keys (d : dict) : list pyval := map fst d.

(** An index usable on a sequence: an [int], or a [bool] as [0]/[1]. *)
Definition as_index (k : pyval) : option Z :=
  match k with
  | VInt z => Some z
  | VBool b => Some (if b then 1 else 0)
  | _ => None
  end.

Definition seq_index {A} (l : list A) (i : Z) : option A :=
  let n := Z.of_nat (List.length l) in
  let j := if i <? 0 then i + n else i in
  if (j <? 0) || (n <=? j) then None else nth_error l (Z.to_nat j).

(** [o[k]] *)
Definition getitem (o k : pyval) : result pyval :=
  match o with
  | VDict d =>
      if hashable k then
        match dict_get d k with Some v => Ok v | None => Raise KeyError end
      else Raise TypeError
  | VList l =>
      match as_index k with
      | Some i => match seq_index l i with Some v => Ok v | None => Raise IndexError end
      | None => Raise TypeError
      end
  | VStr s =>
      match as_index k with
      | Some i =>
          match seq_index (list_ascii_of_string s) i with
          | Some c => Ok (VStr (String c EmptyString))
          | None => Raise IndexError
          end
      | None => Raise TypeError
      end
  | _ => Raise TypeError
  end.

Fixpoint list_set {A} (l : list A) (n : nat) (v : A) : list A :=
  match l, n with
  | [], _ => []
  | _ :: l', O => v :: l'
  | x :: l', S n' => x :: list_set l' n' v
  end.

(** [o[k] = v], giving the updated object. *)
Definition setitem (o k v : pyval) : result pyval :=
  match o with
  | VDict d => if hashable k then Ok (VDict (dict_set d k v)) else Raise TypeError
  | VList l =>
      match as_index k with
      | Some i =>
          let n := Z.of_nat (List.length l) in
          let j := if i <? 0 then i + n else i in
          if (j <? 0) || (n <=? j) then Raise IndexError
          else Ok (VList (list_set l (Z.to_nat j) v))
      | None => Raise TypeError
      end
  | _ => Raise TypeError
  end.

(** *** Strings *)

(** [s[1:-1]] *)
Definition slice_1_m1 (s : string) : string :=
  String.substring 1 (String.length s - 2) s.

Definition str_of_Z (z : Z) : string := NilZero.string_of_int (Z.to_int z).

(** Lower case of one character, for header names. *)
Definition lower_ascii (c : ascii) : ascii :=
  let n := nat_of_ascii c in
  if (65 <=? n)%nat && (n <=? 90)%nat then ascii_of_nat (n + 32) else c.

Fixpoint lower (s : string) : string :=
  match s with
  | EmptyString => EmptyString
  | String c s' => String (lower_ascii c) (lower s')
  end.

(** [bytes.decode("ascii")] succeeds when every byte is below 128. *)
Fixpoint is_ascii (s : string) : bool :=
  match s with
  | EmptyString => true
  | String c s' => (nat_of_ascii c <? 128)%nat && is_ascii s'
  end.

(** ** The session and the appliance *)

Module Cookie.
Record t : Type := { name : string; value : string }.
End Cookie.

Definition headers_t := list (string * string).

(** [session.headers] is a case-insensitive dictionary. *)
Fixpoint headers_get (h : headers_t) (k : string) : option string :=
  match h with
  | [] => None
  | (k', v) :: h' =>
      if String.eqb (lower k') (lower k) then Some v else headers_get h' k
  end.

(** [session.headers.update({k: v})] *)
Fixpoint headers_update (h : headers_t) (k v : string) : headers_t :=
  match h with
  | [] => [(k, v)]
  | (k', v') :: h' =>
      if String.eqb (lower k') (lower k) then (k, v) :: h'
      else (k', v') :: headers_update h' k v
  end.

Inductive http_method : Type := GET | POST | PUT | DELETE.

(** What leaves the session for one call of [session.get/post/put/delete]:
    the arguments of the call together with the session-level settings that
    [requests] merges into every request. *)
Record request : Type := {
  req_method : http_method;
  req_url : string;
  req_params : pyval;
  req_data : pyval;
  req_files : pyval;
  req_timeout : pyval;
  req_headers : headers_t;
  req_verify : pyval;
  req_cert : pyval
}.

Record response : Type := {
  status_code : Z;
  content : string
}.

(** The attributes of a [FortiOSAPI] object; the four last ones belong to
    [self._session]. *)
Record client : Type := {
  host : option string;
  _https : bool;
  _logged : bool;
  _fortiversion : pyval;
  timeout : pyval;
  cert : pyval;
  _apitoken : pyval;
  _license : pyval;
  url_prefix : option string;
  headers : headers_t;
  cookies : list Cookie.t;
  verify : pyval;
  session_cert : pyval
}.

Definition with_host v c :=
  {| host := v; _https := _https c; _logged := _logged c;
     _fortiversion := _fortiversion c; timeout := timeout c; cert := cert c;
     _apitoken := _apitoken c; _license := _license c;
     url_prefix := url_prefix c; headers := headers c; cookies := cookies c;
     verify := verify c; session_cert := session_cert c |}.
Definition with_https v c :=
  {| host := host c; _https := v; _logged := _logged c;
     _fortiversion := _fortiversion c; timeout := timeout c; cert := cert c;
     _apitoken := _apitoken c; _license := _license c;
     url_prefix := url_prefix c; headers := headers c; cookies := cookies c;
     verify := verify c; session_cert := session_cert c |}.
Definition with_logged v c :=
  {| host := host c; _https := _https c; _logged := v;
     _fortiversion := _fortiversion c; timeout := timeout c; cert := cert c;
     _apitoken := _apitoken c; _license := _license c;
     url_prefix := url_prefix c; headers := headers c; cookies := cookies c;
     verify := verify c; session_cert := session_cert c |}.
Definition with_fortiversion v c :=
  {| host := host c; _https := _https c; _logged := _logged c;
     _fortiversion := v; timeout := timeout c; cert := cert c;
     _apitoken := _apitoken c; _license := _license c;
     url_prefix := url_prefix c; headers := headers c; cookies := cookies c;
     verify := verify c; session_cert := session_cert c |}.
Definition with_timeout v c :=
  {| host := host c; _https := _https c; _logged := _logged c;
     _fortiversion := _fortiversion c; timeout := v; cert := cert c;
     _apitoken := _apitoken c; _license := _license c;
     url_prefix := url_prefix c; headers := headers c; cookies := cookies c;
     verify := verify c; session_cert := session_cert c |}.
Definition with_license v c :=
  {| host := host c; _https := _https c; _logged := _logged c;
     _fortiversion := _fortiversion c; timeout := timeout c; cert := cert c;
     _apitoken := _apitoken c; _license := v;
     url_prefix := url_prefix c; headers := headers c; cookies := cookies c;
     verify := verify c; session_cert := session_cert c |}.
Definition with_url_prefix v c :=
  {| host := host c; _https := _https c; _logged := _logged c;
     _fortiversion := _fortiversion c; timeout := timeout c; cert := cert c;
     _apitoken := _apitoken c; _license := _license c;
     url_prefix := v; headers := headers c; cookies := cookies c;
     verify := verify c; session_cert := session_cert c |}.
Definition with_headers v c :=
  {| host := host c; _https := _https c; _logged := _logged c;
     _fortiversion := _fortiversion c; timeout := timeout c; cert := cert c;
     _apitoken := _apitoken c; _license := _license c;
     url_prefix := url_prefix c; headers := v; cookies := cookies c;
     verify := verify c; session_cert := session_cert c |}.
Definition with_cookies v c :=
  {| host := host c; _https := _https c; _logged := _logged c;
     _fortiversion := _fortiversion c; timeout := timeout c; cert := cert c;
     _apitoken := _apitoken c; _license := _license c;
     url_prefix := url_prefix c; headers := headers c; cookies := v;
     verify := verify c; session_cert := session_cert c |}.
Definition with_verify v c :=
  {| host := host c; _https := _https c; _logged := _logged c;
     _fortiversion := _fortiversion c; timeout := timeout c; cert := cert c;
     _apitoken := _apitoken c; _license := _license c;
     url_prefix := url_prefix c; headers := headers c; cookies := cookies c;
     verify := v; session_cert := session_cert c |}.
Definition with_session_cert v c :=
  {| host := host c; _https := _https c; _logged := _logged c;
     _fortiversion := _fortiversion c; timeout := timeout c; cert := cert c;
     _apitoken := _apitoken c; _license := _license c;
     url_prefix := url_prefix c; headers := headers c; cookies := cookies c;
     verify := verify c; session_cert := v |}.

(** What a method hands back: a decoded document, or the undecoded
    [requests.Response] itself. *)
Inductive pyobj : Type :=
| Response (r : response)
| Value (v : pyval).

(** [o[k]] on a result; a [Response] is not subscriptable. *)
Definition subscript (o : pyobj) (k : pyval) : result pyval :=
  match o with
  | Response _ => Raise TypeError
  | Value v => getitem v k
  end.

(** [cookie.name == "ccsrftoken" or cookie.name.startswith("ccsrftoken_")] *)
Definition is_csrf_cookie (c : Cookie.t) : bool :=
  String.eqb (Cookie.name c) "ccsrftoken"
  || String.prefix "ccsrftoken_" (Cookie.name c).

(** The body of the loop of [update_cookie], cookie after cookie. *)
Fixpoint update_cookie_loop (jar : list Cookie.t) (h : headers_t) : headers_t :=
  match jar with
  | [] => h
  | c :: jar' =>
      update_cookie_loop jar'
        (if is_csrf_cookie c
         then headers_update h "X-CSRFTOKEN" (slice_1_m1 (Cookie.value c))
         else h)
  end.

(** [needle in hay] for two strings. *)
Fixpoint contains_substr (needle hay : string) : bool :=
  String.prefix needle hay
  || match hay with
     | EmptyString => false
     | String _ hay' => contains_substr needle hay'
     end.

(** One exchange through [requests.Session]: the answer (or the exception of
    the transport), the cookie jar as [requests] leaves it, and the appliance
    afterwards.  [W] is the state of the appliance. *)
Record exchange (W : Type) : Type := {
  reply : result response;
  jar_after : list Cookie.t;
  server_after : W
}.

(** The object, the appliance, and what outlives a call: the dictionary that
    is the default value of [parameters] in [move], created once when the
    class body runs.  [sent] and [observed] only record (the requests that
    left the session, the outcomes tested by [setoverlayconfig]); nothing
    reads them. *)
Record world (W : Type) : Type := {
  self : client;
  server : W;
  move_parameters : dict;
  sent : list request;
  observed : list bool
}.

(** ** A scripted appliance

    A stand-in for the transport and for [json], used by the examples at the
    end of the file: the appliance answers the requests it receives from a
    script, one entry for each request, and documents are looked up by the
    text of the body. *)
Module Demo.

Definition script := list (result response * list Cookie.t).

(** An entry gives the answer and the cookies that the answer sets. *)
Definition send (req : request) (jar : list Cookie.t) (s : script) : exchange script :=
  match s with
  | [] => {| reply := Raise RequestException; jar_after := jar; server_after := [] |}
  | (r, cs) :: s' => {| reply := r; jar_after := jar ++ cs; server_after := s' |}
  end.

Definition answer (code : Z) (body : string) : result response * list Cookie.t :=
  (Ok {| status_code := code; content := body |}, []).

Definition doc (fields : list (string * pyval)) : pyval :=
  VDict (map (fun kv => (VStr (fst kv), snd kv)) fields).

Definition documents : list (string * pyval) :=
  [ ("schema: mkey is name",
     doc [("http_status", VInt 200); ("results", doc [("mkey", VStr "name")])]);
    ("schema: no mkey",
     doc [("http_status", VInt 200); ("results", doc [("category", VStr "complex")])]);
    ("success", doc [("http_status", VInt 200); ("status", VStr "success")]);
    ("not found", doc [("http_status", VInt 404); ("status", VStr "error")]);
    ("forbidden", doc [("http_status", VInt 403); ("status", VStr "error")]);
    ("status",
     doc [("http_status", VInt 200); ("status", VStr "success");
          ("version", VStr "v7.0.0")]);
    ("a list", VList [VInt 1]) ].

Fixpoint lookup (l : list (string * pyval)) (k : string) : option pyval :=
  match l with
  | [] => None
  | (k', v) :: l' => if String.eqb k' k then Some v else lookup l' k
  end.

Definition loads (s : string) : option pyval := lookup documents s.

Definition show (v : pyval) : string :=
  match v with
  | VNone => "null"
  | VBool true => "true"
  | VBool false => "false"
  | VInt z => str_of_Z z
  | VStr s => s
  | _ => "..."
  end.

(** Enough of a serializer to tell payloads apart. *)
Definition dumps (v : pyval) : string :=
  match v with
  | VDict d => String.concat "," (map (fun kv => show (fst kv) ++ ":" ++ show (snd kv)) d)
  | _ => show v
  end.

Definition response_json (r : response) : option pyval := loads (content r).
Definition quote (s safe : string) : string := s.
Definition repr (v : pyval) : string := "...".
Definition default_headers : headers_t :=
  [("User-Agent", "python-requests"); ("Accept", "*/*")].

(** An object after a successful login to [https://fgt]. *)
Definition logged_in : client :=
  {| host := Some "fgt"; _https := true; _logged := true;
     _fortiversion := VStr "v7.0.0"; timeout := VInt 12; cert := VNone;
     _apitoken := VNone; _license := VNone; url_prefix := Some "https://fgt";
     headers := default_headers; cookies := []; verify := VBool true;
     session_cert := VNone |}.

(** Configuration trees, [name: path: key: node]. *)
Definition two_scalars : list (string * list (string * dict)) :=
  [("system", [("global", [(VStr "hostname", VStr "fw1");
                           (VStr "timezone", VStr "04")])])].

Definition scalar_and_table : list (string * list (string * dict)) :=
  [("firewall", [("policy", [(VStr "comment", VStr "x");
                             (VInt 1, doc [("action", VStr "accept")])])])].

Definition one_scalar : list (string * list (string * dict)) :=
  [("system", [("global", [(VStr "hostname", VStr "fw1")])])].

Definition two_tables : list (string * list (string * dict)) :=
  [("firewall", [("address", [(VStr "a1", doc [("subnet", VStr "10.0.0.0/24")])]);
                 ("policy", [(VInt 1, doc [("action", VStr "accept")])])])].

Definition facing (c : client) (s : script) : world script :=
  {| self := c; server := s; move_parameters := []; sent := []; observed := [] |}.

End Demo.

(** ** A second scripted appliance

    This one always answers while its script lasts (the connection fails
    afterwards), and it knows a few more documents. *)
Module Lab.

Definition script := list (response * list Cookie.t).

Definition send (req : request) (jar : list Cookie.t) (s : script) : exchange script :=
  match s with
  | [] => {| reply := Raise RequestException; jar_after := jar; server_after := [] |}
  | (r, cs) :: s' => {| reply := Ok r; jar_after := jar ++ cs; server_after := s' |}
  end.

Definition answer (code : Z) (body : string) (cs : list Cookie.t)
    : response * list Cookie.t :=
  ({| status_code := code; content := body |}, cs).

Definition documents : list (string * pyval) :=
  (Demo.documents
   ++ [ ("two vdoms",
         VList [Demo.doc [("http_status", VInt 200); ("status", VStr "success")];
                Demo.doc [("http_status", VInt 200); ("status", VStr "error")]]);
        ("no vdom", VList []);
        ("listing",
         Demo.doc
           [("results",
             VList [Demo.doc [("path", VStr "firewall"); ("name", VStr "address")];
                    Demo.doc [("path", VStr "system.__tree__"); ("name", VStr "x")];
                    Demo.doc [("path", VStr "system"); ("name", VStr "global")]])]) ])%list.

Definition loads (s : string) : option pyval := Demo.lookup documents s.

Definition response_json (r : response) : option pyval := loads (content r).

(** An object that has been given a host by a login which did not go
    through. *)
Definition turned_away : client :=
  {| host := Some "fgt"; _https := true; _logged := false;
     _fortiversion := VStr "Version is set when logged"; timeout := VInt 12;
     cert := VNone; _apitoken := VNone; _license := VNone;
     url_prefix := Some "https://fgt";
     headers := Demo.default_headers; cookies := []; verify := VBool true;
     session_cert := VNone |}.

(** A logged object with a bearer token and a CSRF cookie in its jar. *)
Definition with_token : client :=
  {| host := Some "fgt"; _https := true; _logged := true;
     _fortiversion := VStr "v7.0.0"; timeout := VInt 12; cert := VNone;
     _apitoken := VNone; _license := VNone; url_prefix := Some "https://fgt";
     headers := (Demo.default_headers ++ [("Authorization", "Bearer t0")])%list;
     cookies := [ {| Cookie.name := "ccsrftoken"; Cookie.value := "'abc'" |} ];
     verify := VBool true; session_cert := VNone |}.

Definition facing (c : client) (s : script) : world script :=
  {| self := c; server := s; move_parameters := []; sent := []; observed := [] |}.

End Lab.

Section FortiOSAPI.

(** The appliance behind the transport. *)
Variable W : Type.

Variable http_send : request -> list Cookie.t -> W -> exchange W.

(** [json.loads(content.decode("utf-8"))]; [None] when either step raises. *)
Variable json_loads : string -> option pyval.
(** [json.dumps] *)
Variable json_dumps : pyval -> string.
(** [Response.json()], decoding included *)
Variable response_json : response -> option pyval.
(** [urllib.parse.quote(s, safe)] *)
Variable quote : string -> string -> string.
(** [repr] of a list or a dictionary *)
Variable py_repr : pyval -> string.
(** the headers of a fresh [requests.session()] *)
Variable default_headers : headers_t.

(** [str(v)] *)
Definition py_str (v : pyval) : string :=
  match v with
  | VNone => "None"
  | VBool true => "True"
  | VBool false => "False"
  | VInt z => str_of_Z z
  | VStr s => s
  | _ => py_repr v
  end.

Definition M (A : Type) : Type := world W -> result A * world W.

Definition ret {A} (a : A) : M A := fun w => (Ok a, w).
Definition raise {A} (e : exn) : M A := fun w => (Raise e, w).
Definition bind {A B} (m : M A) (k : A -> M B) : M B :=
  fun w =>
    match m w with
    | (Ok a, w') => k a w'
    | (Raise e, w') => (Raise e, w')
    end.
Definition lift {A} (r : result A) : M A := fun w => (r, w).

(** [try: m  except: h] with a bare [except]. *)
Definition try_except {A} (m : M A) (h : M A) : M A :=
  fun w =>
    match m w with
    | (Ok a, w') => (Ok a, w')
    | (Raise _, w') => h w'
    end.

Definition get_self : M client := fun w => (Ok (self w), w).

Definition modify_self (f : client -> client) : M unit :=
  fun w =>
    (Ok tt, {| self := f (self w); server := server w;
               move_parameters := move_parameters w; sent := sent w;
               observed := observed w |}).

Definition get_move_parameters : M dict :=
  fun w => (Ok (move_parameters w), w).

Definition put_move_parameters (d : dict) : M unit :=
  fun w =>
    (Ok tt, {| self := self w; server := server w; move_parameters := d;
               sent := sent w; observed := observed w |}).

Definition observe (b : bool) : M unit :=
  fun w =>
    (Ok tt, {| self := self w; server := server w;
               move_parameters := move_parameters w; sent := sent w;
               observed := observed w ++ [b] |}).

Notation "x <- m ;; k" := (bind m (fun x => k))
  (at level 100, m at next level, right associativity).
Notation "m ;; k" := (bind m (fun _ => k))
  (at level 100, right associativity).

Definition is_global (vdom : option string) : bool :=
  match vdom with
  | Some v => String.eqb v "global"
  | None => false
  end.

(** [self._session.get/post/put/delete(url, params=, data=, files=,
    timeout=self.timeout)] *)
Definition session_request (m : http_method) (url : string)
    (params data files : pyval) : M response :=
  fun w =>
    let c := self w in
    let req := {| req_method := m; req_url := url; req_params := params;
                  req_data := data; req_files := files;
                  req_timeout := timeout c; req_headers := headers c;
                  req_verify := verify c; req_cert := session_cert c |} in
    let x := http_send req (cookies c) (server w) in
    (reply x,
     {| self := with_cookies (jar_after x) c; server := server_after x;
        move_parameters := move_parameters w; sent := sent w ++ [req];
        observed := observed w |}).

(** ** The methods of [FortiOSAPI]

    [logging] and [debug] only write to the log and [ssh] is a static method
    over another connection; they are not part of the embedding. *)

(** [__init__] *)
Definition init : client :=
  {| host := None; _https := true; _logged := false;
     _fortiversion := VStr "Version is set when logged";
     timeout := VInt 120; cert := VNone; _apitoken := VNone;
     _license := VNone; url_prefix := None;
     headers := default_headers; cookies := []; verify := VBool true;
     session_cert := VNone |}.

(** The part of [formatresponse] under [try]. An object that is not a
    [Response] has no attribute [content]. *)
Definition decode (res : pyobj) (vdom : option string) : result pyval :=
  match res with
  | Value _ => Raise AttributeError
  | Response r =>
      match json_loads (content r) with
      | None => Raise ValueError
      | Some v =>
          if is_global vdom then
            (resp <-? getitem v (VInt 0) ;;
             setitem resp (VStr "vdom") (VStr "global"))%result
          else Ok v
      end
  end.

Definition formatresponse (res : pyobj) (vdom : option string) : M pyobj :=
  c <- get_self ;;
  if eq_str (_license c) "Invalid" then raise (PyException "invalid license")
  else
    match decode res vdom with
    | Ok resp => ret (Value resp)
    | Raise _ => ret res
    end.

Definition check_session : M unit :=
  c <- get_self ;;
  if negb (_logged c) then raise NotLogged
  else if eq_str (_license c) "Invalid" then raise InvalidLicense
  else ret tt.

Definition https (status : pyval) : M unit :=
  (if eq_str status "on" then modify_self (with_https true) else ret tt) ;;
  (if eq_str status "off" then modify_self (with_https false) else ret tt).

Definition update_cookie : M unit :=
  modify_self (fun c => with_headers (update_cookie_loop (cookies c) (headers c)) c).

(** [self.url_prefix + postfix]; [None + str] is a [TypeError]. *)
Definition prefixed (postfix : string) : M string :=
  c <- get_self ;;
  match url_prefix c with
  | Some p => ret (p ++ postfix)
  | None => raise TypeError
  end.

Definition vdom_query (vdom : option string) : string :=
  match vdom with
  | Some v =>
      if truthy (VStr v) then
        if String.eqb v "global" then "?global=1" else "?vdom=" ++ v
      else ""
  | None => ""
  end.

Definition mkey_segment (mkey : pyval) : string :=
  if truthy mkey then "/" ++ quote (py_str mkey) "" else "".

Definition cmdb_url (path name : string) (vdom : option string)
    (mkey : pyval) : M string :=
  check_session ;;
  prefixed ("/api/v2/cmdb/" ++ path ++ "/" ++ name
            ++ mkey_segment mkey ++ vdom_query vdom).

Definition mon_url (path name : string) (vdom : option string)
    (mkey : pyval) : M string :=
  check_session ;;
  prefixed ("/api/v2/monitor/" ++ path ++ "/" ++ name
            ++ mkey_segment mkey ++ vdom_query vdom).

Definition download (path name : string) (vdom : option string)
    (mkey parameters : pyval) : M pyobj :=
  url <- mon_url path name vdom mkey ;;
  res <- session_request GET url parameters VNone VNone ;;
  ret (Response res).

Definition upload (path name : string) (vdom : option string)
    (mkey parameters data files : pyval) : M pyobj :=
  url <- mon_url path name vdom mkey ;;
  res <- session_request POST url parameters data files ;;
  ret (Response res).

Definition get (path name : string) (vdom : option string)
    (mkey parameters : pyval) : M pyobj :=
  url <- cmdb_url path name vdom mkey ;;
  res <- session_request GET url parameters VNone VNone ;;
  formatresponse (Response res) vdom.

Definition monitor (path name : string) (vdom : option string)
    (mkey parameters : pyval) : M pyobj :=
  url <- mon_url path name vdom mkey ;;
  res <- session_request GET url parameters VNone VNone ;;
  formatresponse (Response res) vdom.

(** [json.loads(res.content.decode("utf-8"))] outside any [try] *)
Definition loads (r : response) : result pyval :=
  match json_loads (content r) with
  | Some v => Ok v
  | None => Raise ValueError
  end.

Definition schema (path name : string) (vdom : option string) : M pyval :=
  url <- match vdom with
         | None =>
             u <- cmdb_url path name None VNone ;; ret (u ++ "?action=schema")
         | Some _ =>
             u <- cmdb_url path name vdom VNone ;; ret (u ++ "&action=schema")
         end ;;
  res <- session_request GET url VNone VNone VNone ;;
  if status_code res =? 200 then
    if is_global vdom then
      lift (j <-? loads res ;;
            first <-? getitem j (VInt 0) ;;
            getitem first (VStr "results"))%result
    else
      lift (j <-? loads res ;; getitem j (VStr "results"))%result
  else lift (loads res).

(** The absence signal of [get_mkeyname] is [False]. *)
Definition get_mkeyname (path name : string) (vdom : option string) : M pyval :=
  sch <- schema path name vdom ;;
  match getitem sch (VStr "mkey") with
  | Ok keyname => ret keyname
  | Raise KeyError => ret (VBool false)
  | Raise e => raise e
  end.

(** The absence signal of [get_mkey] is [None]. *)
Definition get_mkey (path name : string) (data : pyval)
    (vdom : option string) : M pyval :=
  keyname <- get_mkeyname path name vdom ;;
  if negb (truthy keyname) then ret VNone
  else
    match getitem data keyname with
    | Ok mkey => ret mkey
    | Raise KeyError => ret VNone
    | Raise e => raise e
    end.

Definition get_version : M pyval :=
  check_session ;;
  c <- get_self ;;
  ret (_fortiversion c).

Definition logout : M unit :=
  url <- prefixed "/logout" ;;
  _ <- session_request POST url VNone VNone VNone ;;
  modify_self (with_cookies []) ;;
  modify_self (with_logged false) ;;
  modify_self (with_license (VStr "Valid")).

(** [data[mkeyname] = mkey] changes the dictionary of the caller in place;
    the caller's copy is not read again by the module, so the embedding keeps
    the updated dictionary only for the request. *)
Definition post (path name : string) (data : pyval) (vdom : option string)
    (mkey parameters : pyval) : M pyobj :=
  data' <- (if truthy mkey then
              mkeyname <- get_mkeyname path name vdom ;;
              lift (setitem data mkeyname mkey)
            else ret data) ;;
  url <- cmdb_url path name vdom VNone ;;
  res <- session_request POST url parameters (VStr (json_dumps data')) VNone ;;
  formatresponse (Response res) vdom.

Definition execute (path name : string) (data : pyval) (vdom : option string)
    (mkey parameters : pyval) : M pyobj :=
  url <- mon_url path name vdom mkey ;;
  res <- session_request POST url parameters (VStr (json_dumps data)) VNone ;;
  formatresponse (Response res) vdom.

Definition put (path name : string) (vdom : option string)
    (mkey parameters data : pyval) : M pyobj :=
  mkey' <- (if negb (truthy mkey) then get_mkey path name data vdom
            else ret mkey) ;;
  url <- cmdb_url path name vdom mkey' ;;
  res <- session_request PUT url parameters (VStr (json_dumps data)) VNone ;;
  formatresponse (Response res) vdom.

(** [parameters] of [move]: [None] stands for an omitted argument, which
    Python binds to the one dictionary kept in [move_parameters]. *)
Definition parameters_load (parameters : option pyval) : M pyval :=
  match parameters with
  | None => d <- get_move_parameters ;; ret (VDict d)
  | Some p => ret p
  end.

Definition parameters_store (parameters : option pyval) (p : pyval) : M unit :=
  match parameters, p with
  | None, VDict d => put_move_parameters d
  | _, _ => ret tt
  end.

Definition move (path name : string) (vdom : option string)
    (mkey where_ reference_key : pyval) (parameters : option pyval) : M pyobj :=
  url <- cmdb_url path name vdom mkey ;;
  p0 <- parameters_load parameters ;;
  p1 <- lift (setitem p0 (VStr "action") (VStr "move")) ;;
  parameters_store parameters p1 ;;
  p2 <- lift (setitem p1 where_ (VStr (py_str reference_key))) ;;
  parameters_store parameters p2 ;;
  res <- session_request PUT url p2 VNone VNone ;;
  formatresponse (Response res) vdom.

Definition delete (path name : string) (vdom : option string)
    (mkey parameters data : pyval) : M pyobj :=
  mkey' <- (if negb (truthy mkey) then get_mkey path name data vdom
            else ret mkey) ;;
  url <- cmdb_url path name vdom mkey' ;;
  res <- session_request DELETE url parameters (VStr (json_dumps data)) VNone ;;
  formatresponse (Response res) vdom.

(** [r["http_status"] == 404 or ... == 405 or ... == 500] *)
Definition creatable (http_status : pyval) : bool :=
  eq_int http_status 404 || eq_int http_status 405 || eq_int http_status 500.

Definition set (path name : string) (data mkey : pyval)
    (vdom : option string) (parameters : pyval) : M pyobj :=
  mkey' <- (if negb (truthy mkey) then get_mkey path name data vdom
            else ret mkey) ;;
  url <- cmdb_url path name vdom mkey' ;;
  res <- session_request PUT url parameters (VStr (json_dumps data)) VNone ;;
  r <- formatresponse (Response res) vdom ;;
  http_status <- lift (subscript r (VStr "http_status")) ;;
  if creatable http_status then
    res' <- post path name data vdom mkey' VNone ;;
    formatresponse res' vdom
  else ret r.

(** [time.sleep(17)] between the two probes is not modelled. *)
Definition license (vdom : option string) : M pyobj :=
  resp <- monitor "license" "status" vdom VNone VNone ;;
  st <- lift (subscript resp (VStr "status")) ;;
  if eq_str st "success" then ret resp
  else
    postresp <- execute "system" "fortiguard/update" VNone vdom VNone VNone ;;
    st' <- lift (subscript postresp (VStr "status")) ;;
    if eq_str st' "success" then monitor "license" "status" vdom VNone VNone
    else ret (Value VNone).

(** [res.content.decode("ascii")[0] == "1"] *)
Definition login_marker (r : response) : result bool :=
  if is_ascii (content r) then
    match content r with
    | EmptyString => Raise IndexError
    | String c _ => Ok (Ascii.eqb c "1"%char)
    end
  else Raise ValueError.

(** [if type(resp_lic) != dict: resp_lic = resp_lic.json()] *)
Definition as_dict_or_json (o : pyobj) : result pyval :=
  match o with
  | Value (VDict d) => Ok (VDict d)
  | Value _ => Raise AttributeError
  | Response r =>
      match response_json r with
      | Some v => Ok v
      | None => Raise ValueError
      end
  end.

(** A [requests] session is always true, so [if not self._session] never
    replaces it. *)
Definition login (host_ username password : string) (verify_ cert_ timeout_ : pyval)
    (vdom : string) : M bool :=
  modify_self (with_host (Some host_)) ;;
  c <- get_self ;;
  modify_self (with_url_prefix
                 (Some ((if negb (_https c) then "http://" else "https://") ++ host_))) ;;
  url <- prefixed "/logincheck" ;;
  modify_self (with_verify verify_) ;;
  (match cert_ with
   | VNone => ret tt
   | _ => modify_self (with_session_cert cert_)
   end) ;;
  modify_self (with_timeout timeout_) ;;
  res <- session_request POST url VNone
           (VStr ("username=" ++ quote username "/" ++ "&secretkey="
                  ++ quote password "/" ++ "&ajax=1")) VNone ;;
  marker <- lift (login_marker res) ;;
  if marker then
    update_cookie ;;
    modify_self (with_logged true) ;;
    resp_lic <- monitor "license" "status" None VNone
                  (VStr ("{ vdom = " ++ vdom ++ " }")) ;;
    resp_lic <- lift (as_dict_or_json resp_lic) ;;
    match getitem resp_lic (VStr "version") with
    | Ok v => modify_self (with_fortiversion v) ;; ret true
    | Raise KeyError =>
        st <- lift (getitem resp_lic (VStr "status")) ;;
        if eq_str st "success" then modify_self (with_logged true) ;; ret true
        else modify_self (with_logged false) ;; raise NotLogged
    | Raise e => raise e
    end
  else modify_self (with_logged false) ;; raise NotLogged.

Definition tokenlogin (host_ apitoken : string) (verify_ cert_ timeout_ : pyval)
    (vdom : option string) : M bool :=
  modify_self (with_host (Some host_)) ;;
  modify_self (fun c => with_headers
                 (headers_update (headers c) "Authorization" ("Bearer " ++ apitoken)) c) ;;
  modify_self (with_logged true) ;;
  c <- get_self ;;
  modify_self (with_url_prefix
                 (Some ((if negb (_https c) then "http://" else "https://") ++ host_))) ;;
  modify_self (with_verify verify_) ;;
  (match cert_ with
   | VNone => ret tt
   | _ => modify_self (with_session_cert cert_)
   end) ;;
  modify_self (with_timeout timeout_) ;;
  resp_lic <- get "system" "status" vdom VNone VNone ;;
  match subscript resp_lic (VStr "version") with
  | Ok v => modify_self (with_fortiversion v) ;; ret true
  | Raise TypeError => raise NotLogged
  | Raise e => raise e
  end.

(** [for x in o] *)
Definition py_iter (o : pyval) : result (list pyval) :=
  match o with
  | VList l => Ok l
  | VDict d => Ok (dict_keys d)
  | VStr s => Ok (map (fun c => VStr (String c EmptyString)) (list_ascii_of_string s))
  | _ => Raise TypeError
  end.

(** ["__tree__" in o] *)
Definition contains_tree (o : pyval) : result bool :=
  match o with
  | VStr s => Ok (contains_substr "__tree__" s)
  | VList l => Ok (existsb (fun x => eq_str x "__tree__") l)
  | VDict d => Ok (match dict_get d (VStr "__tree__") with Some _ => true | None => false end)
  | _ => Raise TypeError
  end.

(** [a + " " + b], evaluated from left to right *)
Definition path_space_name (keys : pyval) : result string :=
  (a <-? getitem keys (VStr "path") ;;
   a' <-? match a with VStr x => Ok (x ++ " ") | _ => Raise TypeError end ;;
   b <-? getitem keys (VStr "name") ;;
   match b with VStr y => Ok (a' ++ y) | _ => Raise TypeError end)%result.

Fixpoint name_path_loop (j : list pyval) (acc : list string) : result (list string) :=
  match j with
  | [] => Ok acc
  | keys :: j' =>
      (p <-? getitem keys (VStr "path") ;;
       t <-? contains_tree p ;;
       if negb t then
         e <-? path_space_name keys ;; name_path_loop j' (acc ++ [e])
       else name_path_loop j' acc)%result
  end.

Definition get_name_path_dict (vdom : option string) : M (list string) :=
  url <- prefixed ("/api/v2/cmdb/"
                   ++ match vdom with
                      | Some v => "?vdom=" ++ v ++ "&action=schema"
                      | None => "?action=schema"
                      end) ;;
  cmdbschema <- session_request GET url VNone VNone VNone ;;
  lift (doc <-? loads cmdbschema ;;
        j <-? getitem doc (VStr "results") ;;
        l <-? py_iter j ;;
        name_path_loop l [])%result.

(** *** [setoverlayconfig]

    The tree has three levels, [name: path: key: node]; the two outer ones are
    names of the API, and each level is a dictionary. *)
Definition tree := list (string * list (string * dict)).

Fixpoint sget {A} (l : list (string * A)) (k : string) : result A :=
  match l with
  | [] => Raise KeyError
  | (k', v) :: l' => if String.eqb k' k then Ok v else sget l' k
  end.

Fixpoint sset {A} (l : list (string * A)) (k : string) (v : A) : list (string * A) :=
  match l with
  | [] => [(k, v)]
  | (k', v') :: l' =>
      if String.eqb k' k then (k', v) :: l' else (k', v') :: sset l' k v
  end.

Fixpoint sdel {A} (l : list (string * A)) (k : string) : result (list (string * A)) :=
  match l with
  | [] => Raise KeyError
  | (k', v') :: l' =>
      if String.eqb k' k then Ok l'
      else match sdel l' k with
           | Ok l'' => Ok ((k', v') :: l'')
           | Raise e => Raise e
           end
  end.

(** The body of the innermost loop of the split, on the pair
    [(yamltree, yamltreel3)]:
    [del yamltree[name][path][k]] for a dictionary node,
    [del yamltreel3[name][path]] for any other. *)
Definition split_field (name path : string) (k : pyval) (t : tree * tree)
    : result (tree * tree) :=
  (let (yamltree, yamltreel3) := t in
   paths <-? sget yamltree name ;;
   fields <-? sget paths path ;;
   node <-? getitem (VDict fields) k ;;
   if is_dict node then
     fields' <-? dict_del fields k ;;
     Ok (sset yamltree name (sset paths path fields'), yamltreel3)
   else
     paths3 <-? sget yamltreel3 name ;;
     paths3' <-? sdel paths3 path ;;
     Ok (yamltree, sset yamltreel3 name paths3'))%result.

(** [for k in yamltree[name][path].copy()] *)
Fixpoint split_fields (name path : string) (ks : list pyval) (t : tree * tree)
    : result (tree * tree) :=
  match ks with
  | [] => Ok t
  | k :: ks' =>
      (t' <-? split_field name path k t ;; split_fields name path ks' t')%result
  end.

(** [for path in yamltree[name]] *)
Fixpoint split_paths (name : string) (ps : list string) (t : tree * tree)
    : result (tree * tree) :=
  match ps with
  | [] => Ok t
  | path :: ps' =>
      (paths <-? sget (fst t) name ;;
       fields <-? sget paths path ;;
       t' <-? split_fields name path (dict_keys fields) t ;;
       split_paths name ps' t')%result
  end.

(** [for name in yamltree.copy()] *)
Fixpoint split_names (ns : list string) (t : tree * tree) : result (tree * tree) :=
  match ns with
  | [] => Ok t
  | name :: ns' =>
      (paths <-? sget (fst t) name ;;
       t' <-? split_paths name (map fst paths) t ;;
       split_names ns' t')%result
  end.

(** [yamltreel3 = copy.deepcopy(yamltree)], then the split. *)
Definition split_tree (yamltree : tree) : result (tree * tree) :=
  split_names (map fst yamltree) (yamltree, yamltree).

Section Passes.

Variable vdom : option string.

(** First pass, [for path in yamltree[name]]; the result is [restree]. *)
Fixpoint scalar_paths (name : string) (paths : list (string * dict))
    (restree : bool) : M bool :=
  match paths with
  | [] => ret restree
  | (path, fields) :: paths' =>
      if truthy (VDict fields) then
        res <- set name path (VDict fields) VNone vdom VNone ;;
        st <- lift (subscript res (VStr "status")) ;;
        if eq_str st "success" then observe true ;; scalar_paths name paths' true
        else observe false ;; ret false
      else scalar_paths name paths' restree
  end.

Fixpoint scalar_names (yamltree : tree) (restree : bool) : M bool :=
  match yamltree with
  | [] => ret restree
  | (name, paths) :: yamltree' =>
      restree' <- scalar_paths name paths restree ;;
      scalar_names yamltree' restree'
  end.

(** Second pass, [for k in yamltreel3[name][path].copy()]. *)
Fixpoint table_rows (name path : string) (rows : dict) (restree : bool) : M bool :=
  match rows with
  | [] => ret restree
  | (k, node) :: rows' =>
      res <- set name path node k vdom VNone ;;
      st <- lift (subscript res (VStr "status")) ;;
      if eq_str st "success" then observe true ;; table_rows name path rows' true
      else observe false ;; ret false
  end.

Fixpoint table_paths (name : string) (paths : list (string * dict))
    (restree : bool) : M bool :=
  match paths with
  | [] => ret restree
  | (path, rows) :: paths' =>
      restree' <- table_rows name path rows restree ;;
      table_paths name paths' restree'
  end.

Fixpoint table_names (yamltreel3 : tree) (restree : bool) : M bool :=
  match yamltreel3 with
  | [] => ret restree
  | (name, paths) :: yamltreel3' =>
      restree' <- table_paths name paths restree ;;
      table_names yamltreel3' restree'
  end.

End Passes.

Definition setoverlayconfig (yamltree : tree) (vdom : option string) : M bool :=
  t <- lift (split_tree yamltree) ;;
  restree <- scalar_names vdom (fst t) false ;;
  table_names vdom (snd t) restree.

(** ** Sessions as sequences of calls

    One constructor for each method that touches the object; [run] performs
    the call and drops what it returns. *)
Inductive call : Type :=
| Call_https (status : pyval)
| Call_update_cookie
| Call_check_session
| Call_formatresponse (res : pyobj) (vdom : option string)
| Call_login (host_ username password : string) (verify_ cert_ timeout_ : pyval)
    (vdom : string)
| Call_tokenlogin (host_ apitoken : string) (verify_ cert_ timeout_ : pyval)
    (vdom : option string)
| Call_get_version
| Call_get_mkeyname (path name : string) (vdom : option string)
| Call_get_mkey (path name : string) (data : pyval) (vdom : option string)
| Call_logout
| Call_cmdb_url (path name : string) (vdom : option string) (mkey : pyval)
| Call_mon_url (path name : string) (vdom : option string) (mkey : pyval)
| Call_download (path name : string) (vdom : option string) (mkey parameters : pyval)
| Call_upload (path name : string) (vdom : option string)
    (mkey parameters data files : pyval)
| Call_get (path name : string) (vdom : option string) (mkey parameters : pyval)
| Call_monitor (path name : string) (vdom : option string) (mkey parameters : pyval)
| Call_schema (path name : string) (vdom : option string)
| Call_get_name_path_dict (vdom : option string)
| Call_post (path name : string) (data : pyval) (vdom : option string)
    (mkey parameters : pyval)
| Call_execute (path name : string) (data : pyval) (vdom : option string)
    (mkey parameters : pyval)
| Call_put (path name : string) (vdom : option string) (mkey parameters data : pyval)
| Call_move (path name : string) (vdom : option string)
    (mkey where_ reference_key : pyval) (parameters : option pyval)
| Call_delete (path name : string) (vdom : option string)
    (mkey parameters data : pyval)
| Call_set (path name : string) (data mkey : pyval) (vdom : option string)
    (parameters : pyval)
| Call_license (vdom : option string)
| Call_setoverlayconfig (yamltree : tree) (vdom : option string).

Definition discard {A} (m : M A) : M unit := _ <- m ;; ret tt.

Definition run (c : call) : M unit :=
  match c with
  | Call_https status => https status
  | Call_update_cookie => update_cookie
  | Call_check_session => check_session
  | Call_formatresponse res vdom => discard (formatresponse res vdom)
  | Call_login h u p v c t vdom => discard (login h u p v c t vdom)
  | Call_tokenlogin h a v c t vdom => discard (tokenlogin h a v c t vdom)
  | Call_get_version => discard get_version
  | Call_get_mkeyname path name vdom => discard (get_mkeyname path name vdom)
  | Call_get_mkey path name data vdom => discard (get_mkey path name data vdom)
  | Call_logout => logout
  | Call_cmdb_url path name vdom mkey => discard (cmdb_url path name vdom mkey)
  | Call_mon_url path name vdom mkey => discard (mon_url path name vdom mkey)
  | Call_download path name vdom mkey ps => discard (download path name vdom mkey ps)
  | Call_upload path name vdom mkey ps data files =>
      discard (upload path name vdom mkey ps data files)
  | Call_get path name vdom mkey ps => discard (get path name vdom mkey ps)
  | Call_monitor path name vdom mkey ps => discard (monitor path name vdom mkey ps)
  | Call_schema path name vdom => discard (schema path name vdom)
  | Call_get_name_path_dict vdom => discard (get_name_path_dict vdom)
  | Call_post path name data vdom mkey ps => discard (post path name data vdom mkey ps)
  | Call_execute path name data vdom mkey ps =>
      discard (execute path name data vdom mkey ps)
  | Call_put path name vdom mkey ps data => discard (put path name vdom mkey ps data)
  | Call_move path name vdom mkey wh ref ps =>
      discard (move path name vdom mkey wh ref ps)
  | Call_delete path name vdom mkey ps data =>
      discard (delete path name vdom mkey ps data)
  | Call_set path name data mkey vdom ps => discard (set path name data mkey vdom ps)
  | Call_license vdom => discard (license vdom)
  | Call_setoverlayconfig yamltree vdom => discard (setoverlayconfig yamltree vdom)
  end.

Fixpoint run_all (cs : list call) (w : world W) : world W :=
  match cs with
  | [] => w
  | c :: cs' => run_all cs' (snd (run c w))
  end.

(** The calls that run the loop of [update_cookie]. *)
Definition updates_cookie (c : call) : bool :=
  match c with
  | Call_update_cookie | Call_login _ _ _ _ _ _ _ => true
  | _ => false
  end.

(** A new object in front of an appliance in any state. *)
Definition fresh (srv : W) : world W :=
  {| self := init; server := srv; move_parameters := []; sent := [];
     observed := [] |}.

(** The states that calls of the methods reach from a new object. *)
Inductive reachable : world W -> Prop :=
| reachable_fresh (srv : W) : reachable (fresh srv)
| reachable_run (w : world W) (c : call) :
    reachable w -> reachable (snd (run c w)).

(** [self._license] is [None] or ["Valid"]. *)
Definition license_unset_or_valid (c : client) : Prop :=
  _license c = VNone \/ _license c = VStr "Valid".

(** The last cookie of the jar that [update_cookie] acts on. *)
Fixpoint last_csrf_cookie (jar : list Cookie.t) : option Cookie.t :=
  match jar with
  | [] => None
  | c :: jar' =>
      match last_csrf_cookie jar' with
      | Some c' => Some c'
      | None => if is_csrf_cookie c then Some c else None
      end
  end.

(** A world in which the URL builders go through. *)
Definition usable (w : world W) : Prop :=
  _logged (self w) = true /\ eq_str (_license (self w)) "Invalid" = false
  /\ exists p, url_prefix (self w) = Some p.

(** Two worlds with the same [self._logged], [self._license],
    [self.url_prefix] and session headers. *)
Definition same_login (w w' : world W) : Prop :=
  _logged (self w') = _logged (self w) /\ _license (self w') = _license (self w)
  /\ url_prefix (self w') = url_prefix (self w)
  /\ headers (self w') = headers (self w)
  /\ move_parameters w' = move_parameters w.

(** Every method that sends a request and normalizes the answer stops with
    the exception [e], and nothing has changed. *)
Definition operations_fail (e : exn) (w : world W) : Prop :=
  (forall path name vdom mkey ps, get path name vdom mkey ps w = (Raise e, w))
  /\ (forall path name vdom mkey ps, monitor path name vdom mkey ps w = (Raise e, w))
  /\ (forall path name data vdom mkey ps,
        post path name data vdom mkey ps w = (Raise e, w))
  /\ (forall path name data vdom mkey ps,
        execute path name data vdom mkey ps w = (Raise e, w))
  /\ (forall path name vdom mkey ps data,
        put path name vdom mkey ps data w = (Raise e, w))
  /\ (forall path name vdom mkey wh ref ps,
        move path name vdom mkey wh ref ps w = (Raise e, w))
  /\ (forall path name vdom mkey ps data,
        delete path name vdom mkey ps data w = (Raise e, w))
  /\ (forall path name data mkey vdom ps,
        set path name data mkey vdom ps w = (Raise e, w)).

(** The object as the assignments of [tokenlogin] leave it, before the
    probe. *)
Definition token_client (host_ apitoken : string) (verify_ cert_ timeout_ : pyval)
    (c : client) : client :=
  {| host := Some host_; _https := _https c; _logged := true;
     _fortiversion := _fortiversion c; timeout := timeout_; cert := cert c;
     _apitoken := _apitoken c; _license := _license c;
     url_prefix := Some ((if negb (_https c) then "http://" else "https://")
                         ++ host_);
     headers := headers_update (headers c) "Authorization" ("Bearer " ++ apitoken);
     cookies := cookies c; verify := verify_;
     session_cert := match cert_ with VNone => session_cert c | _ => cert_ end |}.

(** What a pass returns is the outcome it recorded last, or the value it
    started from when it recorded none. *)
Definition returns_last_outcome (m : M bool) (acc : bool) : Prop :=
  forall (w w' : world W) (b : bool),
    m w = (Ok b, w') ->
    exists news, observed w' = (observed w ++ news)%list /\ b = last news acc.


(** ** One exchange, spelled out *)

(** The request that [session_request] hands to the transport when the
    object is [c]. *)
Definition request_on (c : client) (m : http_method) (url : string)
    (params data files : pyval) : request :=
  {| req_method := m; req_url := url; req_params := params;
     req_data := data; req_files := files;
     req_timeout := timeout c; req_headers := headers c;
     req_verify := verify c; req_cert := session_cert c |}.

(** The state after [req] went through the session, whatever came back. *)
Definition exchanged (w : world W) (req : request) : world W :=
  let x := http_send req (cookies (self w)) (server w) in
  {| self := with_cookies (jar_after x) (self w); server := server_after x;
     move_parameters := move_parameters w; sent := sent w ++ [req];
     observed := observed w |}.

(** The answer of the appliance to [req] in the state [w]. *)
Definition answer_to (w : world W) (req : request) : result response :=
  reply (http_send req (cookies (self w)) (server w)).

(** The object as the assignments of [login] leave it, before the request
    to [/logincheck]. *)
Definition login_client (host_ : string) (verify_ cert_ timeout_ : pyval)
    (c : client) : client :=
  {| host := Some host_; _https := _https c; _logged := _logged c;
     _fortiversion := _fortiversion c; timeout := timeout_; cert := cert c;
     _apitoken := _apitoken c; _license := _license c;
     url_prefix := Some ((if negb (_https c) then "http://" else "https://")
                         ++ host_);
     headers := headers c; cookies := cookies c; verify := verify_;
     session_cert := match cert_ with VNone => session_cert c | _ => cert_ end |}.

(** The transport raises its own exceptions, never the module's
    [NotLogged]. *)
Definition transport_own_errors : Prop :=
  forall req jar srv, reply (http_send req jar srv) <> Raise NotLogged.

(** ** Trees of tables *)

(** Every field under a path is a table row: a dictionary under a key. *)
Definition table_fields (fields : dict) : Prop :=
  Forall (fun kn => hashable (fst kn) = true /\ is_dict (snd kn) = true) fields.

(** A tree as a Python dictionary of dictionaries holds it (no name and no
    path twice), with table rows only. *)
Definition tables_only (t : tree) : Prop :=
  NoDup (map fst t)
  /\ Forall (fun np => NoDup (map fst (snd np))
                       /\ Forall (fun pf => table_fields (snd pf)) (snd np)) t.

(** The same names and paths, with no field left. *)
Definition emptied (t : tree) : tree :=
  map (fun np => (fst np, map (fun pf => (fst pf, @nil (pyval * pyval))) (snd np))) t.

(** ** The listing of the schema *)

(** An entry of the listing with its two strings. *)
Definition entry_of (e : pyval) (pn : string * string) : Prop :=
  getitem e (VStr "path") = Ok (VStr (fst pn))
  /\ getitem e (VStr "name") = Ok (VStr (snd pn)).

Definition listed (l : list (string * string)) : list string :=
  map (fun pn => (fst pn ++ " ") ++ snd pn)
      (filter (fun pn => negb (contains_substr "__tree__" (fst pn))) l).

(** Some bearer token is among the headers. *)
Definition bearer (h : headers_t) : Prop :=
  exists token, headers_get h "Authorization" = Some ("Bearer " ++ token).

(** ** Addresses of the requests *)

(** The URL of an item or of a table, after the prefix [p]. *)
Definition item_url (p path name : string) (vdom : option string)
    (mkey : pyval) : string :=
  p ++ "/api/v2/cmdb/" ++ path ++ "/" ++ name
    ++ mkey_segment mkey ++ vdom_query vdom.

(** The URL that [schema] asks. *)
Definition schema_url (p path name : string) (vdom : option string) : string :=
  item_url p path name vdom VNone
  ++ match vdom with
     | None => "?action=schema"
     | Some _ => "&action=schema"
     end.

(** The URL that [get_name_path_dict] asks. *)
Definition listing_url (p : string) (vdom : option string) : string :=
  p ++ "/api/v2/cmdb/"
    ++ match vdom with
       | Some v => "?vdom=" ++ v ++ "&action=schema"
       | None => "?action=schema"
       end.

(** ** The two halves of [login] *)

Definition login_url (host_ : string) (c : client) : string :=
  ((if negb (_https c) then "http://" else "https://") ++ host_) ++ "/logincheck".

Definition login_body (username password : string) : pyval :=
  VStr ("username=" ++ quote username "/" ++ "&secretkey="
        ++ quote password "/" ++ "&ajax=1").

(** What [login] does with the answer to [/logincheck]. *)
Definition after_logincheck (vdom : string) (res : response) : M bool :=
  marker <- lift (login_marker res) ;;
  if marker then
    update_cookie ;;
    modify_self (with_logged true) ;;
    resp_lic <- monitor "license" "status" None VNone
                  (VStr ("{ vdom = " ++ vdom ++ " }")) ;;
    resp_lic <- lift (as_dict_or_json resp_lic) ;;
    match getitem resp_lic (VStr "version") with
    | Ok v => modify_self (with_fortiversion v) ;; ret true
    | Raise KeyError =>
        st <- lift (getitem resp_lic (VStr "status")) ;;
        if eq_str st "success" then modify_self (with_logged true) ;; ret true
        else modify_self (with_logged false) ;; raise NotLogged
    | Raise e => raise e
    end
  else modify_self (with_logged false) ;; raise NotLogged.

(** The state with another object in it. *)
Definition with_self (c : client) (w : world W) : world W :=
  {| self := c; server := server w; move_parameters := move_parameters w;
     sent := sent w; observed := observed w |}.

(** An Authorization header is among the headers. *)
Definition authorized (h : headers_t) : Prop :=
  headers_get h "Authorization" <> None.

(** The URL of the monitor side, after the prefix [p]. *)
Definition monitor_url (p path name : string) (vdom : option string)
    (mkey : pyval) : string :=
  p ++ "/api/v2/monitor/" ++ path ++ "/" ++ name
    ++ mkey_segment mkey ++ vdom_query vdom.

(** The object between the two requests of a [login] that got its marker:
    the CSRF header is written and the object counts as logged in. *)
Definition marked_client (c : client) : client :=
  with_logged true (with_headers (update_cookie_loop (cookies c) (headers c)) c).

(** ** Trees of single settings *)

(** One field under the path, and it is not a dictionary. *)
Definition single_scalar (fields : dict) : Prop :=
  exists k v, fields = [(k, v)] /\ hashable k = true /\ is_dict v = false.

(** A tree as a Python dictionary of dictionaries holds it, with one
    setting under each path. *)
Definition single_scalars (t : tree) : Prop :=
  NoDup (map fst t)
  /\ Forall (fun np => NoDup (map fst (snd np))
                       /\ Forall (fun pf => single_scalar (snd pf)) (snd np)) t.

(** The same names, with no path left. *)
Definition pathless (t : tree) : tree :=
  map (fun np => (fst np, @nil (string * dict))) t.
(** ** Facts about values and dictionaries *)

Lemma key_eqb_refl (k : pyval) : hashable k = true -> key_eqb k k = true.
Proof.
  destruct k as [ | b | z | s | l | d ]; simpl; intros H; try discriminate.
  - reflexivity.
  - destruct b; reflexivity.
  - apply Z.eqb_refl.
  - apply String.eqb_refl.
Qed.

Lemma dict_get_set_same (d : dict) (k v : pyval) :
  hashable k = true -> dict_get (dict_set d k v) k = Some v.
Proof.
  intros Hk. induction d as [ | [k' v'] d IH ]; simpl.
  - now rewrite key_eqb_refl.
  - destruct (key_eqb k' k) eqn:E; simpl; rewrite E; [ reflexivity | exact IH ].
Qed.

Lemma key_eqb_common (x a b : pyval) :
  key_eqb x a = true -> key_eqb x b = true -> key_eqb a b = true.
Proof.
  destruct x as [ | x | x | x | x | x ], a as [ | a | a | a | a | a ],
    b as [ | b | b | b | b | b ]; cbn [key_eqb];
    try discriminate; try reflexivity; intros H1 H2;
    repeat match goal with c : bool |- _ => destruct c end;
    cbn [Bool.eqb] in *;
    rewrite ?Z.eqb_eq, ?String.eqb_eq in *; try congruence; try lia.
Qed.

Lemma dict_get_set_other (d : dict) (k k' v : pyval) :
  key_eqb k k' = false ->
  dict_get (dict_set d k v) k' = dict_get d k'.
Proof.
  intros Hkk. induction d as [ | [k0 v0] d IH ]; simpl.
  - now rewrite Hkk.
  - destruct (key_eqb k0 k) eqn:E; simpl.
    + destruct (key_eqb k0 k') eqn:E'; [ | reflexivity ].
      now rewrite (key_eqb_common _ _ _ E E') in Hkk.
    + destruct (key_eqb k0 k'); [ reflexivity | exact IH ].
Qed.

Lemma getitem_str_key_not_dict (v : pyval) (k : string) :
  (forall d, v <> VDict d) -> getitem v (VStr k) = Raise TypeError.
Proof.
  intros H. destruct v; try reflexivity. now elim (H d).
Qed.

Lemma subscript_str_key_not_dict (o : pyobj) (k : string) :
  (forall d, o <> Value (VDict d)) -> subscript o (VStr k) = Raise TypeError.
Proof.
  intros H. destruct o as [ r | v ]; [ reflexivity | ].
  apply getitem_str_key_not_dict. intros d ->. now elim (H d).
Qed.

(** ** Facts about the primitives *)

Ltac unmonad := unfold bind, ret, raise, lift, get_self, modify_self in *.

Lemma check_session_ok (w : world W) :
  _logged (self w) = true -> eq_str (_license (self w)) "Invalid" = false ->
  check_session w = (Ok tt, w).
Proof.
  intros Hl Hv. unfold check_session. unmonad. now rewrite Hl, Hv.
Qed.

Lemma check_session_inv (w w' : world W) :
  check_session w = (Ok tt, w') ->
  w' = w /\ _logged (self w) = true /\ eq_str (_license (self w)) "Invalid" = false.
Proof.
  unfold check_session. unmonad.
  destruct (_logged (self w)); simpl; [ | discriminate ].
  destruct (eq_str (_license (self w)) "Invalid"); simpl; [ discriminate | ].
  intros [= <-]. auto.
Qed.

Lemma same_login_refl w : same_login w w.
Proof. repeat split. Qed.

Lemma same_login_trans w1 w2 w3 :
  same_login w1 w2 -> same_login w2 w3 -> same_login w1 w3.
Proof.
  unfold same_login. intros (a & b & c & d & e) (a' & b' & c' & d' & e').
  repeat split; congruence.
Qed.

Lemma usable_same_login w w' : usable w -> same_login w w' -> usable w'.
Proof.
  unfold usable, same_login. intros (a & b & p & c) (a' & b' & c' & _).
  rewrite a', b', c'. eauto.
Qed.

Lemma prefixed_inv (postfix : string) (w w' : world W) (url : string) :
  prefixed postfix w = (Ok url, w') ->
  w' = w /\ exists p, url_prefix (self w) = Some p /\ url = p ++ postfix.
Proof.
  unfold prefixed. unmonad. destruct (url_prefix (self w)) as [ p | ];
    intros [= <- <-]. eauto.
Qed.

Lemma cmdb_url_inv path name vdom mkey (w w' : world W) (url : string) :
  cmdb_url path name vdom mkey w = (Ok url, w') ->
  w' = w /\ usable w /\
  exists p, url_prefix (self w) = Some p /\
    url = p ++ "/api/v2/cmdb/" ++ path ++ "/" ++ name
            ++ mkey_segment mkey ++ vdom_query vdom.
Proof.
  unfold cmdb_url. unfold bind at 1.
  destruct (check_session w) as [[ [] | e ] w1] eqn:E; [ | discriminate ].
  apply check_session_inv in E as (-> & Hl & Hv).
  intros H. apply prefixed_inv in H as (-> & p & Hp & ->).
  unfold usable. eauto 8.
Qed.

Lemma cmdb_url_ok path name vdom mkey (w : world W) :
  usable w ->
  exists p, url_prefix (self w) = Some p /\
    cmdb_url path name vdom mkey w
    = (Ok (p ++ "/api/v2/cmdb/" ++ path ++ "/" ++ name
             ++ mkey_segment mkey ++ vdom_query vdom), w).
Proof.
  intros (Hl & Hv & p & Hp). exists p. split; [ exact Hp | ].
  unfold cmdb_url. unfold bind. rewrite (check_session_ok w Hl Hv).
  unfold prefixed. unmonad. now rewrite Hp.
Qed.

Lemma session_request_frame m url params data files (w : world W) :
  let r := session_request m url params data files w in
  same_login w (snd r) /\
  sent (snd r)
  = (sent w ++ [{| req_method := m; req_url := url; req_params := params;
                   req_data := data; req_files := files;
                   req_timeout := timeout (self w);
                   req_headers := headers (self w);
                   req_verify := verify (self w);
                   req_cert := session_cert (self w) |}])%list
  /\ observed (snd r) = observed w.
Proof. simpl. repeat split. Qed.

Lemma formatresponse_world res vdom (w : world W) :
  snd (formatresponse res vdom w) = w.
Proof.
  unfold formatresponse. unmonad.
  destruct (eq_str (_license (self w)) "Invalid"); [ reflexivity | ].
  destruct (decode res vdom); reflexivity.
Qed.

Lemma decode_value v vdom : decode (Value v) vdom = Raise AttributeError.
Proof. reflexivity. Qed.

(** Normalizing twice is normalizing once: a decoded document has no
    [content], and a body that could not be decoded still cannot. *)
Lemma formatresponse_idem res vdom (w w' : world W) (o : pyobj) :
  formatresponse res vdom w = (Ok o, w') ->
  formatresponse o vdom w' = (Ok o, w').
Proof.
  unfold formatresponse. unmonad.
  destruct (eq_str (_license (self w)) "Invalid") eqn:E; [ discriminate | ].
  destruct (decode res vdom) as [ resp | e ] eqn:D; intros [= <- <-].
  - now rewrite E.
  - now rewrite E, D.
Qed.

Ltac case_match H :=
  match type of H with
  | context [match ?x with _ => _ end] => destruct x eqn:?; try discriminate H
  end.

Lemma schema_inv path name vdom (w w' : world W) (sch : pyval) :
  schema path name vdom w = (Ok sch, w') -> usable w /\ same_login w w'.
Proof.
  unfold schema. intros H.
  destruct vdom as [ v | ]; unfold bind, ret in H;
    (destruct (cmdb_url path name _ VNone w) as [[u | e] w1] eqn:U;
       [ | discriminate H ]);
    apply cmdb_url_inv in U as (-> & Hu & _);
    (split; [ exact Hu | ]);
    match type of H with
    | context [session_request GET ?url VNone VNone VNone w] =>
        pose proof (session_request_frame GET url VNone VNone VNone w) as (Hs & _);
        destruct (session_request GET url VNone VNone VNone w) as [[res | e] w2];
          [ | discriminate H ]
    end;
    simpl in Hs; unfold lift in H;
    (destruct (status_code res =? 200); [ destruct (is_global _) | ]);
    injection H as _ <-; exact Hs.
Qed.

Lemma get_mkeyname_inv path name vdom (w w' : world W) (keyname : pyval) :
  get_mkeyname path name vdom w = (Ok keyname, w') -> usable w /\ same_login w w'.
Proof.
  unfold get_mkeyname. unfold bind.
  destruct (schema path name vdom w) as [[sch | e] w1] eqn:S; [ | discriminate ].
  apply schema_inv in S. intros H.
  assert (w' = w1) as ->; [ | exact S ].
  unmonad. destruct (getitem sch (VStr "mkey")) as [ k | [] ]; congruence.
Qed.

Lemma post_normalized path name data vdom mkey ps (w w' : world W) (o : pyobj) :
  post path name data vdom mkey ps w = (Ok o, w') ->
  formatresponse o vdom w' = (Ok o, w').
Proof.
  unfold post. unfold bind. intros H.
  repeat case_match H.
  now apply formatresponse_idem in H.
Qed.

(** ** The claims *)

(** C7. When the schema of an object type is a mapping without an "mkey"
    field, [get_mkeyname] returns its absence signal [False] and [get_mkey]
    returns its absence signal [None]; and when the schema names a key field
    that the data mapping of the caller does not have, [get_mkey] returns
    [None].  In both cases nothing is raised. *)
Theorem identity_absence_is_soft path name vdom data
    (sch : dict) (w w' : world W) :
  schema path name vdom w = (Ok (VDict sch), w') ->
  (dict_get sch (VStr "mkey") = None ->
   get_mkeyname path name vdom w = (Ok (VBool false), w')
   /\ get_mkey path name data vdom w = (Ok VNone, w'))
  /\
  (forall keyname d,
     dict_get sch (VStr "mkey") = Some keyname ->
     hashable keyname = true ->
     data = VDict d ->
     dict_get d keyname = None ->
     get_mkeyname path name vdom w = (Ok keyname, w')
     /\ get_mkey path name data vdom w = (Ok VNone, w')).
Proof.
  intros Hs. split.
  - intros Hm.
    assert (Hn : get_mkeyname path name vdom w = (Ok (VBool false), w')).
    { unfold get_mkeyname, bind. rewrite Hs. simpl. now rewrite Hm. }
    split; [ exact Hn | ].
    unfold get_mkey, bind. now rewrite Hn.
  - intros keyname d Hm Hh -> Hd.
    assert (Hn : get_mkeyname path name vdom w = (Ok keyname, w')).
    { unfold get_mkeyname, bind. rewrite Hs. simpl. now rewrite Hm. }
    split; [ exact Hn | ].
    unfold get_mkey, bind. rewrite Hn.
    destruct (truthy keyname); simpl; [ | reflexivity ].
    now rewrite Hh, Hd.
Qed.

(** C8, where the code departs from it.  A [post] with an identity value
    given (one that Python takes as true) asks the schema for the name of the
    key field and sends one POST to the collection URL, without any identity
    segment.  When the schema names the key field, the body is the payload in
    which that field is bound to the given value, whatever the payload had
    there.  When the schema answers with a mapping that has no "mkey",
    [get_mkeyname] returns [False] and [post] does not look at it: the body
    is the payload with the given value bound to the key [False]. *)
Theorem post_injects_mkey path name (d : dict) vdom mkey parameters
    (sch : pyval) (w w1 : world W) :
  truthy mkey = true ->
  schema path name vdom w = (Ok sch, w1) ->
  exists p,
    url_prefix (self w) = Some p
    /\ let posted (body : dict) :=
         (sent w1
          ++ [{| req_method := POST;
                 req_url := p ++ "/api/v2/cmdb/" ++ path ++ "/" ++ name
                            ++ vdom_query vdom;
                 req_params := parameters;
                 req_data := VStr (json_dumps (VDict body));
                 req_files := VNone;
                 req_timeout := timeout (self w1);
                 req_headers := headers (self w1);
                 req_verify := verify (self w1);
                 req_cert := session_cert (self w1) |}])%list in
       (forall keyname,
          getitem sch (VStr "mkey") = Ok keyname ->
          hashable keyname = true ->
          dict_get (dict_set d keyname mkey) keyname = Some mkey
          /\ sent (snd (post path name (VDict d) vdom mkey parameters w))
             = posted (dict_set d keyname mkey))
       /\ (forall s,
             sch = VDict s ->
             dict_get s (VStr "mkey") = None ->
             get_mkeyname path name vdom w = (Ok (VBool false), w1)
             /\ dict_get (dict_set d (VBool false) mkey) (VBool false) = Some mkey
             /\ sent (snd (post path name (VDict d) vdom mkey parameters w))
                = posted (dict_set d (VBool false) mkey)).
Proof.
  intros Ht Hs.
  destruct (schema_inv _ _ _ _ Hs) as (Hu & Hsame).
  pose proof (usable_same_login Hu Hsame) as Hu1.
  destruct (cmdb_url_ok path name vdom VNone Hu1) as (p & Hp & Hurl).
  exists p. split.
  { destruct Hsame as (_ & _ & E & _). congruence. }
  assert (Hpost : forall keyname,
             get_mkeyname path name vdom w = (Ok keyname, w1) ->
             hashable keyname = true ->
             sent (snd (post path name (VDict d) vdom mkey parameters w))
             = (sent w1
                ++ [{| req_method := POST;
                       req_url := p ++ "/api/v2/cmdb/" ++ path ++ "/" ++ name
                                  ++ vdom_query vdom;
                       req_params := parameters;
                       req_data := VStr (json_dumps (VDict (dict_set d keyname mkey)));
                       req_files := VNone;
                       req_timeout := timeout (self w1);
                       req_headers := headers (self w1);
                       req_verify := verify (self w1);
                       req_cert := session_cert (self w1) |}])%list).
  { intros keyname Hn Hh. unfold post. rewrite Ht.
    unfold bind. rewrite Hn. unfold lift. simpl setitem. rewrite Hh.
    rewrite Hurl. simpl mkey_segment. simpl.
    destruct (reply _); [ rewrite formatresponse_world | ]; reflexivity. }
  intros posted. split.
  - intros keyname Hg Hh. split; [ now apply dict_get_set_same | ].
    apply Hpost; [ | exact Hh ].
    unfold get_mkeyname, bind. now rewrite Hs, Hg.
  - intros s -> Hnone.
    assert (Hn : get_mkeyname path name vdom w = (Ok (VBool false), w1)).
    { unfold get_mkeyname, bind. rewrite Hs. unfold getitem. cbn [hashable].
      now rewrite Hnone. }
    split; [ exact Hn | ]. split; [ now apply dict_get_set_same | ].
    now apply Hpost.
Qed.

(** C1. [set] first settles the identity: an argument [mkey] that Python
    takes as true is used as it is, without any request; otherwise it is
    looked up through the schema in the payload.  It then sends a PUT for
    that identity.  When the normalized answer has ["http_status"] 404, 405
    or 500, the result of [set] is the result of [post] with the same
    payload and the same identity, run in the world that the PUT left;
    for any other status it is the normalized answer of the PUT itself. *)
Theorem set_update_then_create path name data mkey vdom parameters
    (mk st : pyval) (r : pyobj) (w w1 w2 : world W) :
  (if negb (truthy mkey) then get_mkey path name data vdom else ret mkey) w
  = (Ok mk, w1) ->
  (url <- cmdb_url path name vdom mk ;;
   res <- session_request PUT url parameters (VStr (json_dumps data)) VNone ;;
   formatresponse (Response res) vdom) w1 = (Ok r, w2) ->
  subscript r (VStr "http_status") = Ok st ->
  (truthy mkey = true -> mk = mkey /\ w1 = w)
  /\ (exists p,
        url_prefix (self w1) = Some p
        /\ sent w2
           = (sent w1
              ++ [{| req_method := PUT;
                     req_url := p ++ "/api/v2/cmdb/" ++ path ++ "/" ++ name
                                ++ mkey_segment mk ++ vdom_query vdom;
                     req_params := parameters;
                     req_data := VStr (json_dumps data);
                     req_files := VNone;
                     req_timeout := timeout (self w1);
                     req_headers := headers (self w1);
                     req_verify := verify (self w1);
                     req_cert := session_cert (self w1) |}])%list)
  /\ set path name data mkey vdom parameters w
     = if eq_int st 404 || eq_int st 405 || eq_int st 500
       then post path name data vdom mk VNone w2
       else (Ok r, w2).
Proof.
  intros Hk Hput Hst. split; [ | split ].
  - intros Ht. rewrite Ht in Hk. simpl in Hk. unfold ret in Hk.
    injection Hk as <- <-. auto.
  - unfold bind in Hput.
    destruct (cmdb_url path name vdom mk w1) as [[url | e] wa] eqn:U;
      [ | discriminate ].
    apply cmdb_url_inv in U as (-> & _ & p & Hp & ->).
    exists p. split; [ exact Hp | ].
    pose proof (session_request_frame PUT
                  (p ++ "/api/v2/cmdb/" ++ path ++ "/" ++ name
                     ++ mkey_segment mk ++ vdom_query vdom)
                  parameters (VStr (json_dumps data)) VNone w1) as (_ & Hsent & _).
    destruct (session_request PUT _ parameters _ VNone w1) as [[res | e] wb];
      [ | discriminate ].
    simpl in Hsent.
    pose proof (formatresponse_world (Response res) vdom wb) as Hw.
    rewrite Hput in Hw. simpl in Hw. subst wb. exact Hsent.
  - unfold set. unfold bind at 1. rewrite Hk.
    unfold bind in Hput |- *.
    destruct (cmdb_url path name vdom mk w1) as [[url | e] wa]; [ | discriminate ].
    destruct (session_request PUT url parameters _ VNone wa) as [[res | e] wb];
      [ | discriminate ].
    rewrite Hput. unfold lift. rewrite Hst. fold (creatable st).
    destruct (creatable st); [ | reflexivity ].
    destruct (post path name data vdom mk VNone w2) as [[o | e] w3] eqn:P;
      [ | reflexivity ].
    exact (post_normalized _ _ _ _ _ _ _ P).
Qed.

Lemma move_default path name vdom mkey where_ reference_key (w : world W) :
  usable w -> hashable where_ = true ->
  let d := dict_set (dict_set (move_parameters w) (VStr "action") (VStr "move"))
             where_ (VStr (py_str reference_key)) in
  let w' := snd (move path name vdom mkey where_ reference_key None w) in
  usable w' /\ move_parameters w' = d /\
  exists req, sent w' = (sent w ++ [req])%list /\ req_method req = PUT
              /\ req_params req = VDict d.
Proof.
  intros Hu Hh d w'.
  destruct (cmdb_url_ok path name vdom mkey Hu) as (p & Hp & Hurl).
  assert (Hw : w' = snd (session_request PUT
                           (p ++ "/api/v2/cmdb/" ++ path ++ "/" ++ name
                              ++ mkey_segment mkey ++ vdom_query vdom)
                           (VDict d) VNone VNone
                           {| self := self w; server := server w;
                              move_parameters := d; sent := sent w;
                              observed := observed w |})).
  { subst w'. unfold move. unfold bind at 1. rewrite Hurl.
    unfold parameters_load, parameters_store, get_move_parameters,
      put_move_parameters, bind, ret, lift.
    cbn [setitem hashable]. cbv iota beta. rewrite Hh. cbv iota beta. fold d.
    unfold session_request at 1. cbv iota beta zeta.
    destruct (reply _); [ rewrite formatresponse_world | ]; reflexivity. }
  rewrite Hw. simpl.
  split; [ exact Hu | split; [ reflexivity | eexists; repeat split ] ].
Qed.

(** C10. Two calls of [move] in a row, both without [parameters]: the query
    parameters of the second request are the one dictionary that the first
    call wrote to.  Besides the entry under the second directional key they
    hold ["action"] and, when the two directional keys differ, the entry that
    the first call left under its own key. *)
Theorem move_shares_default_parameters
    path1 name1 vdom1 mkey1 where1 ref1
    path2 name2 vdom2 mkey2 where2 ref2 (w : world W) :
  usable w ->
  hashable where1 = true ->
  hashable where2 = true ->
  let w1 := snd (move path1 name1 vdom1 mkey1 where1 ref1 None w) in
  let w2 := snd (move path2 name2 vdom2 mkey2 where2 ref2 None w1) in
  exists req d,
    sent w2 = (sent w1 ++ [req])%list
    /\ req_params req = VDict d
    /\ d = dict_set (dict_set (move_parameters w1) (VStr "action") (VStr "move"))
             where2 (VStr (py_str ref2))
    /\ dict_get (move_parameters w1) where1 = Some (VStr (py_str ref1))
    /\ dict_get d where2 = Some (VStr (py_str ref2))
    /\ (key_eqb where2 (VStr "action") = false ->
        dict_get d (VStr "action") = Some (VStr "move"))
    /\ (key_eqb where2 where1 = false ->
        key_eqb (VStr "action") where1 = false ->
        dict_get d where1 = Some (VStr (py_str ref1))).
Proof.
  intros Hu H1 H2 w1 w2.
  destruct (@move_default path1 name1 vdom1 mkey1 where1 ref1 w Hu H1)
    as (Hu1 & Hd1 & _).
  fold w1 in Hu1, Hd1.
  destruct (@move_default path2 name2 vdom2 mkey2 where2 ref2 w1 Hu1 H2)
    as (_ & Hd2 & req & Hs & _ & Hp).
  fold w2 in Hd2, Hs.
  exists req, (dict_set (dict_set (move_parameters w1) (VStr "action") (VStr "move"))
                 where2 (VStr (py_str ref2))).
  assert (Hstale : dict_get (move_parameters w1) where1 = Some (VStr (py_str ref1))).
  { rewrite Hd1. now apply dict_get_set_same. }
  repeat split; auto.
  - now apply dict_get_set_same.
  - intros Hne. rewrite dict_get_set_other by exact Hne.
    now apply dict_get_set_same.
  - intros Hne Hna. rewrite dict_get_set_other by exact Hne.
    rewrite dict_get_set_other by exact Hna. exact Hstale.
Qed.

(** ** Invariants of a session

    [Q] speaks of [self._license] and of the session headers, [P] of the
    requests sent since [base], [R] of the outcomes that [setoverlayconfig]
    has recorded.  What follows shows which methods keep [Inv], under which
    conditions on [Q] and [R]. *)
Section Invariant.

Variable Q : pyval -> headers_t -> Prop.
Variable P : request -> Prop.
Variable base : list request.
Variable R : list bool -> Prop.

Hypothesis Q_request :
  forall l h req, Q l h -> req_headers req = h -> P req.
Hypothesis Q_authorization :
  forall l h v, Q l h -> Q l (headers_update h "Authorization" v).
Hypothesis R_observe : forall l b, R l -> R (l ++ [b])%list.

Definition Inv (w : world W) : Prop :=
  Q (_license (self w)) (headers (self w))
  /\ (exists news, sent w = (base ++ news)%list /\ Forall P news)
  /\ R (observed w).

Definition stable {A} (m : M A) : Prop := forall w, Inv w -> Inv (snd (m w)).

Lemma stable_ret {A} (a : A) : stable (ret a).
Proof. intros w H. exact H. Qed.

Lemma stable_raise {A} (e : exn) : stable (raise (A:=A) e).
Proof. intros w H. exact H. Qed.

Lemma stable_lift {A} (r : result A) : stable (lift r).
Proof. intros w H. exact H. Qed.

Lemma stable_get_self : stable get_self.
Proof. intros w H. exact H. Qed.

Lemma stable_get_move_parameters : stable get_move_parameters.
Proof. intros w H. exact H. Qed.

Lemma stable_put_move_parameters d : stable (put_move_parameters d).
Proof. intros w H. exact H. Qed.

Lemma stable_observe b : stable (observe b).
Proof.
  intros w (Hq & Hs & Hr). split; [ exact Hq | split; [ exact Hs | ] ].
  simpl. now apply R_observe.
Qed.

Lemma stable_bind {A B} (m : M A) (k : A -> M B) :
  stable m -> (forall a, stable (k a)) -> stable (bind m k).
Proof.
  intros Hm Hk w H. unfold bind. specialize (Hm w H).
  destruct (m w) as [[a | e] w1]; simpl in Hm; [ now apply Hk | exact Hm ].
Qed.

Lemma stable_modify_self (f : client -> client) :
  (forall c, Q (_license c) (headers c) -> Q (_license (f c)) (headers (f c))) ->
  stable (modify_self f).
Proof. intros Hf w (Hq & Hs). split; [ now apply Hf | exact Hs ]. Qed.

Lemma stable_session_request m url params data files :
  stable (session_request m url params data files).
Proof.
  intros w (Hq & (news & Hs & Hp) & Hr). split; [ exact Hq | ].
  split; [ | exact Hr ].
  simpl. eexists (news ++ [_])%list. split.
  - rewrite Hs. now rewrite app_assoc.
  - apply Forall_app. split; [ exact Hp | ].
    constructor; [ | constructor ]. eapply Q_request; [ exact Hq | reflexivity ].
Qed.

Create HintDb stable.
#[local] Hint Resolve stable_ret stable_raise stable_lift stable_get_self
  stable_get_move_parameters stable_put_move_parameters stable_observe
  stable_session_request : stable.

Ltac setters :=
  unfold with_host, with_https, with_logged, with_fortiversion, with_timeout,
    with_license, with_url_prefix, with_headers, with_cookies, with_verify,
    with_session_cert; cbn.

Ltac stab :=
  repeat first
    [ solve [ auto with stable ]
    | apply stable_bind; [ | intros ? ]
    | apply stable_modify_self; intros ? ?; setters; solve [ eauto ]
    | match goal with
      | |- stable (if ?b then _ else _) => destruct b
      | |- stable (match ?x with _ => _ end) => destruct x
      end ].

Lemma stable_check_session : stable check_session.
Proof. unfold check_session. stab. Qed.
#[local] Hint Resolve stable_check_session : stable.

Lemma stable_prefixed s : stable (prefixed s).
Proof. unfold prefixed. stab. Qed.
#[local] Hint Resolve stable_prefixed : stable.

Lemma stable_cmdb_url path name vdom mkey : stable (cmdb_url path name vdom mkey).
Proof. unfold cmdb_url. stab. Qed.

Lemma stable_mon_url path name vdom mkey : stable (mon_url path name vdom mkey).
Proof. unfold mon_url. stab. Qed.

Lemma stable_formatresponse res vdom : stable (formatresponse res vdom).
Proof. unfold formatresponse. stab. Qed.
#[local] Hint Resolve stable_cmdb_url stable_mon_url stable_formatresponse : stable.

Lemma stable_https status : stable (https status).
Proof. unfold https. stab. Qed.

Lemma stable_get_version : stable get_version.
Proof. unfold get_version. stab. Qed.

Lemma stable_download path name vdom mkey ps : stable (download path name vdom mkey ps).
Proof. unfold download. stab. Qed.

Lemma stable_upload path name vdom mkey ps data files :
  stable (upload path name vdom mkey ps data files).
Proof. unfold upload. stab. Qed.

Lemma stable_get path name vdom mkey ps : stable (get path name vdom mkey ps).
Proof. unfold get. stab. Qed.

Lemma stable_monitor path name vdom mkey ps : stable (monitor path name vdom mkey ps).
Proof. unfold monitor. stab. Qed.

Lemma stable_schema path name vdom : stable (schema path name vdom).
Proof. unfold schema. stab. Qed.
#[local] Hint Resolve stable_get stable_monitor stable_schema : stable.

Lemma stable_get_mkeyname path name vdom : stable (get_mkeyname path name vdom).
Proof. unfold get_mkeyname. stab. Qed.
#[local] Hint Resolve stable_get_mkeyname : stable.

Lemma stable_get_mkey path name data vdom : stable (get_mkey path name data vdom).
Proof. unfold get_mkey. stab. Qed.
#[local] Hint Resolve stable_get_mkey : stable.

(** [logout] is the one method that assigns [self._license]. *)
Lemma stable_logout :
  (forall l h, Q l h -> Q (VStr "Valid") h) -> stable logout.
Proof. intros Q_valid. unfold logout. stab. Qed.

Lemma stable_get_name_path_dict vdom : stable (get_name_path_dict vdom).
Proof. unfold get_name_path_dict. stab. Qed.

Lemma stable_post path name data vdom mkey ps :
  stable (post path name data vdom mkey ps).
Proof. unfold post. stab. Qed.

Lemma stable_execute path name data vdom mkey ps :
  stable (execute path name data vdom mkey ps).
Proof. unfold execute. stab. Qed.
#[local] Hint Resolve stable_post stable_execute : stable.

Lemma stable_put path name vdom mkey ps data :
  stable (put path name vdom mkey ps data).
Proof. unfold put. stab. Qed.

Lemma stable_delete path name vdom mkey ps data :
  stable (delete path name vdom mkey ps data).
Proof. unfold delete. stab. Qed.

Lemma stable_move path name vdom mkey wh ref ps :
  stable (move path name vdom mkey wh ref ps).
Proof. unfold move, parameters_load, parameters_store. stab. Qed.

Lemma stable_set path name data mkey vdom ps :
  stable (set path name data mkey vdom ps).
Proof. unfold set. stab. Qed.
#[local] Hint Resolve stable_set : stable.

Lemma stable_license vdom : stable (license vdom).
Proof. unfold license. stab. Qed.

Lemma stable_tokenlogin h a v c t vdom : stable (tokenlogin h a v c t vdom).
Proof. unfold tokenlogin. stab. Qed.

Lemma stable_scalar_paths vdom name paths acc :
  stable (scalar_paths vdom name paths acc).
Proof.
  revert acc. induction paths as [ | [path fields] paths IH ]; intros acc; simpl.
  - stab.
  - destruct fields; [ apply IH | ]. stab.
Qed.
#[local] Hint Resolve stable_scalar_paths : stable.

Lemma stable_scalar_names vdom t acc : stable (scalar_names vdom t acc).
Proof.
  revert acc. induction t as [ | [name paths] t IH ]; intros acc; simpl; stab.
Qed.

Lemma stable_table_rows vdom name path rows acc :
  stable (table_rows vdom name path rows acc).
Proof.
  revert acc. induction rows as [ | [k node] rows IH ]; intros acc; simpl; stab.
Qed.
#[local] Hint Resolve stable_table_rows : stable.

Lemma stable_table_paths vdom name paths acc :
  stable (table_paths vdom name paths acc).
Proof.
  revert acc. induction paths as [ | [path rows] paths IH ]; intros acc; simpl; stab.
Qed.
#[local] Hint Resolve stable_table_paths : stable.

Lemma stable_table_names vdom t acc : stable (table_names vdom t acc).
Proof.
  revert acc. induction t as [ | [name paths] t IH ]; intros acc; simpl; stab.
Qed.
#[local] Hint Resolve stable_scalar_names stable_table_names : stable.

Lemma stable_setoverlayconfig t vdom : stable (setoverlayconfig t vdom).
Proof. unfold setoverlayconfig. stab. Qed.

(** [update_cookie], and [login] which calls it, need more of [Q]. *)
Section WithCookies.

Hypothesis Q_cookies : forall l h jar, Q l h -> Q l (update_cookie_loop jar h).

Lemma stable_update_cookie : stable update_cookie.
Proof. unfold update_cookie. stab. Qed.
#[local] Hint Resolve stable_update_cookie : stable.

Lemma stable_login h u p v c t vdom : stable (login h u p v c t vdom).
Proof. unfold login. stab. Qed.

End WithCookies.

Lemma stable_run (c : call) :
  (c = Call_logout -> forall l h, Q l h -> Q (VStr "Valid") h) ->
  (updates_cookie c = true ->
   forall l h jar, Q l h -> Q l (update_cookie_loop jar h)) ->
  stable (run c).
Proof.
  intros Hl Hc.
  destruct c; simpl in *; unfold discard;
    try (apply stable_bind; [ | intros ?; apply stable_ret ]);
    try (apply stable_logout; exact (Hl eq_refl));
    try specialize (Hc eq_refl);
    auto using stable_https, stable_update_cookie, stable_check_session,
      stable_formatresponse, stable_login, stable_tokenlogin, stable_get_version,
      stable_get_mkeyname, stable_get_mkey, stable_logout, stable_cmdb_url,
      stable_mon_url, stable_download, stable_upload, stable_get, stable_monitor,
      stable_schema, stable_get_name_path_dict, stable_post, stable_execute,
      stable_put, stable_move, stable_delete, stable_set, stable_license,
      stable_setoverlayconfig.
Qed.

End Invariant.

(** ** The license state and the CSRF header *)

Lemma Inv_start Q P (R : list bool -> Prop) (w : world W) :
  Q (_license (self w)) (headers (self w)) -> R (observed w) ->
  Inv Q P (sent w) R w.
Proof.
  intros Hq Hr. split; [ exact Hq | split; [ | exact Hr ] ].
  exists []. now rewrite app_nil_r.
Qed.

Lemma run_keeps_license (c : call) (w : world W) :
  c <> Call_logout -> _license (self (snd (run c w))) = _license (self w).
Proof.
  intros Hc.
  assert (H : stable (fun l _ => l = _license (self w)) (fun _ => True) (sent w)
                (fun _ => True) (run c)).
  { apply stable_run; trivial. intros E. now elim Hc. }
  apply H. now apply Inv_start.
Qed.

Lemma logout_license (w : world W) :
  _license (self (snd (logout w))) = _license (self w)
  \/ _license (self (snd (logout w))) = VStr "Valid".
Proof.
  assert (H : stable (fun l _ => l = _license (self w) \/ l = VStr "Valid")
                (fun _ => True) (sent w) (fun _ => True) logout).
  { apply stable_logout; auto. }
  apply H. apply Inv_start; auto.
Qed.

Lemma reachable_license (w : world W) :
  reachable w -> license_unset_or_valid (self w).
Proof.
  induction 1 as [ srv | w c Hw IH ].
  - now left.
  - destruct c; try (unfold license_unset_or_valid;
                     rewrite run_keeps_license by discriminate; exact IH).
    unfold license_unset_or_valid in *. simpl run.
    destruct (logout_license w) as [ E | E ]; rewrite E; auto.
Qed.

(** C9. The license state is [None] in a new object, [logout] is the only
    call that can change it and it leaves it unchanged or ["Valid"]; so in
    every state that calls of the methods reach from a new object it is
    [None] or ["Valid"], [check_session] does not raise [InvalidLicense] and
    [formatresponse] does not raise its "invalid license" exception. *)
Theorem license_never_invalid (w : world W) :
  reachable w ->
  _license init = VNone
  /\ license_unset_or_valid (self w)
  /\ fst (check_session w) <> Raise InvalidLicense
  /\ (forall res vdom,
        fst (formatresponse res vdom w) <> Raise (PyException "invalid license"))
  /\ (forall c, c <> Call_logout ->
        _license (self (snd (run c w))) = _license (self w))
  /\ (_license (self (snd (run Call_logout w))) = _license (self w)
      \/ _license (self (snd (run Call_logout w))) = VStr "Valid").
Proof.
  intros Hw. pose proof (reachable_license Hw) as Hl.
  assert (Hv : eq_str (_license (self w)) "Invalid" = false).
  { destruct Hl as [ E | E ]; now rewrite E. }
  repeat split.
  - exact Hl.
  - unfold check_session. unmonad. rewrite Hv.
    destruct (_logged (self w)); simpl; discriminate.
  - intros res vdom. unfold formatresponse. unmonad. rewrite Hv.
    destruct (decode res vdom); simpl; discriminate.
  - intros c Hc. now apply run_keeps_license.
  - apply logout_license.
Qed.

Lemma headers_get_update_same (h : headers_t) (k v : string) :
  headers_get (headers_update h k v) k = Some v.
Proof.
  induction h as [ | [k' v'] h IH ]; simpl.
  - now rewrite String.eqb_refl.
  - destruct (String.eqb (lower k') (lower k)) eqn:E; simpl.
    + now rewrite String.eqb_refl.
    + now rewrite E.
Qed.

Lemma headers_get_update_other (h : headers_t) (k k' v : string) :
  String.eqb (lower k) (lower k') = false ->
  headers_get (headers_update h k v) k' = headers_get h k'.
Proof.
  intros Hne. induction h as [ | [k0 v0] h IH ]; simpl.
  - now rewrite Hne.
  - destruct (String.eqb (lower k0) (lower k)) eqn:E; simpl.
    + apply String.eqb_eq in E. rewrite E. now rewrite Hne.
    + destruct (String.eqb (lower k0) (lower k')); [ reflexivity | exact IH ].
Qed.

Lemma update_cookie_loop_no_csrf (jar : list Cookie.t) (h : headers_t) :
  last_csrf_cookie jar = None -> update_cookie_loop jar h = h.
Proof.
  revert h. induction jar as [ | c jar IH ]; intros h; simpl; [ reflexivity | ].
  destruct (last_csrf_cookie jar); [ discriminate | ].
  destruct (is_csrf_cookie c); [ discriminate | ]. intros _. now apply IH.
Qed.

Lemma update_cookie_loop_last (jar : list Cookie.t) (h : headers_t) (c : Cookie.t) :
  last_csrf_cookie jar = Some c ->
  headers_get (update_cookie_loop jar h) "X-CSRFTOKEN"
  = Some (slice_1_m1 (Cookie.value c)).
Proof.
  revert h. induction jar as [ | c0 jar IH ]; intros h; simpl; [ discriminate | ].
  destruct (last_csrf_cookie jar) as [ c' | ] eqn:L.
  - intros [= ->]. now apply IH.
  - destruct (is_csrf_cookie c0); [ | discriminate ]. intros [= ->].
    rewrite update_cookie_loop_no_csrf by exact L.
    apply headers_get_update_same.
Qed.

Lemma last_csrf_cookie_in (jar : list Cookie.t) (c : Cookie.t) :
  last_csrf_cookie jar = Some c -> In c jar /\ is_csrf_cookie c = true.
Proof.
  induction jar as [ | c0 jar IH ]; simpl; [ discriminate | ].
  destruct (last_csrf_cookie jar) as [ c' | ].
  - intros E. destruct (IH E). auto.
  - destruct (is_csrf_cookie c0) eqn:E; [ | discriminate ].
    intros [= ->]. auto.
Qed.

Lemma last_csrf_cookie_some (jar : list Cookie.t) (c : Cookie.t) :
  In c jar -> is_csrf_cookie c = true -> exists c', last_csrf_cookie jar = Some c'.
Proof.
  induction jar as [ | c0 jar IH ]; simpl; [ contradiction | ].
  intros [ -> | Hin ] Hc.
  - destruct (last_csrf_cookie jar); [ eauto | ]. rewrite Hc. eauto.
  - destruct (IH Hin Hc) as (c' & ->). eauto.
Qed.

Lemma run_all_stable Q P base R (cs : list call) :
  (forall l h req, Q l h -> req_headers req = h -> P req) ->
  (forall l h v, Q l h -> Q l (headers_update h "Authorization" v)) ->
  (forall l b, R l -> R (l ++ [b])%list) ->
  (forall l h, Q l h -> Q (VStr "Valid") h) ->
  forallb (fun c => negb (updates_cookie c)) cs = true ->
  forall w, Inv Q P base R w -> Inv Q P base R (run_all cs w).
Proof.
  intros HP HA HR HV. induction cs as [ | c cs IH ]; simpl; intros Hcs w Hw.
  - exact Hw.
  - apply andb_true_iff in Hcs as (Hc & Hcs). apply IH; [ exact Hcs | ].
    apply (@stable_run Q P base R HP HA HR c); auto.
    intros E. rewrite E in Hc. discriminate.
Qed.

(** C4, as the code has it.  After [update_cookie], the header "X-CSRFTOKEN"
    of the session is the value, without its first and last characters, of
    the last cookie of the jar that is named "ccsrftoken" or whose name
    starts with "ccsrftoken_"; the header stays, and every request sent
    carries it, through any calls that do not run [update_cookie] again. *)
Theorem csrf_header_follows_last_cookie (w : world W) (c : Cookie.t)
    (cs : list call) :
  last_csrf_cookie (cookies (self w)) = Some c ->
  forallb (fun x => negb (updates_cookie x)) cs = true ->
  let token := slice_1_m1 (Cookie.value c) in
  let w1 := snd (update_cookie w) in
  let w2 := run_all cs w1 in
  In c (cookies (self w)) /\ is_csrf_cookie c = true
  /\ headers_get (headers (self w1)) "X-CSRFTOKEN" = Some token
  /\ headers_get (headers (self w2)) "X-CSRFTOKEN" = Some token
  /\ exists news,
       sent w2 = (sent w1 ++ news)%list
       /\ Forall (fun req => headers_get (req_headers req) "X-CSRFTOKEN" = Some token)
            news.
Proof.
  intros Hc Hcs token w1 w2.
  destruct (last_csrf_cookie_in _ Hc) as (Hin & Hcsrf).
  assert (H1 : headers_get (headers (self w1)) "X-CSRFTOKEN" = Some token).
  { subst w1. simpl. now apply update_cookie_loop_last. }
  assert (Hinv : Inv (fun _ h => headers_get h "X-CSRFTOKEN" = Some token)
                   (fun req => headers_get (req_headers req) "X-CSRFTOKEN" = Some token)
                   (sent w1) (fun _ => True) w2).
  { apply run_all_stable; try exact Hcs.
    - intros l h req Hh <-. exact Hh.
    - intros l h v Hh. rewrite headers_get_update_other; [ exact Hh | reflexivity ].
    - trivial.
    - auto.
    - now apply Inv_start. }
  destruct Hinv as (H2 & Hnews & _). auto.
Qed.

(** ** Sessions that cannot go on *)

Lemma cmdb_url_raises e path name vdom mkey (w : world W) :
  check_session w = (Raise e, w) -> cmdb_url path name vdom mkey w = (Raise e, w).
Proof. intros H. unfold cmdb_url, bind. now rewrite H. Qed.

Lemma mon_url_raises e path name vdom mkey (w : world W) :
  check_session w = (Raise e, w) -> mon_url path name vdom mkey w = (Raise e, w).
Proof. intros H. unfold mon_url, bind. now rewrite H. Qed.

Lemma get_mkeyname_raises e path name vdom (w : world W) :
  check_session w = (Raise e, w) -> get_mkeyname path name vdom w = (Raise e, w).
Proof.
  intros H. unfold get_mkeyname, schema, bind.
  destruct vdom; now erewrite cmdb_url_raises by exact H.
Qed.

Lemma get_mkey_raises e path name data vdom (w : world W) :
  check_session w = (Raise e, w) -> get_mkey path name data vdom w = (Raise e, w).
Proof.
  intros H. unfold get_mkey, bind. now erewrite get_mkeyname_raises by exact H.
Qed.

Lemma check_session_stops e (w : world W) :
  check_session w = (Raise e, w) -> operations_fail e w.
Proof.
  intros H. unfold operations_fail, get, monitor, post, execute, put, move,
    delete, set.
  repeat split; intros; unfold bind, ret;
    repeat match goal with
      | |- context [if ?b then _ else _] => destruct b
      end;
    repeat first
      [ erewrite get_mkey_raises by exact H
      | erewrite get_mkeyname_raises by exact H
      | erewrite cmdb_url_raises by exact H
      | erewrite mon_url_raises by exact H ];
    reflexivity.
Qed.

(** C5, where the code departs from it.  With the license state recorded
    as "Invalid", [check_session] raises [InvalidLicense], and through it
    every method that sends a request and normalizes the answer stops with
    [InvalidLicense] on a logged session before anything is sent.
    [formatresponse], which makes the same test on its first lines, before it
    touches the body, raises a plain [Exception("invalid license")] instead:
    whatever the response and the scope, never [InvalidLicense]. *)
Theorem formatresponse_raises_plain_exception (w : world W) :
  eq_str (_license (self w)) "Invalid" = true ->
  (forall res vdom,
     formatresponse res vdom w = (Raise (PyException "invalid license"), w))
  /\ (forall res vdom, fst (formatresponse res vdom w) <> Raise InvalidLicense)
  /\ (_logged (self w) = true ->
      check_session w = (Raise InvalidLicense, w)
      /\ operations_fail InvalidLicense w).
Proof.
  intros Hv.
  assert (Hf : forall res vdom,
             formatresponse res vdom w
             = (Raise (PyException "invalid license"), w)).
  { intros res vdom. unfold formatresponse. unmonad. now rewrite Hv. }
  split; [ exact Hf | split ].
  - intros res vdom. rewrite Hf. discriminate.
  - intros Hl.
    assert (Hc : check_session w = (Raise InvalidLicense, w)).
    { unfold check_session. unmonad. now rewrite Hl, Hv. }
    split; [ exact Hc | now apply check_session_stops ].
Qed.
(** ** Login with a token *)

Lemma tokenlogin_unfold host_ apitoken verify_ cert_ timeout_ vdom (w : world W) :
  tokenlogin host_ apitoken verify_ cert_ timeout_ vdom w
  = (resp_lic <- get "system" "status" vdom VNone VNone ;;
     match subscript resp_lic (VStr "version") with
     | Ok v => modify_self (with_fortiversion v) ;; ret true
     | Raise TypeError => raise NotLogged
     | Raise e => raise e
     end)
      {| self := token_client host_ apitoken verify_ cert_ timeout_ (self w);
         server := server w; move_parameters := move_parameters w;
         sent := sent w; observed := observed w |}.
Proof.
  unfold tokenlogin, token_client.
  destruct cert_; reflexivity.
Qed.


Lemma formatresponse_decoded res vdom (w : world W) :
  eq_str (_license (self w)) "Invalid" = false ->
  formatresponse res vdom w
  = (Ok match decode res vdom with Ok v => Value v | Raise _ => res end, w).
Proof.
  intros Hv. unfold formatresponse. unmonad. rewrite Hv.
  destruct (decode res vdom); reflexivity.
Qed.


(** ** The two passes of [setoverlayconfig] *)

Lemma set_keeps_observed path name data mkey vdom ps (w : world W) :
  observed (snd (set path name data mkey vdom ps w)) = observed w.
Proof.
  assert (H : stable (fun _ _ => True) (fun _ => True) (sent w)
                (fun l => l = observed w) (set path name data mkey vdom ps)).
  { apply stable_set; trivial. }
  apply H. now apply Inv_start.
Qed.

Lemma last_cons {A} (a d : A) (l : list A) : last (a :: l) d = last l a.
Proof.
  revert a d. induction l as [ | b l IH ]; intros a d; [ reflexivity | ].
  change (last (a :: b :: l) d) with (last (b :: l) d).
  now rewrite (IH b d), (IH b a).
Qed.

Lemma last_app_default {A} (l1 l2 : list A) (d : A) :
  last (l1 ++ l2) d = last l2 (last l1 d).
Proof.
  revert d. induction l1 as [ | a l1 IH ]; intros d; [ reflexivity | ].
  rewrite <- app_comm_cons, !last_cons. apply IH.
Qed.

Lemma returns_last_ret acc : returns_last_outcome (ret acc) acc.
Proof.
  intros w w' b [= <- <-]. exists []. now rewrite app_nil_r.
Qed.

Lemma returns_last_bind (m : M bool) (k : bool -> M bool) (acc : bool) :
  returns_last_outcome m acc ->
  (forall acc', returns_last_outcome (k acc') acc') ->
  returns_last_outcome (bind m k) acc.
Proof.
  intros Hm Hk w w' b. unfold bind.
  destruct (m w) as [[b1 | e] w1] eqn:E; [ | discriminate ].
  intros H. destruct (Hm _ _ _ E) as (n1 & Ho1 & ->).
  destruct (Hk _ _ _ _ H) as (n2 & Ho2 & ->).
  exists (n1 ++ n2)%list. split.
  - now rewrite Ho2, Ho1, app_assoc.
  - symmetry. apply last_app_default.
Qed.

(** The test on the answer of one [set], followed by the rest of the loop. *)
Lemma returns_last_step path name data mkey vdom (rest : M bool) (acc : bool) :
  returns_last_outcome rest true ->
  returns_last_outcome
    (res <- set path name data mkey vdom VNone ;;
     st <- lift (subscript res (VStr "status")) ;;
     if eq_str st "success" then observe true ;; rest
     else observe false ;; ret false) acc.
Proof.
  intros Hrest w w' b. unfold bind at 1.
  pose proof (set_keeps_observed path name data mkey vdom VNone w) as Hobs.
  destruct (set path name data mkey vdom VNone w) as [[res | e] w1];
    [ | discriminate ].
  simpl in Hobs. unfold bind at 1, lift.
  destruct (subscript res (VStr "status")) as [ st | e ]; [ | discriminate ].
  destruct (eq_str st "success").
  - unfold bind, observe. intros H. destruct (Hrest _ _ _ H) as (n & Ho & ->).
    simpl in Ho. exists (true :: n). split.
    + now rewrite Ho, Hobs, <- app_assoc.
    + now rewrite last_cons.
  - unfold bind, observe, ret. intros [= <- <-]. simpl.
    exists [false]. now rewrite Hobs.
Qed.

Lemma scalar_paths_last vdom name paths acc :
  returns_last_outcome (scalar_paths vdom name paths acc) acc.
Proof.
  revert acc. induction paths as [ | [path fields] paths IH ]; intros acc; simpl.
  - apply returns_last_ret.
  - destruct (match fields with [] => false | _ => true end); [ | apply IH ].
    apply returns_last_step. apply IH.
Qed.

Lemma scalar_names_last vdom t acc :
  returns_last_outcome (scalar_names vdom t acc) acc.
Proof.
  revert acc. induction t as [ | [name paths] t IH ]; intros acc; simpl.
  - apply returns_last_ret.
  - apply returns_last_bind; [ apply scalar_paths_last | exact IH ].
Qed.

Lemma table_rows_last vdom name path rows acc :
  returns_last_outcome (table_rows vdom name path rows acc) acc.
Proof.
  revert acc. induction rows as [ | [k node] rows IH ]; intros acc; simpl.
  - apply returns_last_ret.
  - apply returns_last_step. apply IH.
Qed.

Lemma table_paths_last vdom name paths acc :
  returns_last_outcome (table_paths vdom name paths acc) acc.
Proof.
  revert acc. induction paths as [ | [path rows] paths IH ]; intros acc; simpl.
  - apply returns_last_ret.
  - apply returns_last_bind; [ apply table_rows_last | exact IH ].
Qed.

Lemma table_names_last vdom t acc :
  returns_last_outcome (table_names vdom t acc) acc.
Proof.
  revert acc. induction t as [ | [name paths] t IH ]; intros acc; simpl.
  - apply returns_last_ret.
  - apply returns_last_bind; [ apply table_paths_last | exact IH ].
Qed.

Lemma setoverlayconfig_last yamltree vdom :
  returns_last_outcome (setoverlayconfig yamltree vdom) false.
Proof.
  unfold setoverlayconfig. intros w w' b. unfold bind at 1, lift.
  destruct (split_tree yamltree) as [ t | e ]; [ | discriminate ].
  revert w w' b. fold (returns_last_outcome
    (restree <- scalar_names vdom (fst t) false ;; table_names vdom (snd t) restree)
    false).
  apply returns_last_bind; [ apply scalar_names_last | ].
  intros acc. apply table_names_last.
Qed.







(** C2, where the code departs from it.  The split removes, for a scalar
    field, the whole path from the table tree: a path with two scalar fields
    makes the second removal fail with [KeyError], which [setoverlayconfig]
    lets escape before it has sent anything; and a table that shares its path
    with a scalar field is in neither tree afterwards. *)
Theorem split_deletes_whole_path :
  split_tree Demo.two_scalars = Raise KeyError
  /\ (forall vdom (w : world W),
         setoverlayconfig Demo.two_scalars vdom w = (Raise KeyError, w))
  /\ split_tree Demo.scalar_and_table
     = Ok ([("firewall", [("policy", [(VStr "comment", VStr "x")])])],
           [("firewall", [])]).
Proof.
  split; [ reflexivity | split; [ | reflexivity ] ].
  intros vdom w. reflexivity.
Qed.
(** * Further properties of the methods *)

(** ** Equations for the building blocks *)

Lemma session_request_eq m url params data files (w : world W) :
  session_request m url params data files w
  = (answer_to w (request_on (self w) m url params data files),
     exchanged w (request_on (self w) m url params data files)).
Proof. reflexivity. Qed.

Lemma prefixed_ok p postfix (w : world W) :
  url_prefix (self w) = Some p -> prefixed postfix w = (Ok (p ++ postfix), w).
Proof. intros H. unfold prefixed. unmonad. now rewrite H. Qed.

Lemma check_session_not_logged (w : world W) :
  _logged (self w) = false -> check_session w = (Raise NotLogged, w).
Proof. intros H. unfold check_session. unmonad. now rewrite H. Qed.

Lemma mkey_segment_falsy mkey :
  truthy mkey = false -> mkey_segment mkey = "".
Proof. intros H. unfold mkey_segment. now rewrite H. Qed.

Lemma bind_ret {A B} (a : A) (k : A -> M B) (w : world W) :
  bind (ret a) k w = k a w.
Proof. reflexivity. Qed.

Lemma bind_ok {A B} (m : M A) (k : A -> M B) (w w1 : world W) (a : A) :
  m w = (Ok a, w1) -> bind m k w = k a w1.
Proof. intros H. unfold bind. now rewrite H. Qed.

Lemma bind_raise {A B} (m : M A) (k : A -> M B) (w w1 : world W) (e : exn) :
  m w = (Raise e, w1) -> bind m k w = (Raise e, w1).
Proof. intros H. unfold bind. now rewrite H. Qed.

(** A request followed by the normalization of its answer: one request
    leaves, whatever comes back. *)
Lemma request_then_format m url params data files vdom (w : world W) :
  let req := request_on (self w) m url params data files in
  let r := (res <- session_request m url params data files ;;
            formatresponse (Response res) vdom) w in
  sent (snd r) = (sent w ++ [req])%list
  /\ same_login w (snd r)
  /\ observed (snd r) = observed w
  /\ (forall e, answer_to w req = Raise e -> r = (Raise e, exchanged w req))
  /\ (forall res, answer_to w req = Ok res ->
        r = formatresponse (Response res) vdom (exchanged w req)).
Proof.
  intros req r. subst r. unfold bind. rewrite session_request_eq. fold req.
  assert (Hs : same_login w (exchanged w req)) by (repeat split).
  destruct (answer_to w req) as [res | e] eqn:E.
  - pose proof (formatresponse_world (Response res) vdom (exchanged w req)) as Hw.
    destruct (formatresponse (Response res) vdom (exchanged w req)) as [o w'] eqn:F.
    cbn [snd] in *. subst w'.
    repeat split; try reflexivity; try apply Hs.
    + intros e [=].
    + now intros res' [= <-].
  - cbn [snd]. repeat split; try reflexivity; try apply Hs.
    + now intros e' [= <-].
    + intros res [=].
Qed.

(** ** Normalizing an answer *)

(** X1.  For the scope "global" the appliance answers with a list, one
    document for each virtual domain: [formatresponse] returns the first
    document of the list, with the entry "vdom" set to "global" in it, and
    drops the others. *)
Theorem formatresponse_global_first (r : response) (d : dict)
    (rest : list pyval) (w : world W) :
  eq_str (_license (self w)) "Invalid" = false ->
  json_loads (content r) = Some (VList (VDict d :: rest)) ->
  formatresponse (Response r) (Some "global") w
  = (Ok (Value (VDict (dict_set d (VStr "vdom") (VStr "global")))), w).
Proof.
  intros Hl Hj. rewrite formatresponse_decoded by exact Hl.
  unfold decode. rewrite Hj. reflexivity.
Qed.

(** X2.  What cannot be normalized is handed back as it came, without an
    exception: a body that is not JSON (for any scope), for the scope
    "global" a body that is a mapping or an empty list instead of a list of
    documents, and a result that is a decoded value already. *)
Theorem formatresponse_hands_back_undecodable (w : world W) :
  eq_str (_license (self w)) "Invalid" = false ->
  (forall r vdom, json_loads (content r) = None ->
     formatresponse (Response r) vdom w = (Ok (Response r), w))
  /\ (forall r d, json_loads (content r) = Some (VDict d) ->
        dict_get d (VInt 0) = None ->
        formatresponse (Response r) (Some "global") w = (Ok (Response r), w))
  /\ (forall r, json_loads (content r) = Some (VList []) ->
        formatresponse (Response r) (Some "global") w = (Ok (Response r), w))
  /\ (forall v vdom, formatresponse (Value v) vdom w = (Ok (Value v), w)).
Proof.
  intros Hl. repeat split.
  - intros r vdom Hj. rewrite formatresponse_decoded by exact Hl.
    unfold decode. now rewrite Hj.
  - intros r d Hj Hd. rewrite formatresponse_decoded by exact Hl.
    unfold decode. rewrite Hj. cbn. now rewrite Hd.
  - intros r Hj. rewrite formatresponse_decoded by exact Hl.
    unfold decode. now rewrite Hj.
  - intros v vdom. rewrite formatresponse_decoded by exact Hl.
    now rewrite decode_value.
Qed.

(** X3.  [formatresponse] changes nothing in the object, and normalizing
    its own result again gives that result: [set] relies on it when it
    normalizes what [post] has normalized. *)
Theorem formatresponse_twice res vdom (w w' : world W) (o : pyobj) :
  formatresponse res vdom w = (Ok o, w') ->
  w' = w /\ formatresponse o vdom w = (Ok o, w).
Proof.
  intros H. pose proof (formatresponse_world res vdom w) as Hw.
  rewrite H in Hw. cbn [snd] in Hw. subst w'.
  split; [ reflexivity | ]. eapply formatresponse_idem; exact H.
Qed.

(** ** Addresses *)

(** X4.  An identity that Python takes as false (None, 0, the empty string,
    False) is no identity: the URL is the one of the whole table, for the
    configuration and for the monitor side, and so are the requests of [get]
    and [monitor].  An empty [vdom] is no [vdom]. *)
Theorem falsy_identity_is_no_identity path name vdom mkey ps (w : world W) :
  truthy mkey = false ->
  cmdb_url path name vdom mkey w = cmdb_url path name vdom VNone w
  /\ mon_url path name vdom mkey w = mon_url path name vdom VNone w
  /\ get path name vdom mkey ps w = get path name vdom VNone ps w
  /\ monitor path name vdom mkey ps w = monitor path name vdom VNone ps w
  /\ cmdb_url path name (Some "") mkey w = cmdb_url path name None VNone w.
Proof.
  intros H. unfold get, monitor, cmdb_url, mon_url.
  rewrite mkey_segment_falsy by exact H.
  change (mkey_segment VNone) with "". change (vdom_query (Some "")) with "".
  change (vdom_query None) with "". repeat split; reflexivity.
Qed.

(** X5.  With a truthy identity, [put] and [delete] ask for no schema: each
    sends exactly one request, to the URL of the item, the identity escaped
    with no character left as safe. *)
Theorem put_delete_address_item path name vdom mkey ps data (w : world W) :
  usable w ->
  truthy mkey = true ->
  exists p,
    url_prefix (self w) = Some p
    /\ let url := p ++ "/api/v2/cmdb/" ++ path ++ "/" ++ name
                    ++ "/" ++ quote (py_str mkey) "" ++ vdom_query vdom in
       sent (snd (put path name vdom mkey ps data w))
       = (sent w ++ [request_on (self w) PUT url ps (VStr (json_dumps data)) VNone])%list
       /\ sent (snd (delete path name vdom mkey ps data w))
          = (sent w ++ [request_on (self w) DELETE url ps (VStr (json_dumps data))
                          VNone])%list.
Proof.
  intros Hu Hm. destruct (cmdb_url_ok path name vdom mkey Hu) as (p & Hp & Hurl).
  exists p. split; [ exact Hp | ]. intros url.
  assert (Eurl : cmdb_url path name vdom mkey w = (Ok url, w)).
  { rewrite Hurl. unfold url, mkey_segment. now rewrite Hm. }
  unfold put, delete. rewrite Hm. cbn [negb]. rewrite !bind_ret.
  rewrite !(@bind_ok _ _ _ _ _ _ _ Eurl).
  split; apply request_then_format.
Qed.

(** ** Leaving *)

Lemma logout_unfold p (w : world W) :
  url_prefix (self w) = Some p ->
  logout w
  = (_ <- session_request POST (p ++ "/logout") VNone VNone VNone ;;
     modify_self (with_cookies []) ;;
     modify_self (with_logged false) ;;
     modify_self (with_license (VStr "Valid"))) w.
Proof.
  intros H. unfold logout. now rewrite (@bind_ok _ _ _ _ _ _ _ (@prefixed_ok p "/logout" w H)).
Qed.

(** X6.  [logout] needs no login, only a URL prefix.  When the appliance
    answers, whatever the answer, the cookie jar is emptied, the object is
    no longer logged in and its license state is "Valid"; the session
    headers stay as they were (a CSRF or bearer token included); afterwards
    every operation raises [NotLogged] without sending anything. *)
Theorem logout_ends_session (w : world W) (p : string) (res : response) :
  url_prefix (self w) = Some p ->
  let req := request_on (self w) POST (p ++ "/logout") VNone VNone VNone in
  answer_to w req = Ok res ->
  let w' := snd (logout w) in
  fst (logout w) = Ok tt
  /\ sent w' = (sent w ++ [req])%list
  /\ cookies (self w') = []
  /\ _logged (self w') = false
  /\ _license (self w') = VStr "Valid"
  /\ headers (self w') = headers (self w)
  /\ url_prefix (self w') = Some p
  /\ operations_fail NotLogged w'.
Proof.
  intros Hp req Hr w'. subst w'. rewrite (@logout_unfold p _ Hp).
  unfold bind. rewrite session_request_eq. fold req. rewrite Hr.
  unfold modify_self. cbn [fst snd self sent exchanged].
  repeat match goal with |- _ /\ _ => split end; try reflexivity; try assumption.
  apply check_session_stops. now apply check_session_not_logged.
Qed.

(** X7.  When the transport fails during [logout], or when no login has set
    the URL prefix, [logout] raises and the object stays as logged in as it
    was, with its license state. *)
Theorem logout_failure_keeps_session (w : world W) (p : string) (e : exn) :
  url_prefix (self w) = Some p ->
  let req := request_on (self w) POST (p ++ "/logout") VNone VNone VNone in
  answer_to w req = Raise e ->
  logout w = (Raise e, exchanged w req)
  /\ _logged (self (exchanged w req)) = _logged (self w)
  /\ _license (self (exchanged w req)) = _license (self w)
  /\ forall w0 : world W, url_prefix (self w0) = None ->
       logout w0 = (Raise TypeError, w0).
Proof.
  intros Hp req Hr. repeat split.
  - rewrite (@logout_unfold p _ Hp). unfold bind. rewrite session_request_eq.
    fold req. now rewrite Hr.
  - intros w0 H0. unfold logout, bind, prefixed. unmonad. now rewrite H0.
Qed.

(** ** The CSRF header *)

Lemma update_cookie_loop_other (jar : list Cookie.t) (h : headers_t) (k : string) :
  String.eqb (lower "X-CSRFTOKEN") (lower k) = false ->
  headers_get (update_cookie_loop jar h) k = headers_get h k.
Proof.
  intros Hk. revert h. induction jar as [ | c jar IH ]; intros h; [ reflexivity | ].
  cbn [update_cookie_loop]. rewrite IH.
  destruct (is_csrf_cookie c); [ | reflexivity ].
  now apply headers_get_update_other.
Qed.

(** X8.  [update_cookie] writes the header X-CSRFTOKEN and nothing else:
    every other header (Authorization among them) keeps its value, the
    cookies, the login and the license state are untouched, nothing is sent;
    with no CSRF cookie in the jar the headers are not changed at all (a
    token of an earlier login stays). *)
Theorem update_cookie_touches_one_header (w : world W) (k : string) :
  String.eqb (lower "X-CSRFTOKEN") (lower k) = false ->
  let w' := snd (update_cookie w) in
  headers_get (headers (self w')) k = headers_get (headers (self w)) k
  /\ cookies (self w') = cookies (self w)
  /\ _logged (self w') = _logged (self w)
  /\ _license (self w') = _license (self w)
  /\ sent w' = sent w
  /\ (last_csrf_cookie (cookies (self w)) = None ->
      headers (self w') = headers (self w)).
Proof.
  intros Hk w'. subst w'. unfold update_cookie, modify_self.
  cbn [snd self sent with_headers headers cookies _logged _license].
  repeat split.
  - now apply update_cookie_loop_other.
  - apply update_cookie_loop_no_csrf.
Qed.

(** ** Moving *)

(** X9.  [move] with a [where] that cannot be a key (a list, a dictionary)
    raises [TypeError] before anything is sent; called without [parameters],
    it has by then written "action" into the dictionary that all such calls
    share. *)
Theorem move_unhashable_where path name vdom mkey where_ reference_key
    (w : world W) :
  usable w ->
  hashable where_ = false ->
  let r := move path name vdom mkey where_ reference_key None w in
  fst r = Raise TypeError
  /\ sent (snd r) = sent w
  /\ self (snd r) = self w
  /\ move_parameters (snd r)
     = dict_set (move_parameters w) (VStr "action") (VStr "move")
  /\ forall d, move path name vdom mkey where_ reference_key (Some (VDict d)) w
               = (Raise TypeError, w).
Proof.
  intros Hu Hh r. subst r.
  destruct (cmdb_url_ok path name vdom mkey Hu) as (p & Hp & Hurl).
  unfold move. rewrite !(@bind_ok _ _ _ _ _ _ _ Hurl).
  unfold parameters_load, parameters_store, bind, get_move_parameters,
    put_move_parameters, lift, ret, setitem.
  cbn [hashable]. rewrite Hh. cbn [fst snd sent self move_parameters].
  repeat split. intros d. now rewrite Hurl.
Qed.

(** ** The listing of the schema *)

Lemma name_path_loop_listed (entries : list pyval) (l : list (string * string)) :
  Forall2 entry_of entries l ->
  forall acc, name_path_loop entries acc = Ok (acc ++ listed l)%list.
Proof.
  induction 1 as [ | e [p n] entries l [Hp Hn] _ IH ]; intros acc.
  - cbn. now rewrite app_nil_r.
  - cbn [fst snd] in Hp, Hn. cbn [name_path_loop].
    unfold path_space_name. rewrite Hp, Hn. cbn [rbind contains_tree].
    unfold listed. cbn [filter fst snd].
    destruct (contains_substr "__tree__" p); cbn [negb map fst snd].
    + apply IH.
    + rewrite IH. unfold listed. now rewrite <- app_assoc.
Qed.

(** X10.  [get_name_path_dict] does not look at the login: with a URL prefix
    alone it sends its one GET and, from the entries under "results",
    returns the strings "path name" in their order, leaving out every entry
    whose path contains "__tree__". *)
Theorem get_name_path_dict_lists vdom (w : world W) (p : string)
    (res : response) (doc : pyval) (entries : list pyval)
    (l : list (string * string)) :
  url_prefix (self w) = Some p ->
  let req := request_on (self w) GET (listing_url p vdom) VNone VNone VNone in
  answer_to w req = Ok res ->
  json_loads (content res) = Some doc ->
  getitem doc (VStr "results") = Ok (VList entries) ->
  Forall2 entry_of entries l ->
  get_name_path_dict vdom w = (Ok (listed l), exchanged w req).
Proof.
  intros Hp req Hr Hj Hd Hl. unfold get_name_path_dict.
  rewrite (@bind_ok _ _ _ _ _ _ _ (@prefixed_ok p _ w Hp)).
  fold (listing_url p vdom).
  unfold bind. rewrite session_request_eq. fold req. rewrite Hr.
  unfold lift, loads. rewrite Hj. cbn [rbind]. rewrite Hd. cbn [rbind py_iter].
  now rewrite (@name_path_loop_listed entries l Hl).
Qed.

(** ** Asking the schema *)

Lemma usable_intro (w : world W) (p : string) :
  _logged (self w) = true ->
  eq_str (_license (self w)) "Invalid" = false ->
  url_prefix (self w) = Some p ->
  usable w.
Proof. intros H1 H2 H3. repeat split; eauto. Qed.

Lemma cmdb_url_item path name vdom mkey (w : world W) (p : string) :
  usable w -> url_prefix (self w) = Some p ->
  cmdb_url path name vdom mkey w = (Ok (item_url p path name vdom mkey), w).
Proof.
  intros Hu Hp. destruct (cmdb_url_ok path name vdom mkey Hu) as (p' & Hp' & ->).
  rewrite Hp in Hp'. now injection Hp' as <-.
Qed.

Lemma schema_unfold path name vdom (w : world W) (p : string) :
  usable w -> url_prefix (self w) = Some p ->
  schema path name vdom w
  = (res <- session_request GET (schema_url p path name vdom) VNone VNone VNone ;;
     if status_code res =? 200 then
       if is_global vdom then
         lift (j <-? loads res ;;
               first <-? getitem j (VInt 0) ;;
               getitem first (VStr "results"))%result
       else
         lift (j <-? loads res ;; getitem j (VStr "results"))%result
     else lift (loads res)) w.
Proof.
  intros Hu Hp. unfold schema, schema_url. destruct vdom as [v | ].
  - unfold bind at 1. unfold bind at 1.
    rewrite (@cmdb_url_item path name (Some v) VNone w p Hu Hp). reflexivity.
  - unfold bind at 1. unfold bind at 1.
    rewrite (@cmdb_url_item path name None VNone w p Hu Hp). reflexivity.
Qed.

(** X11.  [schema] does not go through [formatresponse]: when the answer to
    its request is not JSON it raises, and so does everything that asks the
    schema for the name of the identity: [get_mkeyname], [get_mkey], and
    [put], [delete] and [set] called without an identity, [post] called with
    one.  The request to the schema is the only one sent. *)
Theorem undecodable_schema_stops path name vdom mkey ps data
    (w : world W) (p : string) (res : response) :
  _logged (self w) = true ->
  eq_str (_license (self w)) "Invalid" = false ->
  url_prefix (self w) = Some p ->
  let req := request_on (self w) GET (schema_url p path name vdom)
               VNone VNone VNone in
  answer_to w req = Ok res ->
  json_loads (content res) = None ->
  let stop := (Raise ValueError, exchanged w req) in
  schema path name vdom w = stop
  /\ get_mkeyname path name vdom w = stop
  /\ get_mkey path name data vdom w = stop
  /\ (truthy mkey = false ->
      put path name vdom mkey ps data w = (Raise ValueError, exchanged w req)
      /\ delete path name vdom mkey ps data w = (Raise ValueError, exchanged w req)
      /\ set path name data mkey vdom ps w = (Raise ValueError, exchanged w req))
  /\ (truthy mkey = true ->
      post path name data vdom mkey ps w = (Raise ValueError, exchanged w req)).
Proof.
  intros Hlog Hlic Hp req Hr Hj stop.
  pose proof (@usable_intro w p Hlog Hlic Hp) as Hu.
  assert (Hs : schema path name vdom w = (Raise ValueError, exchanged w req)).
  { rewrite (@schema_unfold path name vdom w p Hu Hp).
    unfold bind. rewrite session_request_eq. fold req. rewrite Hr.
    unfold lift, loads. rewrite Hj. cbn [rbind].
    destruct (status_code res =? 200); [ destruct (is_global vdom) | ]; reflexivity. }
  assert (Hn : get_mkeyname path name vdom w = (Raise ValueError, exchanged w req)).
  { unfold get_mkeyname. now rewrite (@bind_raise _ _ _ _ _ _ _ Hs). }
  assert (Hk : get_mkey path name data vdom w = (Raise ValueError, exchanged w req)).
  { unfold get_mkey. now rewrite (@bind_raise _ _ _ _ _ _ _ Hn). }
  subst stop. repeat match goal with |- _ /\ _ => split end; try assumption.
  - intros Hm. unfold put, delete, set. rewrite Hm. cbn [negb].
    now rewrite !(@bind_raise _ _ _ _ _ _ _ Hk).
  - intros Hm. unfold post. rewrite Hm.
    unfold bind at 1. unfold bind at 1. now rewrite Hn.
Qed.

Lemma get_mkey_found path name vdom (d : dict) (sch keyname v : pyval)
    (w w1 : world W) :
  schema path name vdom w = (Ok sch, w1) ->
  getitem sch (VStr "mkey") = Ok keyname ->
  truthy keyname = true ->
  hashable keyname = true ->
  dict_get d keyname = Some v ->
  get_mkey path name (VDict d) vdom w = (Ok v, w1).
Proof.
  intros Hs Hk Ht Hh Hd. unfold get_mkey, get_mkeyname.
  unfold bind at 1. unfold bind at 1. rewrite Hs, Hk. unfold ret at 1.
  rewrite Ht. cbn [negb]. unfold getitem. now rewrite Hh, Hd.
Qed.

(** X12.  Called without an identity, [put] and [delete] take it from the
    payload: the value found in the payload under the key that the schema
    names goes into the URL of the one request that follows the one to the
    schema. *)
Theorem put_delete_resolve_identity path name vdom mkey ps (d : dict)
    (sch keyname v : pyval) (w w1 : world W) (p : string) :
  truthy mkey = false ->
  schema path name vdom w = (Ok sch, w1) ->
  getitem sch (VStr "mkey") = Ok keyname ->
  truthy keyname = true ->
  hashable keyname = true ->
  dict_get d keyname = Some v ->
  url_prefix (self w) = Some p ->
  let url := item_url p path name vdom v in
  let body := VStr (json_dumps (VDict d)) in
  sent (snd (put path name vdom mkey ps (VDict d) w))
  = (sent w1 ++ [request_on (self w1) PUT url ps body VNone])%list
  /\ sent (snd (delete path name vdom mkey ps (VDict d) w))
     = (sent w1 ++ [request_on (self w1) DELETE url ps body VNone])%list.
Proof.
  intros Hm Hs Hk Ht Hh Hd Hp url body.
  pose proof (@get_mkey_found path name vdom d sch keyname v w w1 Hs Hk Ht Hh Hd) as Hg.
  destruct (@schema_inv _ _ _ _ _ _ Hs) as (Hu & Hsl).
  pose proof (@usable_same_login _ _ Hu Hsl) as Hu1.
  assert (Hp1 : url_prefix (self w1) = Some p).
  { destruct Hsl as (_ & _ & E & _). now rewrite E. }
  pose proof (@cmdb_url_item path name vdom v w1 p Hu1 Hp1) as Hurl.
  unfold put, delete. rewrite Hm. cbn [negb].
  rewrite !(@bind_ok _ _ _ _ _ _ _ Hg), !(@bind_ok _ _ _ _ _ _ _ Hurl).
  split; apply request_then_format.
Qed.

(** X13.  [set] reads "http_status" in what [formatresponse] gave: when the
    answer to its PUT is not JSON, that is the response itself, and [set]
    raises [TypeError]; no POST is tried. *)
Theorem set_undecodable_answer path name data mkey vdom ps
    (w : world W) (p : string) (res : response) :
  _logged (self w) = true ->
  eq_str (_license (self w)) "Invalid" = false ->
  url_prefix (self w) = Some p ->
  truthy mkey = true ->
  let req := request_on (self w) PUT (item_url p path name vdom mkey) ps
               (VStr (json_dumps data)) VNone in
  answer_to w req = Ok res ->
  json_loads (content res) = None ->
  set path name data mkey vdom ps w = (Raise TypeError, exchanged w req).
Proof.
  intros Hlog Hlic Hp Hm req Hr Hj.
  pose proof (@usable_intro w p Hlog Hlic Hp) as Hu.
  pose proof (@cmdb_url_item path name vdom mkey w p Hu Hp) as Hurl.
  unfold set. rewrite Hm. cbn [negb]. rewrite bind_ret.
  rewrite (@bind_ok _ _ _ _ _ _ _ Hurl).
  assert (Hq : session_request PUT (item_url p path name vdom mkey) ps
                 (VStr (json_dumps data)) VNone w = (Ok res, exchanged w req)).
  { rewrite session_request_eq. fold req. now rewrite Hr. }
  rewrite (@bind_ok _ _ _ _ _ _ _ Hq).
  assert (Hf : formatresponse (Response res) vdom (exchanged w req)
               = (Ok (Response res), exchanged w req)).
  { rewrite formatresponse_decoded by exact Hlic. unfold decode. now rewrite Hj. }
  rewrite (@bind_ok _ _ _ _ _ _ _ Hf). reflexivity.
Qed.

(** ** Logging in with a password *)

Lemma login_unfold host_ username password verify_ cert_ timeout_ vdom
    (w : world W) :
  login host_ username password verify_ cert_ timeout_ vdom w
  = (res <- session_request POST (login_url host_ (self w)) VNone
              (login_body username password) VNone ;;
     after_logincheck vdom res)
      (with_self (login_client host_ verify_ cert_ timeout_ (self w)) w).
Proof.
  unfold login, login_client, with_self, after_logincheck, login_url, login_body.
  destruct cert_; reflexivity.
Qed.

Lemma mon_url_world path name vdom mkey (w : world W) :
  snd (mon_url path name vdom mkey w) = w.
Proof.
  unfold mon_url, check_session, prefixed. unmonad.
  destruct (_logged (self w)); cbn [negb]; [ | reflexivity ].
  destruct (eq_str (_license (self w)) "Invalid"); [ reflexivity | ].
  destruct (url_prefix (self w)); reflexivity.
Qed.

Lemma mon_url_not_notlogged path name vdom mkey (w : world W) :
  _logged (self w) = true ->
  fst (mon_url path name vdom mkey w) <> Raise NotLogged.
Proof.
  intros H. unfold mon_url, check_session, prefixed. unmonad. rewrite H.
  cbn [negb].
  destruct (eq_str (_license (self w)) "Invalid"); [ discriminate | ].
  destruct (url_prefix (self w)); discriminate.
Qed.

Lemma formatresponse_not_notlogged res vdom (w : world W) :
  fst (formatresponse res vdom w) <> Raise NotLogged.
Proof.
  unfold formatresponse. unmonad.
  destruct (eq_str (_license (self w)) "Invalid"); [ discriminate | ].
  destruct (decode res vdom); discriminate.
Qed.

Lemma getitem_not_notlogged (o k : pyval) : getitem o k <> Raise NotLogged.
Proof.
  unfold getitem. destruct o as [ | vb | vz | vs | vl | d ]; try discriminate.
  - destruct (as_index k); [ | discriminate ].
    destruct (seq_index _ _); discriminate.
  - destruct (as_index k); [ | discriminate ].
    destruct (seq_index _ _); discriminate.
  - destruct (hashable k); [ | discriminate ].
    destruct (dict_get d k); discriminate.
Qed.

(** What [monitor] leaves: the login as it was, at most one request more,
    and never [NotLogged] on an object that is logged in. *)
Lemma monitor_frame path name vdom mkey ps (w : world W) :
  let r := monitor path name vdom mkey ps w in
  same_login w (snd r)
  /\ (exists news, sent (snd r) = (sent w ++ news)%list)
  /\ (transport_own_errors -> _logged (self w) = true ->
      fst r <> Raise NotLogged).
Proof.
  intros r. subst r. unfold monitor.
  pose proof (mon_url_world path name vdom mkey w) as Hw.
  pose proof (@mon_url_not_notlogged path name vdom mkey w) as Hn.
  destruct (mon_url path name vdom mkey w) as [[url | e] w'] eqn:Hu;
    cbn [fst snd] in Hw, Hn; subst w'.
  - rewrite (@bind_ok _ _ _ _ _ _ _ Hu).
    destruct (request_then_format GET url ps VNone VNone vdom w)
      as (Hs & Hl & _ & Hr & Ho).
    split; [ exact Hl | ]. split; [ eexists; exact Hs | ].
    intros Ht _.
    destruct (answer_to w (request_on (self w) GET url ps VNone VNone))
      as [res | e] eqn:E.
    + rewrite (Ho _ eq_refl). apply formatresponse_not_notlogged.
    + rewrite (Hr _ eq_refl). cbn [fst]. intros [= ->]. exact (Ht _ _ _ E).
  - rewrite (@bind_raise _ _ _ _ _ _ _ Hu). cbn [fst snd].
    split; [ apply same_login_refl | ].
    split; [ exists []; now rewrite app_nil_r | ].
    intros _ Hlog [= ->]. now apply (Hn Hlog).
Qed.

Ltac outcome Post :=
  subst Post; cbv beta;
  cbn [fst snd self with_logged with_fortiversion _logged url_prefix sent];
  split;
  [ intros ? Hb;
    first [ discriminate Hb
          | injection Hb as <-; split;
            [ reflexivity | first [ reflexivity | assumption ] ] ]
  | split;
    [ intros Ht Hb; first [ discriminate Hb | reflexivity | idtac ]
    | split;
      [ first [ assumption | reflexivity ]
      | first [ eexists; eassumption | exists []; now rewrite app_nil_r ] ] ] ].

Lemma after_logincheck_outcome vdom res (w : world W) :
  let r := after_logincheck vdom res w in
  (forall b, fst r = Ok b -> b = true /\ _logged (self (snd r)) = true)
  /\ (transport_own_errors ->
      fst r = Raise NotLogged -> _logged (self (snd r)) = false)
  /\ url_prefix (self (snd r)) = url_prefix (self w)
  /\ exists news, sent (snd r) = (sent w ++ news)%list.
Proof.
  pose (Post := fun r : result bool * world W =>
          (forall b, fst r = Ok b -> b = true /\ _logged (self (snd r)) = true)
          /\ (transport_own_errors ->
              fst r = Raise NotLogged -> _logged (self (snd r)) = false)
          /\ url_prefix (self (snd r)) = url_prefix (self w)
          /\ exists news, sent (snd r) = (sent w ++ news)%list).
  change (Post (after_logincheck vdom res w)).
  unfold after_logincheck. unfold bind at 1. unfold lift at 1.
  destruct (login_marker res) as [[ | ] | e] eqn:Hm.
  - (* the marker is "1" *)
    unfold bind at 1. unfold update_cookie at 1. unfold modify_self at 1.
    unfold bind at 1. unfold modify_self at 1.
    match goal with
    | |- context [bind (monitor ?a ?b ?c ?d ?e) _ ?w2] =>
        set (w1 := w2);
        destruct (monitor_frame a b c d e w1) as (Hl & (n1 & Hs) & Hn);
        unfold bind at 1;
        destruct (monitor a b c d e w1) as [[o | e1] w3] eqn:Hmon
    end; cbn [fst snd] in Hl, Hs, Hn;
      destruct Hl as (Hlog & _ & Hpre & _);
      change (_logged (self w1)) with true in Hlog;
      change (url_prefix (self w1)) with (url_prefix (self w)) in Hpre;
      change (sent w1) with (sent w) in Hs.
    + unfold bind at 1. unfold lift at 1.
      destruct (as_dict_or_json o) as [d | e2] eqn:Hd.
      * destruct (getitem d (VStr "version")) as [v | e3] eqn:Hv.
        { unfold bind, modify_self, ret. outcome Post. }
        destruct e3; try (unfold raise; outcome Post; fail).
        { exfalso. exact (@getitem_not_notlogged _ _ Hv). }
        unfold bind at 1. unfold lift at 1.
        destruct (getitem d (VStr "status")) as [st | e4] eqn:Hst.
        { destruct (eq_str st "success");
            unfold bind, modify_self, ret, raise; outcome Post. }
        outcome Post. injection Hb as ->. exfalso.
        exact (@getitem_not_notlogged _ _ Hst).
      * outcome Post. injection Hb as ->. exfalso.
        destruct o as [r | [ | | | | | ]]; cbn in Hd; try discriminate.
        destruct (response_json r); discriminate.
    + outcome Post. injection Hb as ->. exfalso. now apply (Hn Ht eq_refl).
  - (* another marker *)
    unfold bind, modify_self, raise. outcome Post.
  - (* no marker *)
    outcome Post. injection Hb as ->. exfalso. unfold login_marker in Hm.
    destruct (is_ascii (content res)); [ | discriminate ].
    destruct (content res); discriminate.
Qed.

(** X14.  How [login] ends.  Its first request is the POST of the
    credentials to [/logincheck] under the scheme chosen by [https]; when it
    returns, it returns [True] and the object is logged in; when it raises
    [NotLogged], the object is not logged in; any other exception (of the
    transport, of the decoding) leaves the object as the steps before it
    made it. *)
Theorem login_outcome host_ username password verify_ cert_ timeout_ vdom
    (w : world W) :
  transport_own_errors ->
  let r := login host_ username password verify_ cert_ timeout_ vdom w in
  let c0 := login_client host_ verify_ cert_ timeout_ (self w) in
  (forall b, fst r = Ok b -> b = true /\ _logged (self (snd r)) = true)
  /\ (fst r = Raise NotLogged -> _logged (self (snd r)) = false)
  /\ url_prefix (self (snd r))
     = Some ((if negb (_https (self w)) then "http://" else "https://") ++ host_)
  /\ exists news,
       sent (snd r)
       = (sent w
          ++ request_on c0 POST (login_url host_ (self w)) VNone
               (login_body username password) VNone :: news)%list.
Proof.
  intros Ht r c0. subst r. rewrite login_unfold. fold c0.
  unfold bind. rewrite session_request_eq.
  change (self (with_self c0 w)) with c0.
  set (req := request_on c0 POST (login_url host_ (self w)) VNone
                (login_body username password) VNone).
  destruct (answer_to (with_self c0 w) req) as [res | e] eqn:Hr.
  - destruct (after_logincheck_outcome vdom res (exchanged (with_self c0 w) req))
      as (H1 & H2 & H3 & news & H4).
    split; [ exact H1 | ]. split; [ exact (H2 Ht) | ].
    split; [ rewrite H3; reflexivity | ].
    exists news. rewrite H4. cbn [exchanged sent with_self].
    now rewrite <- app_assoc.
  - cbn [fst snd]. split; [ intros b [=] | ].
    split; [ intros [= ->]; exfalso; exact (Ht _ _ _ Hr) | ].
    split; [ reflexivity | ]. exists []. reflexivity.
Qed.

(** ** A tree of tables *)

Lemma sget_sset_same {A} (l : list (string * A)) (k : string) (v : A) :
  sget (sset l k v) k = Ok v.
Proof.
  induction l as [ | [k' v'] l IH ]; cbn [sset sget].
  - now rewrite String.eqb_refl.
  - destruct (String.eqb k' k) eqn:E; cbn [sget]; now rewrite E.
Qed.

Lemma sset_sset {A} (l : list (string * A)) (k : string) (v v' : A) :
  sset (sset l k v) k v' = sset l k v'.
Proof.
  induction l as [ | [k' v0] l IH ]; cbn [sset].
  - now rewrite String.eqb_refl.
  - destruct (String.eqb k' k) eqn:E; cbn [sset]; rewrite E; [ reflexivity | ].
    now rewrite IH.
Qed.

Lemma sset_sget_id {A} (l : list (string * A)) (k : string) (v : A) :
  sget l k = Ok v -> sset l k v = l.
Proof.
  induction l as [ | [k' v'] l IH ]; cbn [sset sget]; [ discriminate | ].
  destruct (String.eqb k' k) eqn:E.
  - now intros [= ->].
  - intros H. now rewrite IH.
Qed.

Lemma sget_app_fresh {A} (pre suf : list (string * A)) (k : string) :
  ~ In k (map fst pre) -> sget (pre ++ suf) k = sget suf k.
Proof.
  induction pre as [ | [k' v'] pre IH ]; intros Hn; [ reflexivity | ].
  cbn [app sget]. destruct (String.eqb k' k) eqn:E.
  - apply String.eqb_eq in E. exfalso. apply Hn. now left.
  - apply IH. intros Hin. apply Hn. now right.
Qed.

Lemma sset_app_fresh {A} (pre suf : list (string * A)) (k : string) (v : A) :
  ~ In k (map fst pre) -> sset (pre ++ suf) k v = (pre ++ sset suf k v)%list.
Proof.
  induction pre as [ | [k' v'] pre IH ]; intros Hn; [ reflexivity | ].
  cbn [app sset]. destruct (String.eqb k' k) eqn:E.
  - apply String.eqb_eq in E. exfalso. apply Hn. now left.
  - rewrite IH; [ reflexivity | ]. intros Hin. apply Hn. now right.
Qed.

Lemma rbind_ok {A B} (r : result A) (k : A -> result B) (a : A) :
  r = Ok a -> rbind r k = k a.
Proof. now intros ->. Qed.

Lemma NoDup_app_head {A} (pre : list A) (x : A) (suf : list A) :
  NoDup (pre ++ x :: suf) -> ~ In x pre.
Proof.
  intros H Hin. apply NoDup_remove_2 in H. apply H. apply in_or_app. now left.
Qed.

(** The fields of one path, all of them tables: each one leaves the first
    tree, the second tree keeps them. *)
Lemma split_fields_tables (name path : string) (fields : dict) :
  table_fields fields ->
  forall (yamltree yamltreel3 : tree) (paths : list (string * dict)),
    sget yamltree name = Ok paths ->
    sget paths path = Ok fields ->
    split_fields name path (dict_keys fields) (yamltree, yamltreel3)
    = Ok (sset yamltree name (sset paths path []), yamltreel3).
Proof.
  induction 1 as [ | [k node] fields [Hk Hd] _ IH ]; intros yt l3 paths Hy Hp.
  - cbn [dict_keys map split_fields].
    now rewrite (@sset_sget_id _ paths path [] Hp), (@sset_sget_id _ yt name paths Hy).
  - cbn [fst snd] in Hk, Hd. cbn [dict_keys map fst split_fields].
    unfold split_field. rewrite Hy. cbn [rbind]. rewrite Hp. cbn [rbind].
    unfold getitem. rewrite Hk. cbn [dict_get dict_del].
    rewrite (@key_eqb_refl k Hk). cbn [rbind]. rewrite Hd. cbn [rbind].
    fold (dict_keys fields).
    etransitivity; [ apply IH; apply sget_sset_same | ].
    now rewrite !sset_sset.
Qed.

Lemma split_paths_tables (name : string) (suf : list (string * dict)) :
  Forall (fun pf => table_fields (snd pf)) suf ->
  forall (pre : list (string * dict)) (yamltree yamltreel3 : tree),
    NoDup (map fst (pre ++ suf)) ->
    sget yamltree name = Ok (pre ++ suf)%list ->
    split_paths name (map fst suf) (yamltree, yamltreel3)
    = Ok (sset yamltree name
            (pre ++ map (fun pf => (fst pf, @nil (pyval * pyval))) suf)%list,
          yamltreel3).
Proof.
  induction 1 as [ | [path fields] suf Hf _ IH ]; intros pre yt l3 Hnd Hy.
  - cbn [map split_paths]. now rewrite sset_sget_id by exact Hy.
  - cbn [fst snd] in Hf. cbn [map fst split_paths].
    assert (Hfresh : ~ In path (map fst pre)).
    { rewrite map_app in Hnd. cbn [map fst] in Hnd. exact (NoDup_app_head _ _ _ Hnd). }
    assert (Hp : sget (pre ++ (path, fields) :: suf) path = Ok fields).
    { rewrite (@sget_app_fresh _ pre _ path Hfresh). cbn [sget].
      now rewrite String.eqb_refl. }
    rewrite Hy. cbn [rbind]. rewrite Hp. cbn [rbind].
    rewrite (@split_fields_tables name path fields Hf yt l3 _ Hy Hp).
    cbn [rbind].
    rewrite (@sset_app_fresh _ pre _ path [] Hfresh). cbn [sset].
    rewrite String.eqb_refl.
    rewrite (IH (pre ++ [(path, [])])%list).
    + rewrite sset_sset. now rewrite <- app_assoc.
    + rewrite <- app_assoc. cbn [app].
      rewrite map_app in *. exact Hnd.
    + rewrite sget_sset_same. now rewrite <- app_assoc.
Qed.

Lemma split_names_tables (suf : tree) :
  Forall (fun np => NoDup (map fst (snd np))
                    /\ Forall (fun pf => table_fields (snd pf)) (snd np)) suf ->
  forall (pre yamltreel3 : tree),
    NoDup (map fst (pre ++ suf)) ->
    split_names (map fst suf) ((pre ++ suf)%list, yamltreel3)
    = Ok ((pre ++ emptied suf)%list, yamltreel3).
Proof.
  induction 1 as [ | [name paths] suf [Hnp Hf] _ IH ]; intros pre l3 Hnd.
  - reflexivity.
  - cbn [fst snd] in Hnp, Hf. cbn [map fst split_names].
    assert (Hfresh : ~ In name (map fst pre)).
    { rewrite map_app in Hnd. cbn [map fst] in Hnd. exact (NoDup_app_head _ _ _ Hnd). }
    assert (Hy : sget (pre ++ (name, paths) :: suf) name = Ok paths).
    { rewrite (@sget_app_fresh _ pre _ name Hfresh). cbn [sget].
      now rewrite String.eqb_refl. }
    rewrite Hy. cbn [rbind].
    erewrite rbind_ok;
      [ | exact (@split_paths_tables name paths Hf [] _ l3 Hnp Hy) ].
    cbn [app].
    rewrite (@sset_app_fresh _ pre _ name _ Hfresh). cbn [sset].
    rewrite String.eqb_refl.
    match goal with
    | |- split_names _ (?l, _) = _ =>
        replace l
          with ((pre ++ [(name, map (fun pf => (fst pf, @nil (pyval * pyval))) paths)])
                ++ suf)%list
          by (now rewrite <- app_assoc)
    end.
    etransitivity; [ apply IH | ].
    + rewrite <- app_assoc. cbn [app]. rewrite map_app in *. exact Hnd.
    + unfold emptied. cbn [map fst snd]. now rewrite <- app_assoc.
Qed.

Lemma scalar_paths_emptied vdom name (paths : list (string * dict)) acc
    (w : world W) :
  scalar_paths vdom name (map (fun pf => (fst pf, @nil (pyval * pyval))) paths) acc w
  = (Ok acc, w).
Proof.
  induction paths as [ | [path fields] paths IH ]; [ reflexivity | ].
  cbn [map scalar_paths fst truthy]. exact IH.
Qed.

Lemma scalar_names_emptied vdom (t : tree) acc (w : world W) :
  scalar_names vdom (emptied t) acc w = (Ok acc, w).
Proof.
  induction t as [ | [name paths] t IH ]; [ reflexivity | ].
  unfold emptied. cbn [map scalar_names fst snd]. fold (emptied t).
  now rewrite (@bind_ok _ _ _ _ _ _ _ (scalar_paths_emptied vdom name paths acc w)).
Qed.

(** X15.  On a tree that holds table rows only, the split takes every field
    out of the first tree and leaves the second one whole; the first pass
    then sends nothing, and the call is the second pass over the tree as it
    was given: one [set] for each row, in the order of the tree. *)
Theorem setoverlayconfig_tables_only (t : tree) vdom (w : world W) :
  tables_only t ->
  split_tree t = Ok (emptied t, t)
  /\ setoverlayconfig t vdom w = table_names vdom t false w.
Proof.
  intros (Hnd & Hf).
  assert (Hs : split_tree t = Ok (emptied t, t)).
  { unfold split_tree. exact (@split_names_tables t Hf [] t Hnd). }
  split; [ exact Hs | ].
  unfold setoverlayconfig. rewrite Hs. unfold bind at 1. unfold lift.
  cbn [fst snd].
  now rewrite (@bind_ok _ _ _ _ _ _ _ (scalar_names_emptied vdom t false w)).
Qed.

(** ** The scheme *)

Lemma login_first_request host_ username password verify_ cert_ timeout_ vdom
    (w : world W) :
  exists news,
    sent (snd (login host_ username password verify_ cert_ timeout_ vdom w))
    = (sent w
       ++ request_on (login_client host_ verify_ cert_ timeout_ (self w)) POST
            (login_url host_ (self w)) VNone (login_body username password) VNone
          :: news)%list.
Proof.
  rewrite login_unfold.
  set (c0 := login_client host_ verify_ cert_ timeout_ (self w)).
  unfold bind. rewrite session_request_eq.
  change (self (with_self c0 w)) with c0.
  set (req := request_on c0 POST (login_url host_ (self w)) VNone
                (login_body username password) VNone).
  destruct (answer_to (with_self c0 w) req) as [res | e].
  - destruct (after_logincheck_outcome vdom res (exchanged (with_self c0 w) req))
      as (_ & _ & _ & news & H4).
    exists news. rewrite H4. cbn [exchanged sent with_self].
    now rewrite <- app_assoc.
  - exists []. reflexivity.
Qed.

(** X16.  [https] knows two words: "on" and "off" set the scheme, any other
    status leaves it as it was.  The scheme is read by the next [login],
    whose first request goes to [/logincheck] under it. *)
Theorem https_chooses_scheme status host_ username password verify_ cert_
    timeout_ vdom (w : world W) :
  let w1 := snd (https status w) in
  let scheme := if eq_str status "off" then "http://"
                else if eq_str status "on" then "https://"
                else if _https (self w) then "https://" else "http://" in
  fst (https status w) = Ok tt
  /\ _https (self w1)
     = (if eq_str status "off" then false
        else if eq_str status "on" then true else _https (self w))
  /\ sent w1 = sent w
  /\ exists req news,
       sent (snd (login host_ username password verify_ cert_ timeout_ vdom w1))
       = (sent w ++ req :: news)%list
       /\ req_method req = POST
       /\ req_url req = (scheme ++ host_) ++ "/logincheck".
Proof.
  intros w1 scheme.
  destruct (login_first_request host_ username password verify_ cert_ timeout_
              vdom w1) as (news & Hs).
  assert (H1 : fst (https status w) = Ok tt
               /\ _https (self w1)
                  = (if eq_str status "off" then false
                     else if eq_str status "on" then true else _https (self w))
               /\ sent w1 = sent w).
  { subst w1. unfold https, bind, modify_self, ret.
    destruct (eq_str status "on") eqn:Eon; destruct (eq_str status "off") eqn:Eoff;
      cbn [fst snd self sent with_https _https]; repeat split. }
  destruct H1 as (Hf & Hh & Hsent).
  split; [ exact Hf | ]. split; [ exact Hh | ]. split; [ exact Hsent | ].
  eexists. exists news. rewrite <- Hsent. split; [ exact Hs | ].
  split; [ reflexivity | ].
  cbn [req_url request_on]. unfold login_url. rewrite Hh. subst scheme.
  destruct (eq_str status "off"); [ reflexivity | ].
  destruct (eq_str status "on"); [ reflexivity | ].
  now destruct (_https (self w)).
Qed.

(** ** The Authorization header *)

Lemma get_frame path name vdom mkey ps (w : world W) :
  same_login w (snd (get path name vdom mkey ps w)).
Proof.
  unfold get.
  destruct (cmdb_url path name vdom mkey w) as [[url | e] w'] eqn:Hu.
  - destruct (@cmdb_url_inv _ _ _ _ _ _ _ Hu) as (-> & _).
    rewrite (@bind_ok _ _ _ _ _ _ _ Hu). apply request_then_format.
  - rewrite (@bind_raise _ _ _ _ _ _ _ Hu). cbn [snd].
    assert (Hw : snd (cmdb_url path name vdom mkey w) = w).
    { unfold cmdb_url, check_session, prefixed. unmonad.
      destruct (_logged (self w)); cbn [negb]; [ | reflexivity ].
      destruct (eq_str (_license (self w)) "Invalid"); [ reflexivity | ].
      destruct (url_prefix (self w)); reflexivity. }
    rewrite Hu in Hw. cbn [snd] in Hw. subst w'. apply same_login_refl.
Qed.

Lemma tokenlogin_headers host_ apitoken verify_ cert_ timeout_ vdom (w : world W) :
  headers (self (snd (tokenlogin host_ apitoken verify_ cert_ timeout_ vdom w)))
  = headers_update (headers (self w)) "Authorization" ("Bearer " ++ apitoken).
Proof.
  rewrite tokenlogin_unfold.
  match goal with
  | |- context [bind _ _ ?w0] => set (w1 := w0)
  end.
  pose proof (get_frame "system" "status" vdom VNone VNone w1) as Hf.
  unfold bind at 1.
  destruct (get "system" "status" vdom VNone VNone w1) as [[o | e] w2].
  - cbn [snd] in Hf. destruct Hf as (_ & _ & _ & Hh & _).
    change (headers (self w1))
      with (headers_update (headers (self w)) "Authorization"
              ("Bearer " ++ apitoken)) in Hh.
    destruct (subscript o (VStr "version")) as [v | e].
    + unfold bind, modify_self, ret. cbn [snd self with_fortiversion headers].
      exact Hh.
    + destruct e; exact Hh.
  - cbn [snd] in *. destruct Hf as (_ & _ & _ & Hh & _). exact Hh.
Qed.

Lemma run_all_inv Q P base R (cs : list call) :
  (forall l h req, Q l h -> req_headers req = h -> P req) ->
  (forall l h v, Q l h -> Q l (headers_update h "Authorization" v)) ->
  (forall l b, R l -> R (l ++ [b])%list) ->
  (forall l h, Q l h -> Q (VStr "Valid") h) ->
  (forall l h jar, Q l h -> Q l (update_cookie_loop jar h)) ->
  forall w, Inv Q P base R w -> Inv Q P base R (run_all cs w).
Proof.
  intros HP HA HR HV HC. induction cs as [ | c cs IH ]; simpl; intros w Hw.
  - exact Hw.
  - apply IH. apply (@stable_run Q P base R HP HA HR c); auto.
Qed.

Lemma authorized_update_cookie_loop (jar : list Cookie.t) (h : headers_t) :
  authorized h -> authorized (update_cookie_loop jar h).
Proof.
  unfold authorized. intros H.
  rewrite update_cookie_loop_other; [ exact H | reflexivity ].
Qed.

(** X17.  Nothing in the class takes a header away.  After [tokenlogin] the
    session carries the bearer token, and whatever is called afterwards
    ([logout] and a password [login] included), the session still has an
    Authorization header and every request sent carries one. *)
Theorem authorization_header_stays host_ apitoken verify_ cert_ timeout_ vdom
    (cs : list call) (w : world W) :
  let w1 := snd (tokenlogin host_ apitoken verify_ cert_ timeout_ vdom w) in
  let w2 := run_all cs w1 in
  headers_get (headers (self w1)) "Authorization" = Some ("Bearer " ++ apitoken)
  /\ authorized (headers (self w2))
  /\ exists news,
       sent w2 = (sent w1 ++ news)%list
       /\ Forall (fun req => authorized (req_headers req)) news.
Proof.
  intros w1 w2.
  assert (H1 : headers_get (headers (self w1)) "Authorization"
               = Some ("Bearer " ++ apitoken)).
  { subst w1. rewrite tokenlogin_headers. apply headers_get_update_same. }
  split; [ exact H1 | ].
  assert (Hinv : Inv (fun _ h => authorized h)
                   (fun req => authorized (req_headers req)) (sent w1)
                   (fun _ => True) w2).
  { subst w2. apply run_all_inv.
    - intros _ h req Hh E. now rewrite E.
    - intros _ h v _. unfold authorized. now rewrite headers_get_update_same.
    - trivial.
    - trivial.
    - intros _ h jar. apply authorized_update_cookie_loop.
    - apply Inv_start; [ | trivial ]. unfold authorized. now rewrite H1. }
  destruct Hinv as (Hq & Hs & _). split; [ exact Hq | exact Hs ].
Qed.

(** ** Checking the license *)

Lemma mon_request meth path name vdom mkey ps data (w : world W) :
  let r := (url <- mon_url path name vdom mkey ;;
            res <- session_request meth url ps data VNone ;;
            formatresponse (Response res) vdom) w in
  same_login w (snd r)
  /\ exists news,
       sent (snd r) = (sent w ++ news)%list
       /\ ((exists o, fst r = Ok o) -> map req_method news = [meth])
       /\ (map req_method news = [] \/ map req_method news = [meth]).
Proof.
  intros r. subst r.
  pose proof (mon_url_world path name vdom mkey w) as Hw.
  destruct (mon_url path name vdom mkey w) as [[url | e] w'] eqn:Hu;
    cbn [snd] in Hw; subst w'.
  - rewrite (@bind_ok _ _ _ _ _ _ _ Hu).
    destruct (request_then_format meth url ps data VNone vdom w)
      as (Hs & Hl & _).
    split; [ exact Hl | ]. eexists. split; [ exact Hs | ].
    split; [ reflexivity | now right ].
  - rewrite (@bind_raise _ _ _ _ _ _ _ Hu). cbn [fst snd].
    split; [ apply same_login_refl | ]. exists [].
    split; [ now rewrite app_nil_r | ].
    split; [ intros (o & [=]) | now left ].
Qed.

(** X18.  [license] asks, at most once tells the appliance to update, and
    at most once asks again: its requests are, in this order, a beginning of
    GET, POST, GET, whatever the answers.  It leaves the login and the
    license state of the object as they were. *)
Theorem license_asks_at_most_twice vdom (w : world W) :
  let r := license vdom w in
  same_login w (snd r)
  /\ exists news k,
       sent (snd r) = (sent w ++ news)%list
       /\ map req_method news = firstn k [GET; POST; GET].
Proof.
  pose (Post := fun r : result pyobj * world W =>
          same_login w (snd r)
          /\ exists news k,
               sent (snd r) = (sent w ++ news)%list
               /\ map req_method news = firstn k [GET; POST; GET]).
  change (Post (license vdom w)).
  unfold license.
  destruct (mon_request GET "license" "status" vdom VNone VNone VNone w)
    as (Hl1 & n1 & Hs1 & Ho1 & Hc1).
  fold (monitor "license" "status" vdom VNone VNone) in Hl1, Hs1, Ho1.
  unfold bind at 1.
  destruct (monitor "license" "status" vdom VNone VNone w) as [[resp | e] w1].
  2:{ subst Post. cbn [fst snd] in *. split; [ exact Hl1 | ].
      exists n1. destruct Hc1 as [E | E].
      - exists 0%nat. now split.
      - exists 1%nat. now split. }
  cbn [fst snd] in Hl1, Hs1, Ho1. specialize (Ho1 (ex_intro _ resp eq_refl)).
  unfold bind at 1. unfold lift at 1.
  destruct (subscript resp (VStr "status")) as [st | e].
  2:{ subst Post. cbn [fst snd]. split; [ exact Hl1 | ].
      exists n1, 1%nat. now split. }
  destruct (eq_str st "success").
  { subst Post. cbn [ret fst snd]. split; [ exact Hl1 | ].
    exists n1, 1%nat. now split. }
  destruct (mon_request POST "system" "fortiguard/update" vdom VNone VNone
              (VStr (json_dumps VNone)) w1)
    as (Hl2 & n2 & Hs2 & Ho2 & Hc2).
  fold (execute "system" "fortiguard/update" VNone vdom VNone VNone)
    in Hl2, Hs2, Ho2.
  unfold bind at 1.
  destruct (execute "system" "fortiguard/update" VNone vdom VNone VNone w1)
    as [[postresp | e] w2].
  2:{ subst Post. cbn [fst snd] in *.
      split; [ exact (same_login_trans Hl1 Hl2) | ].
      exists (n1 ++ n2)%list. rewrite Hs2, Hs1, <- app_assoc, map_app, Ho1.
      destruct Hc2 as [E | E]; rewrite E.
      - exists 1%nat. now split.
      - exists 2%nat. now split. }
  cbn [fst snd] in Hl2, Hs2, Ho2. specialize (Ho2 (ex_intro _ postresp eq_refl)).
  unfold bind at 1. unfold lift at 1.
  destruct (subscript postresp (VStr "status")) as [st' | e].
  2:{ subst Post. cbn [fst snd].
      split; [ exact (same_login_trans Hl1 Hl2) | ].
      exists (n1 ++ n2)%list, 2%nat.
      rewrite Hs2, Hs1, <- app_assoc, map_app, Ho1, Ho2. now split. }
  destruct (eq_str st' "success").
  2:{ subst Post. cbn [ret fst snd].
      split; [ exact (same_login_trans Hl1 Hl2) | ].
      exists (n1 ++ n2)%list, 2%nat.
      rewrite Hs2, Hs1, <- app_assoc, map_app, Ho1, Ho2. now split. }
  destruct (mon_request GET "license" "status" vdom VNone VNone VNone w2)
    as (Hl3 & n3 & Hs3 & _ & Hc3).
  fold (monitor "license" "status" vdom VNone VNone) in Hl3, Hs3.
  subst Post. cbv beta.
  split; [ exact (same_login_trans (same_login_trans Hl1 Hl2) Hl3) | ].
  exists (n1 ++ n2 ++ n3)%list.
  rewrite Hs3, Hs2, Hs1, <- !app_assoc, !map_app, Ho1, Ho2.
  destruct Hc3 as [E | E]; rewrite E.
  - exists 2%nat. now split.
  - exists 3%nat. now split.
Qed.

(** ** Without a login *)

(** X19.  An object that is not logged in sends nothing through the methods
    that build their URL with [cmdb_url] or [mon_url]: each of them raises
    [NotLogged] and leaves the object as it was, whatever the license state.
    ([logout] and [get_name_path_dict] do not ask and are not in the list.) *)
Theorem not_logged_sends_nothing (w : world W) :
  _logged (self w) = false ->
  operations_fail NotLogged w
  /\ (forall path name vdom mkey ps,
        download path name vdom mkey ps w = (Raise NotLogged, w))
  /\ (forall path name vdom mkey ps data files,
        upload path name vdom mkey ps data files w = (Raise NotLogged, w))
  /\ (forall path name vdom, schema path name vdom w = (Raise NotLogged, w))
  /\ (forall path name vdom, get_mkeyname path name vdom w = (Raise NotLogged, w))
  /\ (forall path name data vdom,
        get_mkey path name data vdom w = (Raise NotLogged, w))
  /\ get_version w = (Raise NotLogged, w)
  /\ (forall vdom, license vdom w = (Raise NotLogged, w)).
Proof.
  intros H. pose proof (check_session_not_logged w H) as Hc.
  repeat match goal with |- _ /\ _ => split end.
  - now apply check_session_stops.
  - intros. unfold download.
    now rewrite (@bind_raise _ _ _ _ _ _ _ (@mon_url_raises _ _ _ _ _ _ Hc)).
  - intros. unfold upload.
    now rewrite (@bind_raise _ _ _ _ _ _ _ (@mon_url_raises _ _ _ _ _ _ Hc)).
  - intros path name vdom. unfold schema. destruct vdom;
      unfold bind at 1; unfold bind at 1;
      now rewrite (@cmdb_url_raises NotLogged path name _ VNone w Hc).
  - intros. now apply get_mkeyname_raises.
  - intros. now apply get_mkey_raises.
  - unfold get_version. now rewrite (@bind_raise _ _ _ _ _ _ _ Hc).
  - intros vdom. unfold license, monitor.
    unfold bind at 1. unfold bind at 1.
    now rewrite (@mon_url_raises NotLogged "license" "status" vdom VNone w Hc).
Qed.

(** ** A login that goes through *)

Lemma mon_url_item path name vdom mkey (w : world W) (p : string) :
  _logged (self w) = true ->
  eq_str (_license (self w)) "Invalid" = false ->
  url_prefix (self w) = Some p ->
  mon_url path name vdom mkey w = (Ok (monitor_url p path name vdom mkey), w).
Proof.
  intros Hlog Hlic Hp. unfold mon_url.
  rewrite (@bind_ok _ _ _ _ _ _ _ (@check_session_ok w Hlog Hlic)).
  now rewrite (@prefixed_ok p _ w Hp).
Qed.

(** X20.  A [login] that goes through.  When the answer to [/logincheck]
    starts with "1", [login] writes the CSRF header from the cookies that
    the answer has set, and asks [license/status] on the monitor side with
    that header.  If what comes back is a mapping with a "version", [login]
    returns [True] and keeps that version; if it has no "version" but a
    "status" equal to "success", [login] returns [True] as well and the
    version stays what it was before the call. *)
Theorem login_learns_version host_ username password verify_ cert_ timeout_ vdom
    (w : world W) (res1 res2 : response) (d : dict) :
  eq_str (_license (self w)) "Invalid" = false ->
  let c0 := login_client host_ verify_ cert_ timeout_ (self w) in
  let req1 := request_on c0 POST (login_url host_ (self w)) VNone
                (login_body username password) VNone in
  answer_to (with_self c0 w) req1 = Ok res1 ->
  login_marker res1 = Ok true ->
  let w1 := exchanged (with_self c0 w) req1 in
  let c2 := marked_client (self w1) in
  let req2 := request_on c2 GET
                (monitor_url ((if negb (_https (self w)) then "http://" else "https://")
                              ++ host_) "license" "status" None VNone)
                (VStr ("{ vdom = " ++ vdom ++ " }")) VNone VNone in
  answer_to (with_self c2 w1) req2 = Ok res2 ->
  json_loads (content res2) = Some (VDict d) ->
  let w2 := exchanged (with_self c2 w1) req2 in
  (forall v, dict_get d (VStr "version") = Some v ->
     login host_ username password verify_ cert_ timeout_ vdom w
     = (Ok true, with_self (with_fortiversion v (self w2)) w2))
  /\ (dict_get d (VStr "version") = None ->
      dict_get d (VStr "status") = Some (VStr "success") ->
      login host_ username password verify_ cert_ timeout_ vdom w
      = (Ok true, with_self (with_logged true (self w2)) w2)
      /\ _fortiversion (self w2) = _fortiversion (self w))
  /\ sent w2 = (sent w ++ [req1; req2])%list
  /\ headers c2 = update_cookie_loop (cookies (self w1)) (headers (self w)).
Proof.
  intros Hlic c0 req1 Hr1 Hm w1 c2 req2 Hr2 Hj w2.
  assert (Hmon : monitor "license" "status" None VNone
                   (VStr ("{ vdom = " ++ vdom ++ " }")) (with_self c2 w1)
                 = (Ok (Value (VDict d)), w2)).
  { unfold monitor.
    rewrite (@bind_ok _ _ _ _ _ _ _
               (@mon_url_item "license" "status" None VNone (with_self c2 w1)
                  _ eq_refl Hlic eq_refl)).
    unfold bind. rewrite session_request_eq.
    change (self (with_self c2 w1)) with c2. fold req2. rewrite Hr2. fold w2.
    rewrite formatresponse_decoded by exact Hlic.
    unfold decode. now rewrite Hj. }
  assert (Hlogin : login host_ username password verify_ cert_ timeout_ vdom w
                   = (resp_lic <- lift (as_dict_or_json (Value (VDict d))) ;;
                      match getitem resp_lic (VStr "version") with
                      | Ok v => modify_self (with_fortiversion v) ;; ret true
                      | Raise KeyError =>
                          st <- lift (getitem resp_lic (VStr "status")) ;;
                          if eq_str st "success"
                          then modify_self (with_logged true) ;; ret true
                          else modify_self (with_logged false) ;; raise NotLogged
                      | Raise e => raise e
                      end) w2).
  { rewrite login_unfold. fold c0.
    unfold bind at 1. rewrite session_request_eq.
    change (self (with_self c0 w)) with c0. fold req1. rewrite Hr1. fold w1.
    unfold after_logincheck. unfold bind at 1. unfold lift at 1. rewrite Hm.
    unfold bind at 1. unfold update_cookie at 1. unfold modify_self at 1.
    unfold bind at 1. unfold modify_self at 1.
    change (bind (monitor "license" "status" None VNone
                    (VStr ("{ vdom = " ++ vdom ++ " }"))) ?k ?x)
      with (bind (monitor "license" "status" None VNone
                    (VStr ("{ vdom = " ++ vdom ++ " }"))) k (with_self c2 w1)).
    now rewrite (@bind_ok _ _ _ _ _ _ _ Hmon). }
  repeat match goal with |- _ /\ _ => split end.
  - intros v Hv. rewrite Hlogin. unfold bind, lift, as_dict_or_json, getitem.
    cbn [hashable]. now rewrite Hv.
  - intros Hv Hst. split; [ | reflexivity ].
    rewrite Hlogin. unfold bind, lift, as_dict_or_json, getitem.
    cbn [hashable]. now rewrite Hv, Hst.
  - subst w2 w1. unfold exchanged, with_self. cbn [sent].
    now rewrite <- app_assoc.
  - reflexivity.
Qed.

(** ** Creating, and acting on the appliance *)

(** X21.  Without an identity [post] asks for no schema and leaves the
    payload as it is; [execute] never asks for one.  Each sends exactly one
    POST: [post] to the URL of the table, [execute] to the monitor side. *)
Theorem post_execute_single_request path name data vdom mkey ps
    (w : world W) (p : string) :
  _logged (self w) = true ->
  eq_str (_license (self w)) "Invalid" = false ->
  url_prefix (self w) = Some p ->
  let body := VStr (json_dumps data) in
  (truthy mkey = false ->
   sent (snd (post path name data vdom mkey ps w))
   = (sent w ++ [request_on (self w) POST (item_url p path name vdom VNone) ps
                   body VNone])%list)
  /\ sent (snd (execute path name data vdom mkey ps w))
     = (sent w ++ [request_on (self w) POST (monitor_url p path name vdom mkey) ps
                     body VNone])%list.
Proof.
  intros Hlog Hlic Hp body.
  pose proof (@usable_intro w p Hlog Hlic Hp) as Hu. split.
  - intros Hm. unfold post. rewrite Hm. rewrite bind_ret.
    rewrite (@bind_ok _ _ _ _ _ _ _ (@cmdb_url_item path name vdom VNone w p Hu Hp)).
    apply request_then_format.
  - unfold execute.
    rewrite (@bind_ok _ _ _ _ _ _ _
               (@mon_url_item path name vdom mkey w p Hlog Hlic Hp)).
    apply request_then_format.
Qed.

(** ** When the schema is refused *)

(** X22.  When the appliance refuses the schema (a status other than 200
    with a JSON document that has no "mkey", as its error documents are),
    nothing is raised: [get_mkeyname] gives [False], [get_mkey] gives
    [None], and [put] and [delete] called without an identity go on and send
    their request to the URL of the whole table. *)
Theorem refused_schema_addresses_table path name vdom mkey ps data
    (w : world W) (p : string) (res : response) (sch : dict) :
  _logged (self w) = true ->
  eq_str (_license (self w)) "Invalid" = false ->
  url_prefix (self w) = Some p ->
  let req := request_on (self w) GET (schema_url p path name vdom)
               VNone VNone VNone in
  answer_to w req = Ok res ->
  (status_code res =? 200) = false ->
  json_loads (content res) = Some (VDict sch) ->
  dict_get sch (VStr "mkey") = None ->
  truthy mkey = false ->
  let w1 := exchanged w req in
  let body := VStr (json_dumps data) in
  get_mkeyname path name vdom w = (Ok (VBool false), w1)
  /\ get_mkey path name data vdom w = (Ok VNone, w1)
  /\ sent (snd (put path name vdom mkey ps data w))
     = (sent w ++ [req; request_on (self w1) PUT (item_url p path name vdom VNone)
                          ps body VNone])%list
  /\ sent (snd (delete path name vdom mkey ps data w))
     = (sent w ++ [req; request_on (self w1) DELETE (item_url p path name vdom VNone)
                          ps body VNone])%list.
Proof.
  intros Hlog Hlic Hp req Hr Hst Hj Hk Hm w1 body.
  pose proof (@usable_intro w p Hlog Hlic Hp) as Hu.
  assert (Hs : schema path name vdom w = (Ok (VDict sch), w1)).
  { rewrite (@schema_unfold path name vdom w p Hu Hp).
    unfold bind. rewrite session_request_eq. fold req. rewrite Hr. rewrite Hst.
    unfold lift, loads. now rewrite Hj. }
  assert (Hn : get_mkeyname path name vdom w = (Ok (VBool false), w1)).
  { unfold get_mkeyname. rewrite (@bind_ok _ _ _ _ _ _ _ Hs).
    unfold getitem. cbn [hashable]. now rewrite Hk. }
  assert (Hg : get_mkey path name data vdom w = (Ok VNone, w1)).
  { unfold get_mkey. now rewrite (@bind_ok _ _ _ _ _ _ _ Hn). }
  assert (Hu1 : usable w1) by (exact (@usable_intro w1 p Hlog Hlic Hp)).
  pose proof (@cmdb_url_item path name vdom VNone w1 p Hu1 Hp) as Hurl.
  split; [ exact Hn | ]. split; [ exact Hg | ].
  subst body. unfold put, delete. rewrite Hm. cbn [negb].
  rewrite !(@bind_ok _ _ _ _ _ _ _ Hg), !(@bind_ok _ _ _ _ _ _ _ Hurl).
  assert (Hsent : sent w1 = (sent w ++ [req])%list) by reflexivity.
  split.
  - destruct (request_then_format PUT (item_url p path name vdom VNone) ps
                (VStr (json_dumps data)) VNone vdom w1) as (E & _).
    rewrite E, Hsent, <- app_assoc. reflexivity.
  - destruct (request_then_format DELETE (item_url p path name vdom VNone) ps
                (VStr (json_dumps data)) VNone vdom w1) as (E & _).
    rewrite E, Hsent, <- app_assoc. reflexivity.
Qed.

(** ** A tree of single settings *)

Lemma split_paths_scalars (name : string) (suf : list (string * dict)) :
  Forall (fun pf => single_scalar (snd pf)) suf ->
  forall (pre : list (string * dict)) (yamltree yamltreel3 : tree),
    NoDup (map fst (pre ++ suf)) ->
    sget yamltree name = Ok (pre ++ suf)%list ->
    sget yamltreel3 name = Ok suf ->
    split_paths name (map fst suf) (yamltree, yamltreel3)
    = Ok (yamltree, sset yamltreel3 name []).
Proof.
  induction 1 as [ | [path fields] suf Hf _ IH ]; intros pre yt l3 Hnd Hy H3.
  - cbn [map split_paths]. now rewrite sset_sget_id by exact H3.
  - cbn [fst snd] in Hf. destruct Hf as (k & v & Ef & Hk & Hv).
    cbn [map fst split_paths].
    assert (Hfresh : ~ In path (map fst pre)).
    { rewrite map_app in Hnd. cbn [map fst] in Hnd. exact (NoDup_app_head _ _ _ Hnd). }
    assert (Hp : sget (pre ++ (path, fields) :: suf) path = Ok fields).
    { rewrite (@sget_app_fresh _ pre _ path Hfresh). cbn [sget].
      now rewrite String.eqb_refl. }
    rewrite Hy. cbn [rbind]. rewrite Hp. cbn [rbind].
    assert (Hsf : split_fields name path (dict_keys fields) (yt, l3)
                  = Ok (yt, sset l3 name suf)).
    { rewrite Ef at 1. cbn [dict_keys map fst split_fields].
      unfold split_field. rewrite Hy. cbn [rbind]. rewrite Hp. cbn [rbind].
      rewrite Ef. unfold getitem. rewrite Hk. cbn [dict_get].
      rewrite (@key_eqb_refl k Hk). cbn [rbind]. rewrite Hv. rewrite H3.
      cbn [rbind sdel]. rewrite String.eqb_refl. reflexivity. }
    erewrite rbind_ok; [ | exact Hsf ].
    etransitivity;
      [ apply (IH (pre ++ [(path, fields)])%list)
      | now rewrite sset_sset ].
    + rewrite <- app_assoc. exact Hnd.
    + rewrite <- app_assoc. exact Hy.
    + apply sget_sset_same.
Qed.

Lemma split_names_scalars (suf : tree) :
  Forall (fun np => NoDup (map fst (snd np))
                    /\ Forall (fun pf => single_scalar (snd pf)) (snd np)) suf ->
  forall (pre yamltreel3pre : tree),
    NoDup (map fst (pre ++ suf)) ->
    map fst yamltreel3pre = map fst pre ->
    split_names (map fst suf) ((pre ++ suf)%list, (yamltreel3pre ++ suf)%list)
    = Ok ((pre ++ suf)%list, (yamltreel3pre ++ pathless suf)%list).
Proof.
  induction 1 as [ | [name paths] suf [Hnp Hf] _ IH ]; intros pre pre3 Hnd Hpre.
  - reflexivity.
  - cbn [fst snd] in Hnp, Hf. cbn [map fst split_names].
    assert (Hfresh : ~ In name (map fst pre)).
    { rewrite map_app in Hnd. cbn [map fst] in Hnd. exact (NoDup_app_head _ _ _ Hnd). }
    assert (Hfresh3 : ~ In name (map fst pre3)) by (now rewrite Hpre).
    assert (Hy : sget (pre ++ (name, paths) :: suf) name = Ok paths).
    { rewrite (@sget_app_fresh _ pre _ name Hfresh). cbn [sget].
      now rewrite String.eqb_refl. }
    assert (H3 : sget (pre3 ++ (name, paths) :: suf) name = Ok paths).
    { rewrite (@sget_app_fresh _ pre3 _ name Hfresh3). cbn [sget].
      now rewrite String.eqb_refl. }
    rewrite Hy. cbn [rbind].
    erewrite rbind_ok;
      [ | exact (@split_paths_scalars name paths Hf [] _ _ Hnp Hy H3) ].
    rewrite (@sset_app_fresh _ pre3 _ name _ Hfresh3). cbn [sset].
    rewrite String.eqb_refl.
    match goal with
    | |- split_names _ (?l, ?l3) = _ =>
        replace l with ((pre ++ [(name, paths)]) ++ suf)%list
          by (now rewrite <- app_assoc);
        replace l3 with ((pre3 ++ [(name, @nil (string * dict))]) ++ suf)%list
          by (now rewrite <- app_assoc)
    end.
    etransitivity; [ apply IH | ].
    + rewrite <- app_assoc. exact Hnd.
    + rewrite !map_app. cbn [map fst]. now rewrite Hpre.
    + unfold pathless. cbn [map fst]. now rewrite <- !app_assoc.
Qed.

Lemma table_names_pathless vdom (t : tree) acc (w : world W) :
  table_names vdom (pathless t) acc w = (Ok acc, w).
Proof.
  induction t as [ | [name paths] t IH ]; [ reflexivity | ].
  unfold pathless. cbn [map table_names fst table_paths]. fold (pathless t).
  rewrite bind_ret. exact IH.
Qed.

(** X23.  On a tree with one setting (a value that is not a dictionary)
    under each path, the split keeps the first tree whole and takes every
    path out of the second; the call is then the first pass over the tree as
    given, one [set] without identity for each path, and the second pass
    sends nothing. *)
Theorem setoverlayconfig_single_scalars (t : tree) vdom (w : world W) :
  single_scalars t ->
  split_tree t = Ok (t, pathless t)
  /\ setoverlayconfig t vdom w = scalar_names vdom t false w.
Proof.
  intros (Hnd & Hf).
  assert (Hs : split_tree t = Ok (t, pathless t)).
  { unfold split_tree. exact (@split_names_scalars t Hf [] [] Hnd eq_refl). }
  split; [ exact Hs | ].
  unfold setoverlayconfig. rewrite Hs. unfold bind at 1. unfold lift.
  cbn [fst snd]. unfold bind.
  destruct (scalar_names vdom t false w) as [[b | e] w']; [ | reflexivity ].
  apply table_names_pathless.
Qed.
End FortiOSAPI.

(** ** Examples on the scripted appliance

    Each method below is the method of the section in front of [Demo]. *)

Local Abbreviation d_get := (get Demo.send Demo.loads Demo.quote Demo.repr).
Local Abbreviation d_post :=
  (post Demo.send Demo.loads Demo.dumps Demo.quote Demo.repr).
Local Abbreviation d_set :=
  (set Demo.send Demo.loads Demo.dumps Demo.quote Demo.repr).
Local Abbreviation d_move := (move Demo.send Demo.loads Demo.quote Demo.repr).
Local Abbreviation d_get_mkeyname :=
  (get_mkeyname Demo.send Demo.loads Demo.quote Demo.repr).
Local Abbreviation d_get_mkey :=
  (get_mkey Demo.send Demo.loads Demo.quote Demo.repr).
Local Abbreviation d_tokenlogin :=
  (tokenlogin Demo.send Demo.loads Demo.quote Demo.repr).
Local Abbreviation d_table_names :=
  (table_names Demo.send Demo.loads Demo.dumps Demo.quote Demo.repr).
Local Abbreviation d_setoverlayconfig :=
  (setoverlayconfig Demo.send Demo.loads Demo.dumps Demo.quote Demo.repr).
Local Abbreviation d_run :=
  (run Demo.send Demo.loads Demo.dumps Demo.response_json Demo.quote Demo.repr).
Local Abbreviation d_run_all :=
  (run_all Demo.send Demo.loads Demo.dumps Demo.response_json Demo.quote Demo.repr).

Local Abbreviation success :=
  (Value (Demo.doc [("http_status", VInt 200); ("status", VStr "success")])).

(** A PUT answered 404 is followed by the schema request of [post] and by
    the POST, whose answer is the result. *)
Lemma set_update_then_create_witness :
  let data := Demo.doc [("name", VStr "a1"); ("subnet", VStr "10.0.0.0/24")] in
  let w := Demo.facing Demo.logged_in
             [Demo.answer 404 "not found"; Demo.answer 200 "schema: mkey is name";
              Demo.answer 200 "success"] in
  fst (d_set "firewall" "address" data (VStr "a1") (Some "root") VNone w)
  = Ok success
  /\ map req_method
       (sent (snd (d_set "firewall" "address" data (VStr "a1") (Some "root") VNone w)))
     = [PUT; GET; POST].
Proof.
  intros data w.
  edestruct (@set_update_then_create _ Demo.send Demo.loads Demo.dumps Demo.quote
               Demo.repr "firewall" "address" data (VStr "a1") (Some "root") VNone)
    as (_ & _ & E);
    [ instantiate (3 := w); lazy; reflexivity | lazy; reflexivity
    | lazy; reflexivity | ].
  rewrite E. split; reflexivity.
Defined.


(** Two cookies that [update_cookie] acts on, with different values: the
    header is not the value of the first one. *)
Lemma csrf_header_first_cookie_counterexample :
  let c1 := {| Cookie.name := "ccsrftoken"; Cookie.value := "'first'" |} in
  let c2 := {| Cookie.name := "ccsrftoken_443"; Cookie.value := "'second'" |} in
  let w := Demo.facing (with_cookies [c1; c2] Demo.logged_in) [] in
  In c1 (cookies (self w)) /\ is_csrf_cookie c1 = true
  /\ headers_get (headers (self (snd (update_cookie w)))) "X-CSRFTOKEN"
     <> Some (slice_1_m1 (Cookie.value c1)).
Proof.
  intros c1 c2 w. split; [ now left | split; [ reflexivity | ] ].
  vm_compute. discriminate.
Defined.

Lemma csrf_header_follows_last_cookie_witness :
  let c1 := {| Cookie.name := "ccsrftoken"; Cookie.value := "'first'" |} in
  let c2 := {| Cookie.name := "ccsrftoken_443"; Cookie.value := "'second'" |} in
  let w := Demo.facing (with_cookies [c1; c2] Demo.logged_in)
             [Demo.answer 200 "success"; Demo.answer 200 "success"] in
  let cs := [Call_get "system" "global" None VNone VNone;
             Call_set "system" "global" (Demo.doc [("hostname", VStr "fw1")])
               (VStr "x") None VNone] in
  map (fun req => headers_get (req_headers req) "X-CSRFTOKEN")
    (sent (d_run_all cs (snd (update_cookie w))))
  = [Some "second"; Some "second"].
Proof.
  intros c1 c2 w cs.
  destruct (@csrf_header_follows_last_cookie _ Demo.send Demo.loads Demo.dumps
              Demo.response_json Demo.quote Demo.repr w c2 cs eq_refl eq_refl)
    as (_ & _ & _ & _ & news & Hs & Hall).
  reflexivity.
Defined.

(** The license recorded as invalid on a logged object: [get] stops with
    [InvalidLicense], [formatresponse] with a plain exception. *)
Lemma formatresponse_raises_plain_exception_witness :
  let w := Demo.facing (with_license (VStr "Invalid") Demo.logged_in)
             [Demo.answer 200 "success"] in
  let res := Response {| status_code := 200; content := "success" |} in
  formatresponse Demo.loads res (Some "root") w
  = (Raise (PyException "invalid license"), w)
  /\ fst (formatresponse Demo.loads res (Some "root") w) <> Raise InvalidLicense
  /\ d_get "system" "status" None VNone VNone w = (Raise InvalidLicense, w).
Proof.
  intros w res.
  destruct (@formatresponse_raises_plain_exception _ Demo.send Demo.loads
              Demo.dumps Demo.quote Demo.repr w eq_refl) as (H1 & H2 & H3).
  split; [ apply H1 | ]. split; [ apply H2 | ].
  destruct (H3 eq_refl) as (_ & Hops). apply (proj1 Hops).
Defined.


Lemma identity_absence_is_soft_witness :
  let w1 := Demo.facing Demo.logged_in [Demo.answer 200 "schema: no mkey"] in
  let w2 := Demo.facing Demo.logged_in [Demo.answer 200 "schema: mkey is name"] in
  let data := Demo.doc [("subnet", VStr "10.0.0.0/24")] in
  fst (d_get_mkeyname "system" "global" None w1) = Ok (VBool false)
  /\ fst (d_get_mkey "system" "global" data None w1) = Ok VNone
  /\ fst (d_get_mkeyname "firewall" "address" None w2) = Ok (VStr "name")
  /\ fst (d_get_mkey "firewall" "address" data None w2) = Ok VNone.
Proof.
  intros w1 w2 data.
  edestruct (@identity_absence_is_soft _ Demo.send Demo.loads Demo.quote Demo.repr
               "system" "global" None data) with (w := w1) as (H1 & _);
    [ lazy; reflexivity | ].
  destruct (H1 eq_refl) as (A & B).
  edestruct (@identity_absence_is_soft _ Demo.send Demo.loads Demo.quote Demo.repr
               "firewall" "address" None data) with (w := w2) as (_ & H2);
    [ lazy; reflexivity | ].
  destruct (H2 (VStr "name") _ eq_refl eq_refl eq_refl eq_refl) as (C & D).
  rewrite A, B, C, D. repeat split.
Defined.

(** The payload says "wrong" under the key field; the body sent says "a1",
    and the URL is the one of the collection.  With a schema that names no
    key field, the body carries "a1" under the key [False]. *)
Lemma post_injects_mkey_witness :
  let d := [(VStr "name", VStr "wrong"); (VStr "subnet", VStr "10.0.0.0/24")] in
  let w := Demo.facing Demo.logged_in
             [Demo.answer 200 "schema: mkey is name"; Demo.answer 200 "success"] in
  let w' := Demo.facing Demo.logged_in
              [Demo.answer 200 "schema: no mkey"; Demo.answer 200 "success"] in
  map (fun req => (req_method req, req_url req, req_data req))
    (sent (snd (d_post "firewall" "address" (VDict d) (Some "root") (VStr "a1")
                  VNone w)))
  = [(GET, "https://fgt/api/v2/cmdb/firewall/address?vdom=root&action=schema", VNone);
     (POST, "https://fgt/api/v2/cmdb/firewall/address?vdom=root",
      VStr "name:a1,subnet:10.0.0.0/24")]
  /\ map (fun req => (req_method req, req_url req, req_data req))
       (sent (snd (d_post "firewall" "address" (VDict d) (Some "root") (VStr "a1")
                     VNone w')))
     = [(GET, "https://fgt/api/v2/cmdb/firewall/address?vdom=root&action=schema", VNone);
        (POST, "https://fgt/api/v2/cmdb/firewall/address?vdom=root",
         VStr "name:wrong,subnet:10.0.0.0/24,false:a1")]
  /\ dict_get (dict_set d (VBool false) (VStr "a1")) (VBool false) = Some (VStr "a1").
Proof.
  intros d w w'.
  edestruct (@post_injects_mkey _ Demo.send Demo.loads Demo.dumps Demo.quote
               Demo.repr "firewall" "address" d (Some "root") (VStr "a1") VNone)
    with (w := w) as (p & Hp & H);
    [ reflexivity | lazy; reflexivity | ].
  edestruct (@post_injects_mkey _ Demo.send Demo.loads Demo.dumps Demo.quote
               Demo.repr "firewall" "address" d (Some "root") (VStr "a1") VNone)
    with (w := w') as (p' & Hp' & H');
    [ reflexivity | lazy; reflexivity | ].
  cbv zeta in H, H'. destruct H as (Hnamed & _). destruct H' as (_ & Hnone).
  destruct (Hnamed (VStr "name") eq_refl eq_refl) as (_ & Hs).
  destruct (Hnone [(VStr "category", VStr "complex")] eq_refl eq_refl)
    as (_ & Hget & Hs').
  injection Hp as <-. injection Hp' as <-.
  split; [ rewrite Hs; reflexivity | ]. split; [ rewrite Hs'; reflexivity | ].
  exact Hget.
Defined.

(** A new object, a token login and a logout. *)
Lemma license_never_invalid_witness :
  let w := snd (d_run Call_logout
                  (snd (d_run (Call_tokenlogin "fgt" "token" (VBool true) VNone
                                 (VInt 12) None)
                          (fresh Demo.default_headers
                             [Demo.answer 200 "status"; Demo.answer 200 "success"])))) in
  _license (self w) = VStr "Valid"
  /\ license_unset_or_valid (self w)
  /\ fst (check_session w) <> Raise InvalidLicense.
Proof.
  intros w.
  destruct (@license_never_invalid _ Demo.send Demo.loads Demo.dumps
              Demo.response_json Demo.quote Demo.repr Demo.default_headers w)
    as (_ & Hl & Hc & _).
  { subst w. apply reachable_run. apply reachable_run. apply reachable_fresh. }
  split; [ reflexivity | split; [ exact Hl | exact Hc ] ].
Defined.

(** The second request still asks for "before". *)
Lemma move_shares_default_parameters_witness :
  let w := Demo.facing Demo.logged_in
             [Demo.answer 200 "success"; Demo.answer 200 "success"] in
  let w1 := snd (d_move "firewall" "policy" None (VInt 5) (VStr "before") (VInt 3)
                   None w) in
  let w2 := snd (d_move "firewall" "policy" None (VInt 8) (VStr "after") (VInt 7)
                   None w1) in
  map req_params (sent w2)
  = [VDict [(VStr "action", VStr "move"); (VStr "before", VStr "3")];
     VDict [(VStr "action", VStr "move"); (VStr "before", VStr "3");
            (VStr "after", VStr "7")]].
Proof.
  intros w w1 w2.
  destruct (@move_shares_default_parameters _ Demo.send Demo.loads Demo.quote
              Demo.repr "firewall" "policy" None (VInt 5) (VStr "before") (VInt 3)
              "firewall" "policy" None (VInt 8) (VStr "after") (VInt 7) w)
    as (req & d & Hs & Hp & Hd & _).
  - split; [ reflexivity | split; [ reflexivity | ] ]. eexists. reflexivity.
  - reflexivity.
  - reflexivity.
  - fold w1 in Hs, Hd. fold w2 in Hs. rewrite Hs, map_app. simpl map.
    rewrite Hp, Hd. reflexivity.
Defined.

(** ** More examples, on the two scripted appliances *)

Local Abbreviation d_put := (put Demo.send Lab.loads Demo.dumps Demo.quote Demo.repr).
Local Abbreviation d_delete :=
  (delete Demo.send Lab.loads Demo.dumps Demo.quote Demo.repr).
Local Abbreviation d_schema := (schema Demo.send Lab.loads Demo.quote Demo.repr).
Local Abbreviation l_login :=
  (login Lab.send Lab.loads Lab.response_json Demo.quote Demo.repr).
Local Abbreviation l_get := (get Lab.send Lab.loads Demo.quote Demo.repr).

Local Abbreviation html := {| status_code := 200; content := "<html>" |}.

Lemma demo_usable (s : Demo.script) : usable (Demo.facing Demo.logged_in s).
Proof.
  split; [ reflexivity | split; [ reflexivity | ] ].
  exists "https://fgt". reflexivity.
Defined.

(** The first of two documents, tagged. *)
Lemma formatresponse_global_first_witness :
  let w := Demo.facing Demo.logged_in [] in
  formatresponse Lab.loads
    (Response {| status_code := 200; content := "two vdoms" |}) (Some "global") w
  = (Ok (Value (Demo.doc [("http_status", VInt 200); ("status", VStr "success");
                          ("vdom", VStr "global")])), w).
Proof.
  intros w.
  exact (@formatresponse_global_first _ Lab.loads
           {| status_code := 200; content := "two vdoms" |}
           [(VStr "http_status", VInt 200); (VStr "status", VStr "success")]
           [Demo.doc [("http_status", VInt 200); ("status", VStr "error")]]
           w eq_refl eq_refl).
Defined.

(** A page of HTML, and for "global" a single document or an empty list,
    come back as the response. *)
Lemma formatresponse_hands_back_undecodable_witness :
  let w := Demo.facing Demo.logged_in [] in
  formatresponse Lab.loads (Response html) (Some "root") w = (Ok (Response html), w)
  /\ formatresponse Lab.loads
       (Response {| status_code := 200; content := "success" |}) (Some "global") w
     = (Ok (Response {| status_code := 200; content := "success" |}), w)
  /\ formatresponse Lab.loads
       (Response {| status_code := 200; content := "no vdom" |}) (Some "global") w
     = (Ok (Response {| status_code := 200; content := "no vdom" |}), w).
Proof.
  intros w.
  destruct (@formatresponse_hands_back_undecodable _ Lab.loads w eq_refl)
    as (H1 & H2 & H3 & _).
  split; [ apply H1; reflexivity | ].
  split; [ | apply H3; reflexivity ].
  apply (H2 {| status_code := 200; content := "success" |}
            [(VStr "http_status", VInt 200); (VStr "status", VStr "success")]);
    reflexivity.
Defined.

Lemma formatresponse_twice_witness :
  let w := Demo.facing Demo.logged_in [] in
  w = w
  /\ formatresponse Lab.loads success (Some "root") w = (Ok success, w).
Proof.
  intros w.
  exact (@formatresponse_twice _ Lab.loads
           (Response {| status_code := 200; content := "success" |})
           (Some "root") w w success eq_refl).
Defined.

(** The identity 0 is dropped: the request goes to the table. *)
Lemma falsy_identity_is_no_identity_witness :
  let w := Demo.facing Demo.logged_in [Demo.answer 200 "success"] in
  d_get "firewall" "policy" (Some "root") (VInt 0) VNone w
  = d_get "firewall" "policy" (Some "root") VNone VNone w
  /\ map req_url
       (sent (snd (d_get "firewall" "policy" (Some "root") (VInt 0) VNone w)))
     = ["https://fgt/api/v2/cmdb/firewall/policy?vdom=root"].
Proof.
  intros w.
  destruct (@falsy_identity_is_no_identity _ Demo.send Demo.loads Demo.quote
              Demo.repr "firewall" "policy" (Some "root") (VInt 0) VNone w eq_refl)
    as (_ & _ & H & _).
  split; [ exact H | reflexivity ].
Defined.

Lemma put_delete_address_item_witness :
  let w := Demo.facing Demo.logged_in [Demo.answer 200 "success"] in
  map (fun r => (req_method r, req_url r))
    (sent (snd (d_delete "firewall" "address" (Some "root") (VStr "a1") VNone VNone w)))
  = [(DELETE, "https://fgt/api/v2/cmdb/firewall/address/a1?vdom=root")].
Proof.
  intros w.
  destruct (@put_delete_address_item _ Demo.send Lab.loads Demo.dumps Demo.quote
              Demo.repr "firewall" "address" (Some "root") (VStr "a1") VNone VNone
              w (demo_usable _) eq_refl)
    as (p & Hp & H).
  cbv zeta in H. destruct H as (_ & Hdel). rewrite Hdel.
  injection Hp as <-. reflexivity.
Defined.

(** After [logout], with a CSRF cookie and a bearer token: no cookie, the
    headers as before, and [get] raises [NotLogged]. *)
Lemma logout_ends_session_witness :
  let w := Lab.facing Lab.with_token [Lab.answer 200 "" []] in
  let w' := snd (logout Lab.send w) in
  fst (logout Lab.send w) = Ok tt
  /\ cookies (self w') = []
  /\ _logged (self w') = false
  /\ _license (self w') = VStr "Valid"
  /\ headers_get (headers (self w')) "Authorization" = Some "Bearer t0"
  /\ l_get "system" "status" None VNone VNone w' = (Raise NotLogged, w').
Proof.
  intros w w'.
  destruct (@logout_ends_session _ Lab.send Lab.loads Demo.dumps Demo.quote
              Demo.repr w "https://fgt" {| status_code := 200; content := "" |}
              eq_refl eq_refl)
    as (H1 & _ & H3 & H4 & H5 & H6 & _ & H8).
  split; [ exact H1 | ]. split; [ exact H3 | ]. split; [ exact H4 | ].
  split; [ exact H5 | ]. split; [ reflexivity | ].
  apply (proj1 H8).
Defined.

(** The connection fails: still logged in. *)
Lemma logout_failure_keeps_session_witness :
  let w := Lab.facing Lab.with_token [] in
  fst (logout Lab.send w) = Raise RequestException
  /\ _logged (self (snd (logout Lab.send w))) = true.
Proof.
  intros w.
  destruct (@logout_failure_keeps_session _ Lab.send w "https://fgt"
              RequestException eq_refl eq_refl)
    as (H1 & H2 & _).
  rewrite H1. split; [ reflexivity | exact H2 ].
Defined.

(** The bearer token is not touched when the CSRF header is written. *)
Lemma update_cookie_touches_one_header_witness :
  let w := Lab.facing Lab.with_token [] in
  headers_get (headers (self (snd (update_cookie w)))) "Authorization"
  = Some "Bearer t0"
  /\ headers_get (headers (self (snd (update_cookie w)))) "X-CSRFTOKEN"
     = Some "abc".
Proof.
  intros w.
  destruct (@update_cookie_touches_one_header _ w "Authorization" eq_refl)
    as (H & _).
  split; [ rewrite H; reflexivity | reflexivity ].
Defined.

(** A list as [where]: nothing sent, "action" left in the shared default. *)
Lemma move_unhashable_where_witness :
  let w := Demo.facing Demo.logged_in [Demo.answer 200 "success"] in
  let r := d_move "firewall" "policy" (Some "root") (VInt 1) (VList []) (VInt 2)
             None w in
  fst r = Raise TypeError
  /\ sent (snd r) = []
  /\ move_parameters (snd r) = [(VStr "action", VStr "move")].
Proof.
  intros w r.
  destruct (@move_unhashable_where _ Demo.send Demo.loads Demo.quote Demo.repr
              "firewall" "policy" (Some "root") (VInt 1) (VList []) (VInt 2) w
              (demo_usable _) eq_refl)
    as (H1 & H2 & _ & H4 & _).
  split; [ exact H1 | ]. split; [ exact H2 | exact H4 ].
Defined.

(** The listing, asked by an object that is not logged in. *)
Lemma get_name_path_dict_lists_witness :
  let w := Demo.facing Lab.turned_away [Demo.answer 200 "listing"] in
  fst (get_name_path_dict Demo.send Lab.loads (Some "root") w)
  = Ok ["firewall address"; "system global"]
  /\ map req_url (sent (snd (get_name_path_dict Demo.send Lab.loads (Some "root") w)))
     = ["https://fgt/api/v2/cmdb/?vdom=root&action=schema"].
Proof.
  intros w.
  assert (H := @get_name_path_dict_lists _ Demo.send Lab.loads (Some "root") w
                 "https://fgt" {| status_code := 200; content := "listing" |}
                 (Demo.doc
                    [("results",
                      VList [Demo.doc [("path", VStr "firewall"); ("name", VStr "address")];
                             Demo.doc [("path", VStr "system.__tree__"); ("name", VStr "x")];
                             Demo.doc [("path", VStr "system"); ("name", VStr "global")]])])
                 [Demo.doc [("path", VStr "firewall"); ("name", VStr "address")];
                  Demo.doc [("path", VStr "system.__tree__"); ("name", VStr "x")];
                  Demo.doc [("path", VStr "system"); ("name", VStr "global")]]
                 [("firewall", "address"); ("system.__tree__", "x"); ("system", "global")]
                 eq_refl eq_refl eq_refl eq_refl).
  cbv zeta in H. rewrite H.
  - split; reflexivity.
  - repeat constructor.
Defined.

(** A page of HTML instead of the schema: [put] without an identity stops
    after its first request. *)
Lemma undecodable_schema_stops_witness :
  let w := Demo.facing Demo.logged_in [Demo.answer 200 "<html>"; Demo.answer 200 "success"] in
  let data := Demo.doc [("name", VStr "a1")] in
  fst (d_put "firewall" "address" (Some "root") VNone VNone data w) = Raise ValueError
  /\ map req_method
       (sent (snd (d_put "firewall" "address" (Some "root") VNone VNone data w)))
     = [GET].
Proof.
  intros w data.
  destruct (@undecodable_schema_stops _ Demo.send Lab.loads Demo.dumps Demo.quote
              Demo.repr "firewall" "address" (Some "root") VNone VNone data w
              "https://fgt" html eq_refl eq_refl eq_refl eq_refl eq_refl)
    as (_ & _ & _ & H & _).
  destruct (H eq_refl) as (Hput & _). rewrite Hput. split; reflexivity.
Defined.

(** The identity comes from the payload, under the key that the schema
    names. *)
Lemma put_delete_resolve_identity_witness :
  let w := Demo.facing Demo.logged_in
             [Demo.answer 200 "schema: mkey is name"; Demo.answer 200 "success"] in
  let d := [(VStr "name", VStr "a1"); (VStr "subnet", VStr "10.0.0.0/24")] in
  map (fun r => (req_method r, req_url r))
    (sent (snd (d_put "firewall" "address" (Some "root") VNone VNone (VDict d) w)))
  = [(GET, "https://fgt/api/v2/cmdb/firewall/address?vdom=root&action=schema");
     (PUT, "https://fgt/api/v2/cmdb/firewall/address/a1?vdom=root")].
Proof.
  intros w d.
  destruct (@put_delete_resolve_identity _ Demo.send Lab.loads Demo.dumps
              Demo.quote Demo.repr "firewall" "address" (Some "root") VNone VNone d
              (Demo.doc [("mkey", VStr "name")]) (VStr "name") (VStr "a1") w
              (snd (d_schema "firewall" "address" (Some "root") w)) "https://fgt"
              eq_refl eq_refl eq_refl eq_refl eq_refl eq_refl eq_refl)
    as (Hput & _).
  rewrite Hput. reflexivity.
Defined.

(** A page of HTML in answer to the PUT of [set]. *)
Lemma set_undecodable_answer_witness :
  let w := Demo.facing Demo.logged_in [Demo.answer 200 "<html>"; Demo.answer 200 "success"] in
  let r := set Demo.send Lab.loads Demo.dumps Demo.quote Demo.repr
             "firewall" "address" (Demo.doc [("subnet", VStr "10.0.0.0/24")])
             (VStr "a1") (Some "root") VNone w in
  fst r = Raise TypeError /\ map req_method (sent (snd r)) = [PUT].
Proof.
  intros w r. subst r.
  rewrite (@set_undecodable_answer _ Demo.send Lab.loads Demo.dumps Demo.quote
             Demo.repr "firewall" "address" (Demo.doc [("subnet", VStr "10.0.0.0/24")])
             (VStr "a1") (Some "root") VNone w "https://fgt" html
             eq_refl eq_refl eq_refl eq_refl eq_refl eq_refl).
  split; reflexivity.
Defined.

Lemma lab_transport_own_errors : transport_own_errors Lab.send.
Proof. intros req jar [ | [r cs] s ]; discriminate. Defined.

(** A new object, a marker "1" with a CSRF cookie, and a license status
    with a version: logged in.  A marker "0": [NotLogged], not logged in. *)
Lemma login_outcome_witness :
  let cookie := {| Cookie.name := "ccsrftoken"; Cookie.value := "'abc'" |} in
  let w := Lab.facing (init Demo.default_headers)
             [Lab.answer 200 "1" [cookie]; Lab.answer 200 "status" []] in
  let w0 := Lab.facing (init Demo.default_headers) [Lab.answer 200 "0" []] in
  let r := l_login "fgt" "admin" "secret" (VBool true) VNone (VInt 12) "root" w in
  let r0 := l_login "fgt" "admin" "secret" (VBool true) VNone (VInt 12) "root" w0 in
  fst r = Ok true /\ _logged (self (snd r)) = true
  /\ fst r0 = Raise NotLogged /\ _logged (self (snd r0)) = false.
Proof.
  intros cookie w w0 r r0.
  destruct (@login_outcome _ Lab.send Lab.loads Lab.response_json Demo.quote
              Demo.repr "fgt" "admin" "secret" (VBool true) VNone (VInt 12) "root"
              w lab_transport_own_errors) as (H & _).
  destruct (@login_outcome _ Lab.send Lab.loads Lab.response_json Demo.quote
              Demo.repr "fgt" "admin" "secret" (VBool true) VNone (VInt 12) "root"
              w0 lab_transport_own_errors) as (_ & H0 & _).
  split; [ reflexivity | ]. split; [ exact (proj2 (H true eq_refl)) | ].
  split; [ reflexivity | exact (H0 eq_refl) ].
Defined.

Lemma two_tables_only : tables_only Demo.two_tables.
Proof.
  split.
  - repeat constructor. intros [].
  - repeat constructor.
    + intros [H | []]. discriminate H.
    + intros [].
Defined.

(** Two tables with a row each: the call is the second pass. *)
Lemma setoverlayconfig_tables_only_witness :
  let w := Demo.facing Demo.logged_in
             [Demo.answer 200 "success"; Demo.answer 200 "success"] in
  d_setoverlayconfig Demo.two_tables (Some "root") w
  = d_table_names (Some "root") Demo.two_tables false w
  /\ map (fun r => (req_method r, req_url r))
       (sent (snd (d_setoverlayconfig Demo.two_tables (Some "root") w)))
     = [(PUT, "https://fgt/api/v2/cmdb/firewall/address/a1?vdom=root");
        (PUT, "https://fgt/api/v2/cmdb/firewall/policy/1?vdom=root")].
Proof.
  intros w.
  destruct (@setoverlayconfig_tables_only _ Demo.send Demo.loads Demo.dumps
              Demo.quote Demo.repr Demo.two_tables (Some "root") w two_tables_only)
    as (_ & H).
  split; [ exact H | reflexivity ].
Defined.

(** Turned away at the login: nothing leaves through [download] or
    [schema]. *)
Lemma not_logged_sends_nothing_witness :
  let w := Demo.facing Lab.turned_away [Demo.answer 200 "success"] in
  download Demo.send Demo.quote Demo.repr "system" "config/backup" None VNone VNone w
  = (Raise NotLogged, w)
  /\ d_schema "firewall" "address" None w = (Raise NotLogged, w).
Proof.
  intros w.
  destruct (@not_logged_sends_nothing _ Demo.send Lab.loads Demo.dumps Demo.quote
              Demo.repr w eq_refl)
    as (_ & H1 & _ & H2 & _).
  split; [ apply H1 | apply H2 ].
Defined.

(** The version and the CSRF header after a login that goes through. *)
Lemma login_learns_version_witness :
  let cookie := {| Cookie.name := "ccsrftoken"; Cookie.value := "'abc'" |} in
  let w := Lab.facing (init Demo.default_headers)
             [Lab.answer 200 "1" [cookie]; Lab.answer 200 "status" []] in
  let r := l_login "fgt" "admin" "secret" (VBool true) VNone (VInt 12) "root" w in
  fst r = Ok true
  /\ _fortiversion (self (snd r)) = VStr "v7.0.0"
  /\ headers_get (headers (self (snd r))) "X-CSRFTOKEN" = Some "abc"
  /\ map (fun q => (req_method q, req_url q)) (sent (snd r))
     = [(POST, "https://fgt/logincheck");
        (GET, "https://fgt/api/v2/monitor/license/status")].
Proof.
  intros cookie w r. subst r.
  destruct (@login_learns_version _ Lab.send Lab.loads Lab.response_json
              Demo.quote Demo.repr "fgt" "admin" "secret" (VBool true) VNone
              (VInt 12) "root" w
              {| status_code := 200; content := "1" |}
              {| status_code := 200; content := "status" |}
              [(VStr "http_status", VInt 200); (VStr "status", VStr "success");
               (VStr "version", VStr "v7.0.0")]
              eq_refl eq_refl eq_refl eq_refl eq_refl)
    as (H & _).
  rewrite (H (VStr "v7.0.0") eq_refl).
  repeat split.
Defined.

(** A payload posted without an identity: one POST to the table. *)
Lemma post_execute_single_request_witness :
  let w := Demo.facing Demo.logged_in [Demo.answer 200 "success"] in
  let data := Demo.doc [("name", VStr "a1")] in
  map (fun r => (req_method r, req_url r, req_data r))
    (sent (snd (d_post "firewall" "address" data (Some "root") VNone VNone w)))
  = [(POST, "https://fgt/api/v2/cmdb/firewall/address?vdom=root", VStr "name:a1")].
Proof.
  intros w data.
  destruct (@post_execute_single_request _ Demo.send Demo.loads Demo.dumps
              Demo.quote Demo.repr "firewall" "address" data (Some "root") VNone
              VNone w "https://fgt" eq_refl eq_refl eq_refl)
    as (H & _).
  rewrite (H eq_refl). reflexivity.
Defined.

(** The schema is answered 404: [delete] without an identity sends its
    DELETE to the table. *)
Lemma refused_schema_addresses_table_witness :
  let w := Demo.facing Demo.logged_in
             [Demo.answer 404 "not found"; Demo.answer 200 "success"] in
  let data := Demo.doc [("name", VStr "a1")] in
  d_get_mkey "firewall" "address" data (Some "root") w
  = (Ok VNone, snd (d_get_mkey "firewall" "address" data (Some "root") w))
  /\ map (fun r => (req_method r, req_url r))
       (sent (snd (d_delete "firewall" "address" (Some "root") VNone VNone data w)))
     = [(GET, "https://fgt/api/v2/cmdb/firewall/address?vdom=root&action=schema");
        (DELETE, "https://fgt/api/v2/cmdb/firewall/address?vdom=root")].
Proof.
  intros w data.
  destruct (@refused_schema_addresses_table _ Demo.send Lab.loads Demo.dumps
              Demo.quote Demo.repr "firewall" "address" (Some "root") VNone VNone
              data w "https://fgt" {| status_code := 404; content := "not found" |}
              [(VStr "http_status", VInt 404); (VStr "status", VStr "error")]
              eq_refl eq_refl eq_refl eq_refl eq_refl eq_refl eq_refl eq_refl)
    as (_ & _ & _ & Hdel).
  split; [ reflexivity | ]. rewrite Hdel. reflexivity.
Defined.

Lemma one_scalar_single : single_scalars Demo.one_scalar.
Proof.
  split.
  - repeat constructor. intros [].
  - repeat constructor.
    + intros [].
    + exists (VStr "hostname"), (VStr "fw1"). repeat split.
Defined.

(** One setting: the schema is asked for an identity, then the PUT goes to
    the table. *)
Lemma setoverlayconfig_single_scalars_witness :
  let w := Demo.facing Demo.logged_in
             [Demo.answer 200 "schema: no mkey"; Demo.answer 200 "success"] in
  fst (d_setoverlayconfig Demo.one_scalar (Some "root") w) = Ok true
  /\ map (fun r => (req_method r, req_url r))
       (sent (snd (d_setoverlayconfig Demo.one_scalar (Some "root") w)))
     = [(GET, "https://fgt/api/v2/cmdb/system/global?vdom=root&action=schema");
        (PUT, "https://fgt/api/v2/cmdb/system/global?vdom=root")].
Proof.
  intros w.
  destruct (@setoverlayconfig_single_scalars _ Demo.send Demo.loads Demo.dumps
              Demo.quote Demo.repr Demo.one_scalar (Some "root") w one_scalar_single)
    as (_ & H).
  rewrite H. split; reflexivity.
Defined.
